(** * Excel File Comparison Tool (v4.0.0): the comparison engine

    A shallow embedding of the comparison engine of [ExcelComparator]
    (the value classifier, the cell differ, the sheet aligner, the structure
    validator and the two report layouts), together with the JavaScript
    primitives it relies on:

    - JavaScript numbers are IEEE 754 binary64 values, modelled by the
      Standard Library's executable specification [spec_float] at precision
      53 and maximal exponent 1024;
    - JavaScript strings are modelled by [string]; every character is one
      code unit below 256, and [trim] and [toLowerCase] know the white
      space and the letters among these;
    - the SheetJS workbook ([XLSX]) is an external library: a sheet is
      modelled by the array of arrays that [sheet_to_json] with
      [{header: 1, defval: ''}] returns for it, and by its cell objects, which
      are kept under their decoded address [(r, c)], so that
      [XLSX.utils.encode_cell] and [decode_cell] are the identity. *)

From Stdlib Require Import ZArith Ascii String.
From Stdlib Require Import Floats.SpecFloat.
From Stdlib Require Import Numbers.DecimalString.
From stdpp Require Import gmap strings list.

Local Open Scope Z_scope.

(** ** IEEE 754 binary64 numbers *)

Module Num.

Definition prec : Z := 53.
Definition emax : Z := 1024.

Definition number : Type := spec_float.

Definition NaN : number := S754_nan.
Definition zero : number := S754_zero false.

Definition add : number -> number -> number := SFadd prec emax.
Definition sub : number -> number -> number := SFsub prec emax.
Definition mul : number -> number -> number := SFmul prec emax.
Definition opp : number -> number := SFopp.

(** [Math.abs] *)
Definition abs : number -> number := SFabs.

(** [x < y], [x <= y], [x > y], [x >= y] and [x === y] on numbers; every
    comparison with [NaN] is false. *)
Definition ltb : number -> number -> bool := SFltb.
Definition leb : number -> number -> bool := SFleb.
Definition gtb (x y : number) : bool := SFltb y x.
Definition geb (x y : number) : bool := SFleb y x.
Definition eqb : number -> number -> bool := SFeqb.

Definition is_nan (x : number) : bool :=
  match x with S754_nan => true | _ => false end.

(** Structural equality of two numbers (the same datum, not [===]). *)
Definition same (x y : number) : bool :=
  match x, y with
  | S754_zero a, S754_zero b => Bool.eqb a b
  | S754_infinity a, S754_infinity b => Bool.eqb a b
  | S754_nan, S754_nan => true
  | S754_finite a m e, S754_finite b n f =>
      Bool.eqb a b && (m =? n)%positive && (e =? f)
  | _, _ => false
  end.

(** The number nearest to [(-1)^neg * m * 10^e10], ties to even: the value
    of a decimal literal with digits [m] and decimal exponent [e10]. *)
Definition of_decimal (neg : bool) (m : Z) (e10 : Z) : number :=
  match m with
  | Zpos p =>
      if 0 <=? e10
      then binary_normalize prec emax (cond_Zopp neg (Zpos p * 10 ^ e10)) 0 false
      else SFdiv prec emax (S754_finite neg p 0)
                           (S754_finite false (Z.to_pos (10 ^ (- e10))) 0)
  | _ => S754_zero neg
  end.

Definition of_Z (z : Z) : number := binary_normalize prec emax z 0 false.

End Num.

Abbreviation number := Num.number.

(** ** JavaScript strings *)

Module Str.

Local Open Scope string_scope.
Local Open Scope N_scope.

Definition code (c : ascii) : N := N_of_ascii c.

(** White space and line terminators (TAB, LF, VT, FF, CR, SP and the
    no-break space U+00A0). *)
Definition is_white_space (c : ascii) : bool :=
  ((9 <=? code c) && (code c <=? 13)) || (code c =? 32) || (code c =? 160).

Definition is_digit (c : ascii) : bool :=
  (48 <=? code c) && (code c <=? 57).

Definition digit_value (c : ascii) : Z := Z.of_N (code c - 48).

(** The characters matched by the regular expression class [\w]. *)
Definition is_word_char (c : ascii) : bool :=
  is_digit c
  || ((65 <=? code c) && (code c <=? 90))
  || ((97 <=? code c) && (code c <=? 122))
  || (code c =? 95).

Definition isEmpty (s : string) : bool :=
  match s with EmptyString => true | _ => false end.

Fixpoint trimStart (s : string) : string :=
  match s with
  | String c s' => if is_white_space c then trimStart s' else s
  | EmptyString => EmptyString
  end.

Fixpoint trimEnd (s : string) : string :=
  match s with
  | String c s' =>
      let t := trimEnd s' in
      if is_white_space c && isEmpty t then EmptyString else String c t
  | EmptyString => EmptyString
  end.

(** [s.trim()] *)
Definition trim (s : string) : string := trimEnd (trimStart s).

(** [s.endsWith(suffix)] *)
Fixpoint endsWith (s suffix : string) : bool :=
  if String.eqb s suffix then true
  else match s with
       | String _ s' => endsWith s' suffix
       | EmptyString => false
       end.

(** [s.slice(0, -1)] *)
Fixpoint slice_0_m1 (s : string) : string :=
  match s with
  | String c EmptyString => EmptyString
  | String c s' => String c (slice_0_m1 s')
  | EmptyString => EmptyString
  end.

(** [s.replace(/,/g, '')] *)
Fixpoint removeCommas (s : string) : string :=
  match s with
  | String c s' =>
      if Ascii.eqb c "," then removeCommas s' else String c (removeCommas s')
  | EmptyString => EmptyString
  end.

(** [s.includes(sub)] *)
Fixpoint includes (s sub : string) : bool :=
  if String.prefix sub s then true
  else match s with
       | String _ s' => includes s' sub
       | EmptyString => false
       end.

(** The lower case of a code unit: of the letters A to Z, and of the
    letters from U+00C0 to U+00DE (the sign U+00D7 is not one). *)
Definition lower (c : ascii) : ascii :=
  if ((65 <=? code c) && (code c <=? 90))
     || ((192 <=? code c) && (code c <=? 222) && negb (code c =? 215))
  then ascii_of_N (code c + 32) else c.

(** [s.toLowerCase()] *)
Fixpoint toLowerCase (s : string) : string :=
  match s with
  | String c s' => String (lower c) (toLowerCase s')
  | EmptyString => EmptyString
  end.

(** [s.split('.')] *)
Fixpoint split_dot (s : string) : list string :=
  match s with
  | String c s' =>
      if Ascii.eqb c "." then EmptyString :: split_dot s'
      else match split_dot s' with
           | h :: t => String c h :: t
           | [] => [String c EmptyString]
           end
  | EmptyString => [EmptyString]
  end.

(** [parts.join('.')] *)
Definition join_dot (parts : list string) : string := String.concat "." parts.

(** [n] copies of the character ["0"]. *)
Fixpoint zeros (n : nat) : string :=
  match n with
  | O => EmptyString
  | S n' => String "0" (zeros n')
  end.

(** The decimal digits of a natural number, ["0"] for zero. *)
Definition of_N (n : N) : string := NilZero.string_of_uint (N.to_uint n).

Definition of_nat (n : nat) : string := of_N (N.of_nat n).

End Str.

(** ** Numbers from strings: [Number(s)], [isNaN(s)] and [parseFloat(s)] *)

Module Parse.

Local Open Scope string_scope.
Local Open Scope Z_scope.

(** A [StrDecimalLiteral]: a signed [Infinity], or the signed digits [m]
    scaled by [10^e]. *)
Inductive literal : Type :=
| LitInfinity (neg : bool)
| LitDecimal (neg : bool) (m e : Z).

Definition literal_value (l : literal) : number :=
  match l with
  | LitInfinity neg => S754_infinity neg
  | LitDecimal neg m e => Num.of_decimal neg m e
  end.

(** The longest run of decimal digits in front of [s]: the digits read
    onto [acc], how many were read onto [n], and the rest of [s]. *)
Fixpoint scanDigits (s : string) (acc n : Z) : Z * Z * string :=
  match s with
  | String c s' =>
      if Str.is_digit c
      then scanDigits s' (10 * acc + Str.digit_value c) (n + 1)
      else (acc, n, s)
  | EmptyString => (acc, n, s)
  end.

Fixpoint stripPrefix (p s : string) : option string :=
  match p, s with
  | EmptyString, _ => Some s
  | String a p', String b s' => if Ascii.eqb a b then stripPrefix p' s' else None
  | String _ _, EmptyString => None
  end.

(** An optional [ExponentPart] in front of [s]: its value and the rest. *)
Definition scanExponent (s : string) : Z * string :=
  match s with
  | String c r =>
      if Ascii.eqb c "e" || Ascii.eqb c "E" then
        let '(neg, r') :=
          match r with
          | String "+" r' => (false, r')
          | String "-" r' => (true, r')
          | _ => (false, r)
          end in
        let '(v, n, rest) := scanDigits r' 0 0 in
        if n =? 0 then (0, s) else (cond_Zopp neg v, rest)
      else (0, s)
  | EmptyString => (0, s)
  end.

(** The longest [StrUnsignedDecimalLiteral] in front of [s]. *)
Definition scanUnsignedDecimal (neg : bool) (s : string)
  : option (literal * string) :=
  match stripPrefix "Infinity" s with
  | Some r => Some (LitInfinity neg, r)
  | None =>
      let '(ip, ni, r1) := scanDigits s 0 0 in
      match r1 with
      | String "." r1' =>
          let '(m, nf, r2) := scanDigits r1' ip 0 in
          if (ni =? 0) && (nf =? 0) then None
          else let '(ev, r3) := scanExponent r2 in
               Some (LitDecimal neg m (ev - nf), r3)
      | _ =>
          if ni =? 0 then None
          else let '(ev, r3) := scanExponent r1 in
               Some (LitDecimal neg ip ev, r3)
      end
  end.

(** The longest [StrDecimalLiteral] in front of [s]. *)
Definition scanDecimal (s : string) : option (literal * string) :=
  match s with
  | String "+" r => scanUnsignedDecimal false r
  | String "-" r => scanUnsignedDecimal true r
  | _ => scanUnsignedDecimal false s
  end.

Definition radix_digit (radix : Z) (c : ascii) : option Z :=
  let n := Z.of_N (Str.code c) in
  let v := if (48 <=? n) && (n <=? 57) then n - 48
           else if (97 <=? n) && (n <=? 102) then n - 87
           else if (65 <=? n) && (n <=? 70) then n - 55
           else radix in
  if v <? radix then Some v else None.

Fixpoint scanRadix (radix : Z) (s : string) (acc : Z) : option Z :=
  match s with
  | String c s' =>
      match radix_digit radix c with
      | Some v => scanRadix radix s' (radix * acc + v)
      | None => None
      end
  | EmptyString => Some acc
  end.

(** A [NonDecimalIntegerLiteral]: [0x], [0o] or [0b] and at least one
    digit of that radix. *)
Definition nonDecimal (s : string) : option Z :=
  match s with
  | String "0" (String x (String c r)) =>
      let body := String c r in
      if Ascii.eqb x "x" || Ascii.eqb x "X" then scanRadix 16 body 0
      else if Ascii.eqb x "o" || Ascii.eqb x "O" then scanRadix 8 body 0
      else if Ascii.eqb x "b" || Ascii.eqb x "B" then scanRadix 2 body 0
      else None
  | _ => None
  end.

(** [Number(s)] for a string [s] (the abstract operation StringToNumber). *)
Definition toNumber (s : string) : number :=
  let t := Str.trim s in
  if Str.isEmpty t then Num.zero
  else match nonDecimal t with
       | Some z => Num.of_Z z
       | None =>
           match scanDecimal t with
           | Some (l, EmptyString) => literal_value l
           | _ => Num.NaN
           end
       end.

(** [parseFloat(s)] for a string [s]. *)
Definition parseFloat (s : string) : number :=
  match scanDecimal (Str.trimStart s) with
  | Some (l, _) => literal_value l
  | None => Num.NaN
  end.

(** [isNaN(s)] for a string [s]. *)
Definition isNaN (s : string) : bool := Num.is_nan (toNumber s).

End Parse.

(** ** Strings from numbers: [x.toString()] and [x.toFixed(f)] *)

Module Print.

Local Open Scope string_scope.
Local Open Scope Z_scope.

(** [floor (m * 2^e * 10^p)] and the fraction left over, as the remainder
    of the division by the denominator [snd]. *)
Definition scaled (m : positive) (e p : Z) : Z * Z * Z :=
  let num := Zpos m * (if 0 <=? e then 2 ^ e else 1)
                    * (if 0 <=? p then 10 ^ p else 1) in
  let den := (if 0 <=? e then 1 else 2 ^ (- e))
             * (if 0 <=? p then 1 else 10 ^ (- p)) in
  (num / den, num mod den, den).

Definition scaled_floor (m : positive) (e p : Z) : Z := fst (fst (scaled m e p)).

Fixpoint leading (fuel : nat) (m : positive) (e j : Z) : Z :=
  match fuel with
  | O => j
  | S fuel' =>
      if 1 <=? scaled_floor m e j then j else leading fuel' m e (j + 1)
  end.

(** The integer [n] with [10^(n-1) <= m * 2^e < 10^n]. *)
Definition decimal_exponent (m : positive) (e : Z) : Z :=
  let fl := scaled_floor m e 0 in
  if 1 <=? fl then Z.of_nat (String.length (Str.of_N (Z.to_N fl)))
  else 1 - leading (Z.to_nat (- e)) m e 1.

Definition round_trips (m : positive) (e : Z) (s p : Z) : bool :=
  Num.same (Num.of_decimal false s (- p)) (S754_finite false m e).

(** The digits [s] of the shortest decimal [s * 10^(n-k)] whose number
    value is [m * 2^e], searched from [k] digits upwards; of two
    candidates the closer one, and the even one when they are as close. *)
Fixpoint shortest (fuel : nat) (m : positive) (e n k : Z) : Z * Z :=
  let '(lo, r, den) := scaled m e (k - n) in
  let hi := lo + 1 in
  match fuel with
  | O => (lo, k)
  | S fuel' =>
      let ok_lo := round_trips m e lo (k - n) in
      let ok_hi := round_trips m e hi (k - n) in
      if ok_lo && ok_hi then
        match 2 * r ?= den with
        | Lt => (lo, k)
        | Gt => (hi, k)
        | Eq => if Z.even lo then (lo, k) else (hi, k)
        end
      else if ok_lo then (lo, k)
      else if ok_hi then (hi, k)
      else shortest fuel' m e n (k + 1)
  end.

(** The digits, their number [k] and the exponent [n] of a positive
    finite number, as in Number::toString. *)
Definition digits (m : positive) (e : Z) : string * Z * Z :=
  let n := decimal_exponent m e in
  let '(s, k) := shortest 17 m e n 1 in
  if s =? 10 ^ k then (Str.of_N (Z.to_N (10 ^ (k - 1))), k, n + 1)
  else (Str.of_N (Z.to_N s), k, n).

Definition take (n : Z) (s : string) : string :=
  String.substring 0 (Z.to_nat n) s.

Definition drop (n : Z) (s : string) : string :=
  String.substring (Z.to_nat n) (String.length s - Z.to_nat n) s.

Definition positive_toString (m : positive) (e : Z) : string :=
  let '(ds, k, n) := digits m e in
  if (k <=? n) && (n <=? 21) then ds ++ Str.zeros (Z.to_nat (n - k))
  else if (0 <? n) && (n <=? 21) then take n ds ++ "." ++ drop n ds
  else if (-6 <? n) && (n <=? 0) then "0." ++ Str.zeros (Z.to_nat (- n)) ++ ds
  else
    let ex := (if n - 1 <? 0 then "-" else "+") ++ Str.of_N (Z.abs_N (n - 1)) in
    if k =? 1 then ds ++ "e" ++ ex
    else take 1 ds ++ "." ++ drop 1 ds ++ "e" ++ ex.

(** [x.toString()], also [String(x)], for a number [x]. *)
Definition toString (x : number) : string :=
  match x with
  | S754_nan => "NaN"
  | S754_zero _ => "0"
  | S754_infinity neg => if neg then "-Infinity" else "Infinity"
  | S754_finite neg m e =>
      (if neg then "-" else "") ++ positive_toString m e
  end.

(** The integer nearest to [m * 2^e * 10^f], the larger one of two. *)
Definition round_half_up (m : positive) (e f : Z) : Z :=
  let '(q, r, den) := scaled m e f in
  if den <=? 2 * r then q + 1 else q.

(** [x.toFixed(f)] for a number [x] and [0 <= f <= 100]. *)
Definition toFixed (x : number) (f : nat) : string :=
  match x with
  | S754_finite neg m e =>
      if 10 ^ 21 <=? scaled_floor m e 0 then toString x
      else
        let ds := Str.of_N (Z.to_N (round_half_up m e (Z.of_nat f))) in
        let ds := Str.zeros (S f - String.length ds) ++ ds in
        let k := Z.of_nat (String.length ds - f) in
        (if neg then "-" else "")
          ++ (match f with
              | O => ds
              | S _ => take k ds ++ "." ++ drop k ds
              end)
  | S754_zero _ =>
      match f with
      | O => "0"
      | S _ => "0." ++ Str.zeros f
      end
  | _ => toString x
  end.

End Print.

(** ** JavaScript values *)

(** The primitive values a cell can hold. *)
Inductive value : Type :=
| VUndefined
| VNull
| VBoolean (b : bool)
| VNumber (n : number)
| VString (s : string).

Module Js.

Local Open Scope string_scope.

(** [a === b] *)
Definition strictEquals (a b : value) : bool :=
  match a, b with
  | VUndefined, VUndefined => true
  | VNull, VNull => true
  | VBoolean x, VBoolean y => Bool.eqb x y
  | VNumber x, VNumber y => Num.eqb x y
  | VString x, VString y => String.eqb x y
  | _, _ => false
  end.

(** The abstract operation ToBoolean. *)
Definition truthy (a : value) : bool :=
  match a with
  | VUndefined | VNull => false
  | VBoolean b => b
  | VNumber (S754_zero _) | VNumber S754_nan => false
  | VNumber _ => true
  | VString s => negb (Str.isEmpty s)
  end.

(** [a || b] *)
Definition or (a b : value) : value := if truthy a then a else b.

(** [String(a)], also the text of [a] inside a template literal. *)
Definition toString (a : value) : string :=
  match a with
  | VUndefined => "undefined"
  | VNull => "null"
  | VBoolean b => if b then "true" else "false"
  | VNumber n => Print.toString n
  | VString s => s
  end.

(** The abstract operation ToNumber. *)
Definition toNumber (a : value) : number :=
  match a with
  | VUndefined => Num.NaN
  | VNull => Num.zero
  | VBoolean b => if b then Num.of_Z 1 else Num.zero
  | VNumber n => n
  | VString s => Parse.toNumber s
  end.

(** [a === '' || a === null || a === undefined] *)
Definition isBlank (a : value) : bool :=
  strictEquals a (VString "") || strictEquals a VNull || strictEquals a VUndefined.

End Js.

(** ** Workbooks *)

(** A cell address [{r, c}], zero-based. *)
Definition address : Type := nat * nat.

(** A cell object: its value [v] and its number format [z]. *)
Record cell : Type := Cell {
  cell_v : value;
  cell_z : option string
}.

(** A sheet: its cell objects by address, and the array of arrays that
    [XLSX.utils.sheet_to_json(sheet, {header: 1, defval: ''})] returns. *)
Record sheet : Type := Sheet {
  cells : gmap address cell;
  rows : list (list value)
}.

Record workbook : Type := Workbook {
  SheetNames : list string;
  Sheets : gmap string sheet
}.

(** [sheet_to_json] returns the empty array for a sheet that is missing. *)
Definition sheet_to_json (s : option sheet) : list (list value) :=
  match s with
  | Some sh => rows sh
  | None => []
  end.

(** [(data[row] && data[row][col]) || ''] *)
Definition cellAt (data : list (list value)) (row col : nat) : value :=
  match data !! row with
  | Some r =>
      match r !! col with
      | Some x => Js.or x (VString "")
      | None => VString ""
      end
  | None => VString ""
  end.

(** [Math.max(...data.map(row => row.length))]; of no rows it is
    [-Infinity], which bounds the column loops like [0]. *)
Definition maxRowLength (data : list (list value)) : nat :=
  foldr Nat.max 0%nat (map length data).

(** ** Configuration and utilities *)

Module CONFIG.
(** [NUMERIC_EPSILON: 0.000001] *)
Definition NUMERIC_EPSILON : number := Num.of_decimal false 1 (-6).
End CONFIG.

Module Utils.

Local Open Scope string_scope.

Fixpoint digitRun (s : string) : nat :=
  match s with
  | String c s' => if Str.is_digit c then S (digitRun s') else O
  | EmptyString => O
  end.

(** Whether [/\B(?=(\d{3})+(?!\d))/] matches between [prev] and [rest]. *)
Definition groupHere (prev : option ascii) (rest : string) : bool :=
  let before := match prev with Some c => Str.is_word_char c | None => false end in
  let after := match rest with String c _ => Str.is_word_char c | EmptyString => false end in
  Bool.eqb before after
  && (0 <? digitRun rest)%nat && (digitRun rest mod 3 =? 0)%nat.

Fixpoint groupFrom (prev : option ascii) (s : string) : string :=
  (if groupHere prev s then "," else "")
    ++ match s with
       | String c s' => String c (groupFrom (Some c) s')
       | EmptyString => EmptyString
       end.

(** [s.replace(/\B(?=(\d{3})+(?!\d))/g, ',')] *)
Definition groupThousands (s : string) : string := groupFrom None s.

Definition formatNumber (num : number) : string :=
  let rounded := Parse.toNumber (Print.toFixed num 2) in
  match Str.split_dot (Print.toString rounded) with
  | p0 :: rest => Str.join_dot (groupThousands p0 :: rest)
  | [] => EmptyString
  end.

End Utils.

(** ** The comparator *)

(** One entry of [comparisonResult.differences]; [cellRef] is the address
    that [XLSX.utils.encode_cell] spells out. *)
Record DifferenceRecord : Type := Difference {
  diff_sheet : string;
  diff_row : nat;
  diff_col : nat;
  diff_cellRef : address;
  diff_originalValue : value;
  diff_modifiedValue : value
}.

(** [comparisonResult], without the file names and the date, which come
    from the browser. *)
Record ComparisonResult : Type := Comparison {
  differences : list DifferenceRecord;
  totalDifferences : nat;
  sheetsCompared : nat
}.

(** A generated workbook: its sheets, in the order they were appended. *)
Definition report : Type := list (string * list (list value)).

(** The fields of an [ExcelComparator] that the comparison reads and
    writes; [originalData] and [modifiedData] are [null] until a file has
    been loaded. *)
Record ExcelComparator : Type := Comparator {
  originalData : option workbook;
  modifiedData : option workbook;
  comparisonResult : option ComparisonResult;
  differenceMap : gmap string (gset string);
  reportFormat : string;
  reportWorkbook : option report
}.

Section Values.

Local Open Scope string_scope.

Definition hundred : number := Num.of_Z 100.
Definition one : number := Num.of_Z 1.

Definition getNumericValue (v : value) (isPercentage : bool) : option number :=
  match v with
  | VNumber n => Some (if isPercentage then Num.mul n hundred else n)
  | VString s =>
      if negb (Str.isEmpty (Str.trim s)) then
        let trimmedValue := Str.trim s in
        let percent :=
          if Str.endsWith trimmedValue "%" then
            let percentValue := Str.slice_0_m1 trimmedValue in
            if negb (Parse.isNaN percentValue)
            then Some (Parse.parseFloat percentValue) else None
          else None in
        match percent with
        | Some n => Some n
        | None =>
            let cleanValue := Str.removeCommas trimmedValue in
            if negb (Parse.isNaN cleanValue)
            then Some (Parse.parseFloat cleanValue) else None
        end
      else None
  | _ => None
  end.

Definition extractPercentageValue (v : value) : option number :=
  match v with
  | VNumber n =>
      if Num.geb n Num.zero && Num.leb n one then Some (Num.mul n hundred)
      else None
  | VString s =>
      if Str.endsWith (Str.trim s) "%" then
        let percentStr := Str.slice_0_m1 (Str.trim s) in
        if negb (Parse.isNaN percentStr)
        then Some (Parse.parseFloat percentStr) else None
      else None
  | _ => None
  end.

Definition valuesAreDifferent (originalValue modifiedValue : value) : bool :=
  if Js.strictEquals originalValue modifiedValue then false
  else
    let originalNumeric := getNumericValue originalValue false in
    let modifiedNumeric := getNumericValue modifiedValue false in
    match originalNumeric, modifiedNumeric with
    | Some o, Some m =>
        Num.gtb (Num.abs (Num.sub o m)) CONFIG.NUMERIC_EPSILON
    | _, _ =>
        let originalPercent := extractPercentageValue originalValue in
        let modifiedPercent := extractPercentageValue modifiedValue in
        match originalPercent, modifiedPercent with
        | Some o, Some m =>
            Num.gtb (Num.abs (Num.sub o m)) CONFIG.NUMERIC_EPSILON
        | _, _ =>
            negb (String.eqb (Str.trim (Js.toString originalValue))
                             (Str.trim (Js.toString modifiedValue)))
        end
    end.

Variable this : ExcelComparator.

(** The header cell that [isPercentageCell] looks up, in row 0 of the
    column of [cellRef]; a sheet that is missing raises a [TypeError],
    which the [catch] block swallows. *)
Definition headerCellOf (sheetName : string) (cellRef : option address)
  : option cell :=
  if negb (Str.isEmpty sheetName) then
    match cellRef, originalData this with
    | Some cellAddress, Some wb =>
        let headerRow := 0%nat in
        let headerCellRef := (headerRow, snd cellAddress) in
        match Sheets wb !! sheetName with
        | Some sh => cells sh !! headerCellRef
        | None => None
        end
    | _, _ => None
    end
  else None.

(** The first test of [isPercentageCell]: the number format of the cell
    names a percentage. *)
Definition formatSignal (originalCell : option cell) : bool :=
  match originalCell with
  | Some c =>
      match cell_z c with
      | Some z =>
          negb (Str.isEmpty z)
          && (let formatCode := Str.toLowerCase z in
              Str.includes formatCode "%" || Str.includes formatCode "percent")
      | None => false
      end
  | None => false
  end.

(** The second test: the header of the column names a percentage. *)
Definition headerSignal (sheetName : string) (cellRef : option address) : bool :=
  match headerCellOf sheetName cellRef with
  | Some headerCell =>
      Js.truthy (cell_v headerCell)
      && (let headerText := Str.toLowerCase (Js.toString (cell_v headerCell)) in
          Str.includes headerText "%" || Str.includes headerText "percent"
          || Str.includes headerText "rate" || Str.includes headerText "ratio")
  | None => false
  end.

(** [value.toString().split('.')[1]] *)
Definition decimalPart (n : number) : option string :=
  Str.split_dot (Print.toString n) !! 1%nat.

(** The third test: a number that looks like a bare fraction. *)
Definition magnitudeHeuristic (v : value) : bool :=
  match v with
  | VNumber n =>
      if Num.leb (Num.abs n) one && Num.gtb (Num.abs n) Num.zero then
        match decimalPart n with
        | Some d =>
            negb (Str.isEmpty d) && (2 <=? String.length d)%nat
            && (let absValue := Num.abs n in
                Num.geb absValue (Num.of_decimal false 1 (-3))
                && Num.leb absValue one)
        | None => false
        end
      else false
  | _ => false
  end.

Definition isPercentageCell (originalCell : option cell) (sheetName : string)
    (cellRef : option address) (v : value) : bool :=
  if formatSignal originalCell then true
  else if headerSignal sheetName cellRef then true
  else magnitudeHeuristic v.

Definition formatValue (v : value) (originalCell : option cell)
    (sheetName : string) (cellRef : option address) : value :=
  if isPercentageCell originalCell sheetName cellRef v then
    let percentValue :=
      Num.abs (Parse.toNumber (Print.toFixed (Num.mul (Js.toNumber v) hundred) 2)) in
    let sign := if Num.ltb (Js.toNumber v) Num.zero then "-" else "" in
    VString (sign ++ Utils.formatNumber percentValue ++ "%")
  else
    match v with
    | VNumber n => VString (Utils.formatNumber n)
    | VString s =>
        if negb (Str.isEmpty (Str.trim s)) then
          let trimmedValue := Str.trim s in
          let percent :=
            if Str.endsWith trimmedValue "%" then
              let percentValue := Str.slice_0_m1 trimmedValue in
              if negb (Parse.isNaN percentValue) then
                let numValue := Parse.parseFloat percentValue in
                Some (VString (Utils.formatNumber (Num.abs numValue) ++ "%"))
              else None
            else None in
          match percent with
          | Some r => r
          | None =>
              if negb (Parse.isNaN trimmedValue) then
                let numValue := Parse.parseFloat trimmedValue in
                VString (Utils.formatNumber numValue)
              else v
          end
        else v
    | _ => v
    end.

(** [typeof formatted === 'string' && formatted.includes('%')] *)
Definition showsPercent (formatted : value) : bool :=
  match formatted with
  | VString s => Str.includes s "%"
  | _ => false
  end.

Definition createValueComparisonSingleCell (originalValue modifiedValue : value)
    (originalCellInfo modifiedCellInfo : option cell)
    (sheetName : string) (cellRef : option address) : string :=
  let isOriginalBlank := Js.isBlank originalValue in
  let isModifiedBlank := Js.isBlank modifiedValue in
  if isOriginalBlank && isModifiedBlank then ""
  else
    let formattedOriginal := formatValue originalValue originalCellInfo sheetName cellRef in
    let formattedModified := formatValue modifiedValue modifiedCellInfo sheetName cellRef in
    let originalIsPercentage :=
      isPercentageCell originalCellInfo sheetName cellRef originalValue
      || showsPercent formattedOriginal in
    let modifiedIsPercentage :=
      isPercentageCell modifiedCellInfo sheetName cellRef modifiedValue
      || showsPercent formattedModified in
    let originalNumeric := getNumericValue originalValue originalIsPercentage in
    let modifiedNumeric := getNumericValue modifiedValue modifiedIsPercentage in
    let result := "Original Value: " ++ Js.toString formattedOriginal
                  ++ ", Changed Value: " ++ Js.toString formattedModified in
    match originalNumeric, modifiedNumeric with
    | Some o, Some m =>
        if originalIsPercentage && modifiedIsPercentage then
          let difference := Num.sub m o in
          let sign := if Num.gtb difference Num.zero then "+"
                      else if Num.ltb difference Num.zero then "" else "" in
          let formattedDiff := Utils.formatNumber (Num.abs difference) in
          if Num.gtb (Num.abs difference) CONFIG.NUMERIC_EPSILON
          then result ++ ", Difference: " ++ sign ++ formattedDiff ++ "%"
          else result ++ ", Difference: 0%"
        else if negb originalIsPercentage && negb modifiedIsPercentage then
          let difference := Num.sub m o in
          let sign := if Num.gtb difference Num.zero then "+"
                      else if Num.ltb difference Num.zero then "" else "" in
          let formattedDiff := Utils.formatNumber (Num.abs difference) in
          if Num.gtb (Num.abs difference) CONFIG.NUMERIC_EPSILON
          then result ++ ", Difference: " ++ sign ++ formattedDiff
          else result ++ ", Difference: 0"
        else result ++ ", Difference: N/A (type mismatch)"
    | _, _ => result ++ ", Difference: N/A (non-numeric)"
    end.

(** The object [{original, changed, difference}]. *)
Record ValueComparison : Type := ValueCells {
  original : value;
  changed : value;
  difference : value
}.

Definition createValueComparisonMultiCell (originalValue modifiedValue : value)
    (originalCellInfo modifiedCellInfo : option cell)
    (sheetName : string) (cellRef : option address) : ValueComparison :=
  let isOriginalBlank := Js.isBlank originalValue in
  let isModifiedBlank := Js.isBlank modifiedValue in
  if isOriginalBlank && isModifiedBlank
  then ValueCells (VString "") (VString "") (VString "")
  else
    let formattedOriginal := formatValue originalValue originalCellInfo sheetName cellRef in
    let formattedModified := formatValue modifiedValue modifiedCellInfo sheetName cellRef in
    let originalIsPercentage :=
      isPercentageCell originalCellInfo sheetName cellRef originalValue
      || showsPercent formattedOriginal in
    let modifiedIsPercentage :=
      isPercentageCell modifiedCellInfo sheetName cellRef modifiedValue
      || showsPercent formattedModified in
    let originalNumeric := getNumericValue originalValue originalIsPercentage in
    let modifiedNumeric := getNumericValue modifiedValue modifiedIsPercentage in
    let differenceText :=
      match originalNumeric, modifiedNumeric with
      | Some o, Some m =>
          if originalIsPercentage && modifiedIsPercentage then
            let difference := Num.sub m o in
            let sign := if Num.gtb difference Num.zero then "+"
                        else if Num.ltb difference Num.zero then "" else "" in
            let formattedDiff := Utils.formatNumber (Num.abs difference) in
            if Num.gtb (Num.abs difference) CONFIG.NUMERIC_EPSILON
            then sign ++ formattedDiff ++ "%"
            else "0%"
          else if negb originalIsPercentage && negb modifiedIsPercentage then
            let difference := Num.sub m o in
            let sign := if Num.gtb difference Num.zero then "+"
                        else if Num.ltb difference Num.zero then "" else "" in
            let formattedDiff := Utils.formatNumber (Num.abs difference) in
            if Num.gtb (Num.abs difference) CONFIG.NUMERIC_EPSILON
            then sign ++ formattedDiff
            else "0"
          else "N/A (type mismatch)"
      | _, _ => "N/A (non-numeric)"
      end in
    ValueCells formattedOriginal formattedModified (VString differenceText).

End Values.

(** ** Exceptions *)

(** What a method can throw: [new Error(message)], or the [TypeError] of
    reading a property of [null] or [undefined]. *)
Inductive exn : Type :=
| Error (message : string)
| TypeError.

Inductive completion (A : Type) : Type :=
| Normal (a : A)
| Throw (e : exn).

Arguments Normal {A} a.
Arguments Throw {A} e.

#[global] Instance completion_ret : MRet completion := fun A a => Normal a.

#[global] Instance completion_bind : MBind completion := fun A B f m =>
  match m with
  | Normal a => f a
  | Throw e => Throw e
  end.

(** [o.field] for an object [o] that may be [null] or [undefined]. *)
Definition deref {A : Type} (o : option A) : completion A :=
  match o with
  | Some a => Normal a
  | None => Throw TypeError
  end.

(** A loop whose body may throw, collecting one result per element. *)
Fixpoint forEach {A B : Type} (f : A -> completion B) (l : list A)
  : completion (list B) :=
  match l with
  | [] => Normal []
  | x :: l' => y ← f x; ys ← forEach f l'; Normal (y :: ys)
  end.

(** A loop whose body may throw, threading an accumulator. *)
Fixpoint forEachFrom {A S : Type} (f : S -> A -> completion S) (s : S) (l : list A)
  : completion S :=
  match l with
  | [] => Normal s
  | x :: l' => s' ← f s x; forEachFrom f s' l'
  end.

(** ** Structure validation, alignment and rendering *)

Section Comparison.

Local Open Scope string_scope.

(** The object [{isValid, message}]. *)
Record Validation : Type := Validated {
  isValid : bool;
  message : option string
}.

Definition quote : string := String (ascii_of_N 34) EmptyString.

(** The first position at which two lists of the same length differ. *)
Fixpoint firstMismatch (originalSheets modifiedSheets : list string)
  : option (string * string) :=
  match originalSheets, modifiedSheets with
  | x :: xs, y :: ys =>
      if negb (String.eqb x y) then Some (x, y) else firstMismatch xs ys
  | _, _ => None
  end.

Definition validateStructures (this : ExcelComparator) : completion Validation :=
  o ← deref (originalData this);
  let originalSheets := SheetNames o in
  m ← deref (modifiedData this);
  let modifiedSheets := SheetNames m in
  if negb (length originalSheets =? length modifiedSheets)%nat then
    Normal (Validated false (Some
      ("Different number of sheets: Original has "
         ++ Str.of_nat (length originalSheets)
         ++ ", Modified has " ++ Str.of_nat (length modifiedSheets))))
  else
    match firstMismatch originalSheets modifiedSheets with
    | Some (x, y) =>
        Normal (Validated false (Some
          ("Sheet names don't match: " ++ quote ++ x ++ quote
             ++ " vs " ++ quote ++ y ++ quote)))
    | None => Normal (Validated true None)
    end.

(** The key [`${row}-${col}`] of a coordinate. *)
Definition coordinateKey (row col : nat) : string :=
  Str.of_nat row ++ "-" ++ Str.of_nat col.

(** The two nested loops of [compareFiles] over one sheet: the key and
    the record of every coordinate whose values differ, row by row. *)
Definition scanSheet (sheetName : string)
    (originalSheet modifiedSheet : list (list value))
  : list (string * DifferenceRecord) :=
  let maxRows := Nat.max (length originalSheet) (length modifiedSheet) in
  let maxCols := Nat.max (maxRowLength originalSheet) (maxRowLength modifiedSheet) in
  row ← seq 0 maxRows;
  col ← seq 0 maxCols;
  let originalValue := cellAt originalSheet row col in
  let modifiedValue := cellAt modifiedSheet row col in
  if valuesAreDifferent originalValue modifiedValue then
    let cellRef := (row, col) in
    [(coordinateKey row col,
      Difference sheetName (row + 1) (col + 1) cellRef originalValue modifiedValue)]
  else [].

(** The body of the loop of [compareFiles] over the sheet names: the
    differences found so far and [differenceMap], after one more sheet. *)
Definition compareSheet (this : ExcelComparator) (o : workbook)
    (found : list DifferenceRecord * gmap string (gset string))
    (sheetName : string)
  : completion (list DifferenceRecord * gmap string (gset string)) :=
  let '(differences, dmap) := found in
  let originalSheet := sheet_to_json (Sheets o !! sheetName) in
  m ← deref (modifiedData this);
  let modifiedSheet := sheet_to_json (Sheets m !! sheetName) in
  let scanned := scanSheet sheetName originalSheet modifiedSheet in
  let sheetDifferences : gset string := list_to_set (scanned.*1) in
  Normal ((differences ++ scanned.*2)%list, <[sheetName := sheetDifferences]> dmap).

Definition compareFiles (this : ExcelComparator) : completion ExcelComparator :=
  o ← deref (originalData this);
  let sheetNames := SheetNames o in
  found ← forEachFrom (compareSheet this o) ([], differenceMap this) sheetNames;
  let '(differences, dmap) := found in
  Normal {| originalData := originalData this;
            modifiedData := modifiedData this;
            comparisonResult :=
              Some (Comparison differences (length differences) (length sheetNames));
            differenceMap := dmap;
            reportFormat := reportFormat this;
            reportWorkbook := reportWorkbook this |}.

(** [data.Sheets[sheetName][cellRef]] *)
Definition cellInfo (data : option workbook) (sheetName : string) (cellRef : address)
  : completion (option cell) :=
  wb ← deref data;
  sh ← deref (Sheets wb !! sheetName);
  Normal (cells sh !! cellRef).

(** In the rendering functions the parameters [originalData] and
    [modifiedData] of the source, which are arrays of arrays, are called
    [originalRows] and [modifiedRows], apart from the fields of [this]. *)

(** The first inner loop of a data row: whether a column from 1 on
    differs. *)
Definition hasAnyDifference (originalRows modifiedRows : list (list value))
    (maxCols row : nat) : bool :=
  existsb (fun col =>
      valuesAreDifferent (cellAt originalRows row col) (cellAt modifiedRows row col))
    (seq 1 (maxCols - 1)).

(** The cell pushed for column 0. *)
Definition fieldName (changedRow : bool) (originalValue : value) : value :=
  if changedRow then VString ("[CHANGED] " ++ Js.toString originalValue)
  else originalValue.

Definition createComparisonDataSingleCell (this : ExcelComparator)
    (originalRows modifiedRows : list (list value)) (sheetName : string)
  : completion (list (list value)) :=
  let maxRows := Nat.max (length originalRows) (length modifiedRows) in
  let maxCols := Nat.max (maxRowLength originalRows) (maxRowLength modifiedRows) in
  let legend :=
    [ [VString "COMPARISON LEGEND"];
      [VString "Red Circle = Field name where values have changed"];
      [VString "No symbol = Field name where values are identical"];
      [VString "Format: Single Cell (Original Value, Changed Value, Difference)"];
      [VString ""];
      [VString "Field Name"; VString "Value Comparison"];
      [VString ""] ] in
  dataRows ← forEach (fun row =>
      let changedRow := hasAnyDifference originalRows modifiedRows maxCols row in
      forEach (fun col =>
          let originalValue := cellAt originalRows row col in
          let modifiedValue := cellAt modifiedRows row col in
          if (col =? 0)%nat then Normal (fieldName changedRow originalValue)
          else
            let originalCellRef := (row, col) in
            let modifiedCellRef := (row, col) in
            originalCellInfo ← cellInfo (originalData this) sheetName originalCellRef;
            modifiedCellInfo ← cellInfo (modifiedData this) sheetName modifiedCellRef;
            Normal (VString (createValueComparisonSingleCell this
                               originalValue modifiedValue
                               originalCellInfo modifiedCellInfo
                               sheetName (Some originalCellRef))))
        (seq 0 maxCols))
    (seq 0 maxRows);
  Normal (legend ++ dataRows)%list.

Definition createComparisonDataMultiCell (this : ExcelComparator)
    (originalRows modifiedRows : list (list value)) (sheetName : string)
  : completion (list (list value)) :=
  let maxRows := Nat.max (length originalRows) (length modifiedRows) in
  let maxCols := Nat.max (maxRowLength originalRows) (maxRowLength modifiedRows) in
  let legend :=
    [ [VString "COMPARISON LEGEND"];
      [VString "Red Circle = Field name where values have changed"];
      [VString "No symbol = Field name where values are identical"];
      [VString "Format: Multi Cell (Separate columns for Original, Changed, Difference)"];
      [VString ""] ] in
  let headerRow :=
    VString "Field Name"
      :: (_ ← seq 1 (maxCols - 1);
          [VString "Original Value"; VString "Changed Value"; VString "Difference"]) in
  dataRows ← forEach (fun row =>
      let changedRow := hasAnyDifference originalRows modifiedRows maxCols row in
      pushed ← forEach (fun col =>
          let originalValue := cellAt originalRows row col in
          let modifiedValue := cellAt modifiedRows row col in
          if (col =? 0)%nat then Normal [fieldName changedRow originalValue]
          else
            let originalCellRef := (row, col) in
            let modifiedCellRef := (row, col) in
            originalCellInfo ← cellInfo (originalData this) sheetName originalCellRef;
            modifiedCellInfo ← cellInfo (modifiedData this) sheetName modifiedCellRef;
            let vc := createValueComparisonMultiCell this
                        originalValue modifiedValue
                        originalCellInfo modifiedCellInfo
                        sheetName (Some originalCellRef) in
            Normal [original vc; changed vc; difference vc])
        (seq 0 maxCols);
      Normal (concat pushed))
    (seq 0 maxRows);
  Normal (legend ++ [headerRow; [VString ""]] ++ dataRows)%list.

(** The characters that [check_ws_name] of the SheetJS library (0.18.5)
    refuses in a sheet name. *)
Definition badchars : list ascii := ["]"; "["; "*"; "?"; "/"; "\"]%char.

(** [check_ws_name(n)] *)
Definition check_ws_name (n : string) : completion unit :=
  if (31 <? String.length n)%nat
  then Throw (Error "Sheet names cannot exceed 31 chars")
  else if existsb (fun c => Str.includes n (String c EmptyString)) badchars
  then Throw (Error "Sheet name cannot contain : \ / ? * [ ]")
  else Normal tt.

(** [XLSX.utils.book_append_sheet(wb, ws, name)]: a sheet without a name
    is called by the first free ["Sheet" + i]; the workbook takes no more
    than 65535 sheets, no name that [check_ws_name] refuses and no name it
    already has. *)
Definition book_append_sheet (wb : report) (ws : list (list value))
    (name : string) : completion report :=
  let named :=
    if Str.isEmpty name then
      (fun i => "Sheet" ++ Str.of_nat i)
        <$> List.find (fun i => negb (bool_decide ("Sheet" ++ Str.of_nat i ∈ wb.*1)))
                      (seq 1 (N.to_nat 65535))
    else Some name in
  match named with
  | None => Throw (Error "Too many worksheets")
  | Some name =>
      if (65535 <=? N.of_nat (length wb))%N
      then Throw (Error "Too many worksheets")
      else
        _ ← check_ws_name name;
        if bool_decide (name ∈ wb.*1)
        then Throw (Error ("Worksheet with name |" ++ name ++ "| already exists!"))
        else Normal (wb ++ [(name, ws)])%list
  end.

(** [createComparisonSheets(workbook)]; a sheet of the report is kept as
    the array of arrays that [aoa_to_sheet] is given. *)
Definition createComparisonSheets (this : ExcelComparator) (workbook : report)
  : completion report :=
  o ← deref (originalData this);
  forEachFrom (fun workbook sheetName =>
      let originalSheet := Sheets o !! sheetName in
      m ← deref (modifiedData this);
      let modifiedSheet := Sheets m !! sheetName in
      let originalRows := sheet_to_json originalSheet in
      let modifiedRows := sheet_to_json modifiedSheet in
      comparisonData ←
        (if String.eqb (reportFormat this) "single"
         then createComparisonDataSingleCell this originalRows modifiedRows sheetName
         else createComparisonDataMultiCell this originalRows modifiedRows sheetName);
      let comparisonSheet := comparisonData in
      book_append_sheet workbook comparisonSheet (sheetName ++ "_Comparison"))
    workbook (SheetNames o).

(** [generateReport]; [XLSX.utils.book_new()] is the workbook without
    sheets, and [this.reportWorkbook] is assigned only when no sheet was
    refused. *)
Definition generateReport (this : ExcelComparator) : completion ExcelComparator :=
  let reportWorkbook : report := [] in
  reportWorkbook ← createComparisonSheets this reportWorkbook;
  Normal {| originalData := originalData this;
            modifiedData := modifiedData this;
            comparisonResult := comparisonResult this;
            differenceMap := differenceMap this;
            reportFormat := reportFormat this;
            reportWorkbook := Some reportWorkbook |}.

(** [this.differenceMap.clear()] *)
Definition clearDifferenceMap (this : ExcelComparator) : ExcelComparator :=
  {| originalData := originalData this;
     modifiedData := modifiedData this;
     comparisonResult := comparisonResult this;
     differenceMap := ∅;
     reportFormat := reportFormat this;
     reportWorkbook := reportWorkbook this |}.

(** [performComparison]: the comparator it leaves, and the error it
    shows when the [try] block throws. What [compareFiles] and
    [generateReport] have assigned before a throw stays assigned:
    [compareFiles], as it is modelled, throws only on a workbook that is
    missing, before its first assignment, and [generateReport] assigns
    nothing when it throws.
    The progress bar, the announcements and the other changes of the page
    are left out. *)
Definition performComparison (this : ExcelComparator)
  : ExcelComparator * option exn :=
  let cleared := clearDifferenceMap this in
  let validated :=
    structureValidation ← validateStructures cleared;
    if negb (isValid structureValidation)
    then Throw (Error (default EmptyString (message structureValidation)))
    else Normal tt in
  match validated with
  | Throw e => (cleared, Some e)
  | Normal _ =>
      match compareFiles cleared with
      | Throw e => (cleared, Some e)
      | Normal compared =>
          match generateReport compared with
          | Throw e => (compared, Some e)
          | Normal done => (done, None)
          end
      end
  end.

End Comparison.

(** ** Vocabulary of the statements *)

(** The value of a numeric literal of the source text. *)
Definition num (literal : string) : value := VNumber (Parse.toNumber literal).

(** Two numbers are the same value up to the sign of zero: they are the
    same datum, or they are equal as [===] has it. *)
Definition sameValueZero (x y : number) : Prop :=
  x = y \/ Num.eqb x y = true.

(** A comparator with both files loaded and nothing compared yet. *)
Definition loaded (o m : workbook) (format : string) : ExcelComparator :=
  {| originalData := Some o;
     modifiedData := Some m;
     comparisonResult := None;
     differenceMap := ∅;
     reportFormat := format;
     reportWorkbook := None |}.

(** The cell object of an address, [None] when the workbook, the sheet or
    the cell is missing. *)
Definition cellObject (data : option workbook) (sheetName : string)
    (cellRef : address) : option cell :=
  wb ← data; sh ← Sheets wb !! sheetName; cells sh !! cellRef.

(** The raw entry [data[row][col]] is blank: the empty string, [null],
    [undefined], or out of range. *)
Definition blankAt (data : list (list value)) (row col : nat) : Prop :=
  match data !! row ≫= (.!! col) with
  | Some x => Js.isBlank x = true
  | None => True
  end.

(** The bounding box of two arrays of arrays. *)
Definition maxRowsOf (originalRows modifiedRows : list (list value)) : nat :=
  Nat.max (length originalRows) (length modifiedRows).

Definition maxColsOf (originalRows modifiedRows : list (list value)) : nat :=
  Nat.max (maxRowLength originalRows) (maxRowLength modifiedRows).

(** A workbook that only has sheet names. *)
Definition named (names : list string) : workbook :=
  {| SheetNames := names; Sheets := ∅ |}.

(** The cell of a rendered sheet at a data row and an output column, under
    the seven rows of legend and header. *)
Definition renderedCell (data : list (list value)) (row col : nat) : option value :=
  data !! (7 + row)%nat ≫= (.!! col).

(** What [createComparisonDataSingleCell] pushes for a coordinate. *)
Definition singleAt (this : ExcelComparator)
    (originalRows modifiedRows : list (list value)) (sheetName : string)
    (row col : nat) : value :=
  if (col =? 0)%nat then
    fieldName (hasAnyDifference originalRows modifiedRows
                 (maxColsOf originalRows modifiedRows) row)
              (cellAt originalRows row col)
  else
    VString (createValueComparisonSingleCell this
               (cellAt originalRows row col) (cellAt modifiedRows row col)
               (cellObject (originalData this) sheetName (row, col))
               (cellObject (modifiedData this) sheetName (row, col))
               sheetName (Some (row, col))).

(** What [createComparisonDataMultiCell] pushes for a coordinate. *)
Definition multiAt (this : ExcelComparator)
    (originalRows modifiedRows : list (list value)) (sheetName : string)
    (row col : nat) : list value :=
  if (col =? 0)%nat then
    [fieldName (hasAnyDifference originalRows modifiedRows
                  (maxColsOf originalRows modifiedRows) row)
               (cellAt originalRows row col)]
  else
    let vc := createValueComparisonMultiCell this
                (cellAt originalRows row col) (cellAt modifiedRows row col)
                (cellObject (originalData this) sheetName (row, col))
                (cellObject (modifiedData this) sheetName (row, col))
                sheetName (Some (row, col)) in
    [original vc; changed vc; difference vc].

(** [data] with the entry at a coordinate replaced. *)
Definition setCell (data : list (list value)) (row col : nat) (x : value)
  : list (list value) :=
  alter (fun r => <[col := x]> r) row data.

(** The records that [compareFiles] collects, sheet by sheet. *)
Definition allDifferences (o m : workbook) : list DifferenceRecord :=
  sheetName ← SheetNames o;
  (scanSheet sheetName (sheet_to_json (Sheets o !! sheetName))
                       (sheet_to_json (Sheets m !! sheetName))).*2.

(** The raw entry [data[row][col]] is the number zero. *)
Definition zeroAt (data : list (list value)) (row col : nat) : Prop :=
  exists s : bool, data !! row ≫= (.!! col) = Some (VNumber (S754_zero s)).

(** How the two cell renderers classify a value: [isPercentageCell] holds,
    or the formatted value is a string with a percent sign. *)
Definition classifiedPercentage (this : ExcelComparator) (v : value)
    (cellInfo : option cell) (sheetName : string) (cellRef : option address)
  : bool :=
  isPercentageCell this cellInfo sheetName cellRef v
  || showsPercent (formatValue this v cellInfo sheetName cellRef).

(** The text both layouts give to the difference [d] of two values of one
    category. *)
Definition differenceText (percentage : bool) (d : number) : string :=
  if Num.gtb (Num.abs d) CONFIG.NUMERIC_EPSILON then
    ((if Num.gtb d Num.zero then "+" else "")
       ++ Utils.formatNumber (Num.abs d)
       ++ (if percentage then "%" else ""))%string
  else if percentage then "0%"%string else "0"%string.

(** [this] after another modified workbook has been loaded. *)
Definition withModifiedData (this : ExcelComparator) (data : option workbook)
  : ExcelComparator :=
  {| originalData := originalData this;
     modifiedData := data;
     comparisonResult := comparisonResult this;
     differenceMap := differenceMap this;
     reportFormat := reportFormat this;
     reportWorkbook := reportWorkbook this |}.

(** ** Sample workbooks *)

Definition sampleOriginalRows : list (list value) :=
  [ [VString "Field"; VString "Amount"; VString "Share"];
    [VString "Revenue"; num "100"; VString "10%"];
    [VString "Costs"; num "150"; VString ""];
    [VString "Stock"; num "0"; num "7"] ].

Definition sampleModifiedRows : list (list value) :=
  [ [VString "Field"; VString "Amount"; VString "Share"];
    [VString "Revenue"; num "150"; num "0.12"];
    [VString "Costs"; num "100"; VString ""];
    [VString "Stock"] ].

Definition sampleOriginalSheet : sheet :=
  {| cells := ∅; rows := sampleOriginalRows |}.

Definition sampleModifiedSheet : sheet :=
  {| cells := ∅; rows := sampleModifiedRows |}.

Definition sampleOriginal : workbook :=
  {| SheetNames := ["S"]; Sheets := {[ "S" := sampleOriginalSheet ]} |}.

Definition sampleModified : workbook :=
  {| SheetNames := ["S"]; Sheets := {[ "S" := sampleModifiedSheet ]} |}.

Definition sample : ExcelComparator := loaded sampleOriginal sampleModified "single".

(** Two workbooks whose cell objects differ in the header of column 1. *)
Definition plainHeader : workbook :=
  {| SheetNames := ["S"];
     Sheets := {[ "S" :=
       {| cells := {[ (0, 1)%nat := Cell (VString "Amount") None ]};
          rows := [ [VString "Field"; VString "Amount"];
                    [VString "Revenue"; num "100"] ] |} ]} |}.

Definition percentHeader : workbook :=
  {| SheetNames := ["S"];
     Sheets := {[ "S" :=
       {| cells := {[ (0, 1)%nat := Cell (VString "Growth %") None ]};
          rows := [ [VString "Field"; VString "Growth %"];
                    [VString "Revenue"; num "100"] ] |} ]} |}.

(** ** Further vocabulary *)

(** The coordinates of a bounding box, row by row. *)
Definition coordinates (maxRows maxCols : nat) : list address :=
  row ← seq 0 maxRows; col ← seq 0 maxCols; [(row, col)].

(** The record that [compareFiles] pushes for a coordinate of a sheet. *)
Definition recordAt (sheetName : string)
    (originalSheet modifiedSheet : list (list value)) (cellRef : address)
  : DifferenceRecord :=
  Difference sheetName (cellRef.1 + 1) (cellRef.2 + 1) cellRef
    (cellAt originalSheet cellRef.1 cellRef.2)
    (cellAt modifiedSheet cellRef.1 cellRef.2).

(** Whether the two sheets differ at a coordinate. *)
Definition differsAt (originalSheet modifiedSheet : list (list value))
    (cellRef : address) : bool :=
  valuesAreDifferent (cellAt originalSheet cellRef.1 cellRef.2)
                     (cellAt modifiedSheet cellRef.1 cellRef.2).

(** Every sheet name that a workbook lists has a sheet, as in the
    workbooks that [XLSX.read] returns. *)
Definition listsItsSheets (wb : workbook) : Prop :=
  forall sheetName, sheetName ∈ SheetNames wb -> is_Some (Sheets wb !! sheetName).

(** What [createComparisonSheets] renders for a sheet name: the layout that
    [reportFormat] chooses, on the arrays of arrays of the two sheets. *)
Definition renderedSheet (this : ExcelComparator) (o m : workbook)
    (sheetName : string) : completion (list (list value)) :=
  if String.eqb (reportFormat this) "single"
  then createComparisonDataSingleCell this
         (sheet_to_json (Sheets o !! sheetName))
         (sheet_to_json (Sheets m !! sheetName)) sheetName
  else createComparisonDataMultiCell this
         (sheet_to_json (Sheets o !! sheetName))
         (sheet_to_json (Sheets m !! sheetName)) sheetName.

(** What the loop of [createComparisonSheets] does for one sheet name,
    with the two workbooks at hand. *)
Definition appendComparison (this : ExcelComparator) (o m : workbook)
    (workbook : report) (sheetName : string) : completion report :=
  comparisonData ← renderedSheet this o m sheetName;
  book_append_sheet workbook comparisonData (sheetName ++ "_Comparison")%string.

(** A sheet name that [check_ws_name] accepts with "_Comparison" after it:
    it has at most 20 characters and none of the refused ones. *)
Definition fitsReport (sheetName : string) : bool :=
  (String.length sheetName <=? 20)%nat
  && forallb (fun c => negb (Str.includes sheetName (String c EmptyString)))
             badchars.

(** Sheet names for all of which [book_append_sheet] appends a report
    sheet: each fits, none comes twice, and there are at most 65535. *)
Definition reportable (names : list string) : Prop :=
  Forall (fun sheetName => fitsReport sheetName = true) names
  /\ NoDup names /\ (N.of_nat (length names) <= 65535)%N.

(** The sheets of the report for a list of sheet names: each is called by
    the name followed by "_Comparison" and holds what is rendered for it. *)
Definition reportSheets (this : ExcelComparator) (o m : workbook)
    (names : list string) (sheets : report) : Prop :=
  Forall2 (fun sheetName entry =>
             entry.1 = (sheetName ++ "_Comparison")%string
             /\ renderedSheet this o m sheetName = Normal entry.2)
          names sheets.

(** ** File names *)

(** [c] is not matched by [/[^a-z0-9_\-]/i]. *)
Definition isFilenameChar (c : ascii) : bool :=
  ((97 <=? Str.code c) && (Str.code c <=? 122))%N
  || ((65 <=? Str.code c) && (Str.code c <=? 90))%N
  || ((48 <=? Str.code c) && (Str.code c <=? 57))%N
  || (Str.code c =? 95)%N || (Str.code c =? 45)%N.

(** [filename.replace(/[^a-z0-9_\-]/gi, '_')] *)
Fixpoint replaceUnsafe (filename : string) : string :=
  match filename with
  | String c rest =>
      String (if isFilenameChar c then c else "_"%char) (replaceUnsafe rest)
  | EmptyString => EmptyString
  end.

(** [Utils.sanitizeFilename] *)
Definition sanitizeFilename (filename : string) : string :=
  String.substring 0 255 (replaceUnsafe filename).

(** What [new Date()] is read for: the year, the month from 0 and the day
    of the month of the local time. *)
Record Date : Type := LocalDate {
  getFullYear : N;
  getMonth : N;
  getDate : N
}.

(** [s.padStart(2, '0')] *)
Definition padStart2 (s : string) : string :=
  (Str.zeros (2 - String.length s) ++ s)%string.

(** [Utils.getCurrentDateString], for the date that [new Date()] gives. *)
Definition getCurrentDateString (now : Date) : string :=
  let year := getFullYear now in
  let month := padStart2 (Str.of_N (getMonth now + 1)) in
  let day := padStart2 (Str.of_N (getDate now)) in
  (Str.of_N year ++ "-" ++ month ++ "-" ++ day)%string.

(** [getFormattedFilename]; [filenameInput] is the value of the input
    [outputFilename], [None] when the page has no such element. *)
Definition getFormattedFilename (filenameInput : option string) (now : Date)
  : string :=
  let customFilename :=
    match filenameInput with
    | Some value => Str.trim value
    | None => EmptyString
    end in
  if negb (Str.isEmpty customFilename) then sanitizeFilename customFilename
  else
    let dateStr := getCurrentDateString now in
    ("comparison_report_" ++ dateStr)%string.

(** Every character of a string is a letter, a digit, ["_"] or ["-"]. *)
Definition onlyFilenameChars (s : string) : bool :=
  forallb isFilenameChar (list_ascii_of_string s).

(** ** Reading a file *)

Module File.

(** A [File]: its name, its MIME type, its size in bytes, and the bytes
    that a [FileReader] reads from it, [None] when reading fails. *)
Record t : Type := Make {
  name : string;
  type : string;
  size : N;
  bytes : option (list ascii)
}.

End File.

(** [CONFIG.MAX_FILE_SIZE], [CONFIG.VALID_FILE_TYPES] and
    [CONFIG.VALID_EXTENSIONS] *)
Definition MAX_FILE_SIZE : N := 52428800.

Definition VALID_FILE_TYPES : list string :=
  ["application/vnd.openxmlformats-officedocument.spreadsheetml.sheet";
   "application/vnd.ms-excel";
   "application/octet-stream"]%string.

Definition VALID_EXTENSIONS : list string := [".xlsx"; ".xls"]%string.

Definition oleSignature : list N :=
  [0xD0; 0xCF; 0x11; 0xE0; 0xA1; 0xB1; 0x1A; 0xE1]%N.

Definition zipSignature : list N := [0x50; 0x4B; 0x03; 0x04]%N.

(** The signature loops of [isEncryptedFile]: no [i] below the length of
    the signature has [data[i] !== signature[i]]. *)
Definition hasSignature (data : list ascii) (signature : list N) : bool :=
  forallb (fun i => bool_decide (Str.code <$> data !! i = signature !! i))
          (seq 0 (length signature)).

(** [Array.from(data.slice(0, Math.min(n, data.length)))
      .map(byte => String.fromCharCode(byte)).join('')] *)
Definition headText (n : nat) (data : list ascii) : string :=
  string_of_list_ascii (take (Nat.min n (length data)) data).

(** [isEncryptedFile]; nothing in its [try] block throws. *)
Definition isEncryptedFile (data : list ascii) : bool :=
  let ole :=
    if (8 <=? length data)%nat then
      let isOLE := hasSignature data oleSignature in
      if isOLE then
        let dataStr := headText 1024 data in
        Str.includes dataStr "EncryptionInfo"
        || Str.includes dataStr "EncryptedPackage"
        || Str.includes dataStr "Microsoft.Container.EncryptionTransform"
      else false
    else false in
  if ole then true
  else
    let zip :=
      if (4 <=? length data)%nat then
        let isZip := hasSignature data zipSignature in
        if isZip then
          let dataStr := headText 2048 data in
          Str.includes dataStr "EncryptionInfo"
          || Str.includes dataStr "EncryptedPackage"
          || negb (Str.includes dataStr "xl/workbook.xml")
        else false
      else false in
    if zip then true else false.

(** What [XLSX.read] does with the bytes of a file: it returns a workbook
    or throws an error with a message. *)
Inductive parsed : Type :=
| Workbook_read (workbook : workbook)
| Read_error (message : string).

Definition encryptedMessage : string :=
  ("Encrypted files are not supported for comparison."
   ++ String (ascii_of_N 10)
        "Please copy the content into a new blank file, save it, and try again.")%string.

(** Which of the two upload slots a file is for: the [fileType] strings
    ['original'] and ['modified']. *)
Inductive FileType : Type := Original | Modified.

(** The comparator together with the two fields that hold the chosen
    files, the [disabled] property of the button [compareBtn] ([None] when
    the page has no such element), and the calls of [readExcelFile] that
    have not settled yet, each with the slot its caller was started for.
    The status texts and the announcements are left out. *)
Record Page : Type := MakePage {
  comparator : ExcelComparator;
  originalFile : option File.t;
  modifiedFile : option File.t;
  compareBtn : option bool;
  reading : list (FileType * File.t)
}.

Section Upload.

Local Open Scope string_scope.

(** [XLSX.read(data, {type: 'array'})] and [Utils.formatFileSize], which
    reads [Math.log]. *)
Variable XLSX_read : list ascii -> parsed.
Variable formatFileSize : N -> string.

Definition validateFile (file : File.t) : Validation :=
  let hasValidExtension :=
    existsb (fun ext => Str.endsWith (Str.toLowerCase (File.name file)) ext)
            VALID_EXTENSIONS in
  if negb (bool_decide (File.type file ∈ VALID_FILE_TYPES))
     && negb hasValidExtension
  then Validated false
         (Some "Invalid file type. Please select an Excel file (.xlsx or .xls)")
  else if (MAX_FILE_SIZE <? File.size file)%N
  then Validated false
         (Some ("File too large. Maximum size is 50MB (current: "
                  ++ formatFileSize (File.size file) ++ ")"))
  else Validated true None.

(** The promise of [readExcelFile], settled: [Normal] when it resolves,
    [Throw] with the error it rejects with. *)
Definition readExcelFile (file : File.t) : completion workbook :=
  match File.bytes file with
  | None => Throw (Error "Failed to read file")
  | Some data =>
      if isEncryptedFile data then Throw (Error encryptedMessage)
      else
        match XLSX_read data with
        | Workbook_read workbook =>
            if (length (SheetNames workbook) =? 0)%nat
            then Throw (Error encryptedMessage)
            else Normal workbook
        | Read_error message =>
            if negb (Str.isEmpty message)
               && (Str.includes (Str.toLowerCase message) "password"
                   || Str.includes (Str.toLowerCase message) "encrypted"
                   || Str.includes (Str.toLowerCase message) "protected"
                   || Str.includes (Str.toLowerCase message) "corrupt"
                   || Str.includes message "Unsupported file")
            then Throw (Error encryptedMessage)
            else Throw (Error ("Failed to parse Excel file: " ++ message))
        end
  end.

Definition withComparator (page : Page) (this : ExcelComparator) : Page :=
  {| comparator := this;
     originalFile := originalFile page;
     modifiedFile := modifiedFile page;
     compareBtn := compareBtn page;
     reading := reading page |}.

Definition updateCompareButton (page : Page) : Page :=
  match compareBtn page with
  | None => page
  | Some _ =>
      let isEnabled :=
        match originalFile page, modifiedFile page with
        | Some _, Some _ => true
        | _, _ => false
        end in
      {| comparator := comparator page;
         originalFile := originalFile page;
         modifiedFile := modifiedFile page;
         compareBtn := Some (negb isEnabled);
         reading := reading page |}
  end.

(** The two assignments of a slot: the file and its workbook. *)
Definition setSlot (page : Page) (fileType : FileType)
    (file : option File.t) (data : option workbook) : Page :=
  let this := comparator page in
  match fileType with
  | Original =>
      {| comparator :=
           {| originalData := data;
              modifiedData := modifiedData this;
              comparisonResult := comparisonResult this;
              differenceMap := differenceMap this;
              reportFormat := reportFormat this;
              reportWorkbook := reportWorkbook this |};
         originalFile := file;
         modifiedFile := modifiedFile page;
         compareBtn := compareBtn page;
         reading := reading page |}
  | Modified =>
      {| comparator :=
           {| originalData := originalData this;
              modifiedData := data;
              comparisonResult := comparisonResult this;
              differenceMap := differenceMap this;
              reportFormat := reportFormat this;
              reportWorkbook := reportWorkbook this |};
         originalFile := originalFile page;
         modifiedFile := file;
         compareBtn := compareBtn page;
         reading := reading page |}
  end.

Definition clearFileStatus (page : Page) (fileType : FileType) : Page :=
  updateCompareButton (setSlot page fileType None None).

(** [handleFileUpload] up to its [await]: [file] is [event.target.files[0]].
    With a valid file the call of [readExcelFile] is left to settle. *)
Definition handleFileUpload (page : Page) (file : option File.t)
    (fileType : FileType) : Page :=
  match file with
  | None => clearFileStatus page fileType
  | Some file =>
      let validation := validateFile file in
      if negb (isValid validation) then page
      else
        {| comparator := comparator page;
           originalFile := originalFile page;
           modifiedFile := modifiedFile page;
           compareBtn := compareBtn page;
           reading := (reading page ++ [(fileType, file)])%list |}
  end.

(** [handleFileUpload] from its [await] on, when the call of
    [readExcelFile] at position [i] of [reading] settles. *)
Definition resumeFileUpload (page : Page) (i : nat) : Page :=
  match reading page !! i with
  | None => page
  | Some (fileType, file) =>
      let settled :=
        {| comparator := comparator page;
           originalFile := originalFile page;
           modifiedFile := modifiedFile page;
           compareBtn := compareBtn page;
           reading := delete i (reading page) |} in
      match readExcelFile file with
      | Normal data =>
          updateCompareButton (setSlot settled fileType (Some file) (Some data))
      | Throw error => settled
      end
  end.

(** [handleDrop]; [files] is [e.dataTransfer.files], and the two flags
    tell whether the page has the inputs [originalFile] and
    [modifiedFile]. *)
Definition handleDrop (page : Page) (files : list File.t)
    (originalFileInput modifiedFileInput : bool) : Page :=
  if (0 <? length files)%nat then
    if negb (bool_decide (is_Some (originalFile page))) && originalFileInput
    then handleFileUpload page (files !! 0%nat) Original
    else if negb (bool_decide (is_Some (modifiedFile page)))
            && (0 <? length files)%nat && modifiedFileInput
    then handleFileUpload page (files !! 0%nat) Modified
    else page
  else page.

(** The listener of the radio buttons [reportFormat]. *)
Definition setReportFormat (page : Page) (value : string) : Page :=
  let this := comparator page in
  withComparator page
    {| originalData := originalData this;
       modifiedData := modifiedData this;
       comparisonResult := comparisonResult this;
       differenceMap := differenceMap this;
       reportFormat := value;
       reportWorkbook := reportWorkbook this |}.

(** What the page does from one event to the next: a file input changes,
    files are dropped, a pending read settles, a report format is chosen,
    or the compare button, which is not disabled, is clicked. *)
Inductive step : Page -> Page -> Prop :=
| step_change (page : Page) (file : option File.t) (fileType : FileType) :
    step page (handleFileUpload page file fileType)
| step_drop (page : Page) (files : list File.t)
      (originalFileInput modifiedFileInput : bool) :
    step page (handleDrop page files originalFileInput modifiedFileInput)
| step_settle (page : Page) (i : nat) :
    step page (resumeFileUpload page i)
| step_format (page : Page) (value : string) :
    step page (setReportFormat page value)
| step_compare (page : Page) :
    compareBtn page = Some false ->
    step page (withComparator page (performComparison (comparator page)).1).

(** The page after the constructor; [disabled] is the [disabled] property
    that the markup gives the button. *)
Definition constructed (disabled : option bool) : Page :=
  {| comparator :=
       {| originalData := None;
          modifiedData := None;
          comparisonResult := None;
          differenceMap := ∅;
          reportFormat := "single";
          reportWorkbook := None |};
     originalFile := None;
     modifiedFile := None;
     compareBtn := disabled;
     reading := [] |}.

(** The pages that the events lead to. *)
Inductive reachable (disabled : option bool) : Page -> Prop :=
| reachable_constructed : reachable disabled (constructed disabled)
| reachable_step (page page' : Page) :
    reachable disabled page -> step page page' -> reachable disabled page'.

(** A slot holds no file and no workbook, or a file that [validateFile]
    accepts together with the workbook that [readExcelFile] resolves
    with for it. *)
Definition paired (file : option File.t) (data : option workbook) : Prop :=
  match file, data with
  | None, None => True
  | Some file, Some workbook =>
      isValid (validateFile file) = true /\ readExcelFile file = Normal workbook
  | _, _ => False
  end.

(** Both file fields are set: the test of [updateCompareButton]. *)
Definition bothChosen (page : Page) : bool :=
  match originalFile page, modifiedFile page with
  | Some _, Some _ => true
  | _, _ => false
  end.

(** What the events keep true of a page: both slots are paired, every
    read that has not settled is of a file that [validateFile] accepts, and
    the button is as the markup left it or as [updateCompareButton] sets it
    for the files now chosen. *)
Definition consistent (disabled : option bool) (page : Page) : Prop :=
  paired (originalFile page) (originalData (comparator page))
  /\ paired (modifiedFile page) (modifiedData (comparator page))
  /\ (forall fileType file,
        (fileType, file) ∈ reading page -> isValid (validateFile file) = true)
  /\ (compareBtn page = disabled
      \/ compareBtn page = Some (negb (bothChosen page))).

End Upload.

(** Two sheets with a changed row whose label is the number zero in the
    original and empty in the modified workbook. *)
Definition zeroLabelOriginalSheet : sheet :=
  {| cells := ∅;
     rows := [ [VString "Field"; VString "Amount"]; [num "0"; num "1"] ] |}.

Definition zeroLabelModifiedSheet : sheet :=
  {| cells := ∅;
     rows := [ [VString "Field"; VString "Amount"]; [VString ""; num "2"] ] |}.

Definition zeroLabelOriginal : workbook :=
  {| SheetNames := ["S"]; Sheets := {[ "S" := zeroLabelOriginalSheet ]} |}.

Definition zeroLabelModified : workbook :=
  {| SheetNames := ["S"]; Sheets := {[ "S" := zeroLabelModifiedSheet ]} |}.

(** A workbook whose only sheet has a name of 22 characters. *)
Definition sampleLongName : workbook :=
  {| SheetNames := ["Quarterly Revenue 2024"];
     Sheets := {[ "Quarterly Revenue 2024" := sampleOriginalSheet ]} |}.

(** ** Sample files *)

(** The bytes of an archive whose first 2048 bytes do not name the
    workbook part, and the same bytes followed by that name. *)
Definition sampleArchive : list ascii :=
  (ascii_of_N <$> zipSignature)
    ++ list_ascii_of_string "[Content_Types].xml" ++ replicate 2100 "0"%char.

Definition sampleLateArchive : list ascii :=
  sampleArchive ++ list_ascii_of_string "xl/workbook.xml".

(** Two files, and a reader that makes the sample workbooks of their
    bytes. *)
Definition sampleFile : File.t :=
  {| File.name := "Budget.XLSX";
     File.type := "";
     File.size := 15;
     File.bytes := Some (list_ascii_of_string "budget workbook") |}.

Definition sampleModifiedFile : File.t :=
  {| File.name := "Budget (2).xls";
     File.type := "application/vnd.ms-excel";
     File.size := 17;
     File.bytes := Some (list_ascii_of_string "modified workbook") |}.

Definition readsSample (data : list ascii) : parsed :=
  match data with
  | first :: _ =>
      if Ascii.eqb first "m" then Workbook_read sampleModified
      else Workbook_read sampleOriginal
  | [] => Workbook_read sampleOriginal
  end.

Definition noFileSize (bytes : N) : string := EmptyString.

(** The page after the original file has been chosen and read, and after
    the modified file has been chosen and read as well. *)
Definition sampleOriginalChosen : Page :=
  resumeFileUpload readsSample
    (handleFileUpload noFileSize (constructed (Some true)) (Some sampleFile) Original)
    0.

Definition samplePage : Page :=
  resumeFileUpload readsSample
    (handleFileUpload noFileSize sampleOriginalChosen (Some sampleModifiedFile)
       Modified)
    0.

(** * Properties *)

(** ** Facts about binary64 arithmetic *)

Module NumFacts.
Import Num.

Local Open Scope Z_scope.

Lemma binary_round_aux_opp s mx ex lx :
  SFopp (binary_round_aux prec emax s mx ex lx)
  = binary_round_aux prec emax (negb s) mx ex lx.
Proof.
  unfold binary_round_aux.
  destruct (shr_fexp prec emax mx ex lx) as [mrs e'].
  destruct (shr_fexp prec emax _ e' loc_Exact) as [mrs' e''].
  destruct (shr_m mrs'); simpl; try reflexivity.
  destruct (e'' <=? emax - prec); reflexivity.
Qed.

Lemma binary_round_opp s m e :
  SFopp (binary_round prec emax s m e) = binary_round prec emax (negb s) m e.
Proof.
  unfold binary_round.
  destruct (shl_align m e _) as [mz ez].
  apply binary_round_aux_opp.
Qed.

Lemma binary_normalize_opp m e :
  m <> 0 ->
  binary_normalize prec emax (- m) e false
  = SFopp (binary_normalize prec emax m e false).
Proof.
  destruct m as [|p|p]; intros Hm; [congruence | |]; simpl;
    now rewrite binary_round_opp.
Qed.

(** [x - y] is the opposite of [y - x], except that both are [+0] when the
    difference vanishes. *)
Lemma sub_antisym x y :
  sub x y = opp (sub y x) \/ (sub x y = zero /\ sub y x = zero).
Proof.
  unfold sub, opp, zero.
  destruct x as [sx|sx| |sx mx ex], y as [sy|sy| |sy my ey]; simpl;
    try (destruct sx, sy; simpl; auto; fail);
    try (destruct sx; simpl; auto; fail);
    try (destruct sy; simpl; auto; fail); auto.
  rewrite (Z.min_comm ey ex).
  set (a := cond_Zopp sx _). set (b := cond_Zopp sy _).
  destruct (Z.eq_dec (a - b) 0) as [E|E].
  - right. replace (b - a) with 0 by lia. rewrite E. auto.
  - left. replace (a - b) with (- (b - a)) by lia.
    apply binary_normalize_opp. lia.
Qed.

Lemma abs_opp x : abs (opp x) = abs x.
Proof. destruct x; reflexivity. Qed.

Lemma abs_sub_comm x y : abs (sub x y) = abs (sub y x).
Proof.
  destruct (sub_antisym x y) as [E|[E1 E2]].
  - rewrite E. apply abs_opp.
  - now rewrite E1, E2.
Qed.

Lemma eqb_finite sx mx ex sy my ey :
  eqb (S754_finite sx mx ex) (S754_finite sy my ey)
  = Bool.eqb sx sy && (ex =? ey) && (mx =? my)%positive.
Proof.
  unfold eqb, SFeqb, SFcompare.
  destruct (Bool.eqb sx sy && (ex =? ey) && (mx =? my)%positive) eqn:B.
  - apply andb_prop in B as [B B3]. apply andb_prop in B as [B1 B2].
    apply Bool.eqb_prop in B1. apply Z.eqb_eq in B2. apply Pos.eqb_eq in B3.
    subst. rewrite Z.compare_refl.
    change (Pos.compare_cont Eq my my) with (Pos.compare my my).
    rewrite Pos.compare_refl. now destruct sy.
  - destruct sx, sy; simpl in *; try reflexivity.
    + destruct (Z.compare_spec ex ey) as [E|L|L]; try reflexivity.
      subst. rewrite Z.eqb_refl in B. simpl in B. apply Pos.eqb_neq in B.
      change (Pos.compare_cont Eq mx my) with (Pos.compare mx my).
      destruct (Pos.compare_spec mx my); [contradiction | reflexivity ..].
    + destruct (Z.compare_spec ex ey) as [E|L|L]; try reflexivity.
      subst. rewrite Z.eqb_refl in B. simpl in B. apply Pos.eqb_neq in B.
      change (Pos.compare_cont Eq mx my) with (Pos.compare mx my).
      destruct (Pos.compare_spec mx my); [contradiction | reflexivity ..].
Qed.

Lemma eqb_sym x y : eqb x y = eqb y x.
Proof.
  destruct x as [sx|sx| |sx mx ex], y as [sy|sy| |sy my ey];
    try reflexivity;
    try (destruct sx; reflexivity); try (destruct sy; reflexivity);
    try (destruct sx, sy; reflexivity).
  rewrite !eqb_finite.
  rewrite (Z.eqb_sym ex ey), (Pos.eqb_sym mx my).
  now destruct sx, sy.
Qed.

(** The difference of a number and itself is [+0], or [NaN]. *)
Lemma sub_diag x : abs (sub x x) = zero \/ abs (sub x x) = NaN.
Proof.
  destruct x as [s|s| |s m e]; simpl; auto.
  - destruct s; auto.
  - destruct s; auto.
  - left. unfold sub, SFsub. rewrite Z.sub_diag. reflexivity.
Qed.

Lemma eqb_sub x y :
  eqb x y = true -> abs (sub x y) = zero \/ abs (sub x y) = NaN.
Proof.
  destruct x as [sx|sx| |sx mx ex], y as [sy|sy| |sy my ey];
    try (destruct sx; discriminate); try (destruct sy; discriminate);
    try discriminate.
  - intros _. destruct sx, sy; auto.
  - destruct sx, sy; try discriminate; auto.
  - rewrite eqb_finite. intros H.
    apply andb_prop in H as [H H3]. apply andb_prop in H as [H1 H2].
    apply Bool.eqb_prop in H1. apply Z.eqb_eq in H2. apply Pos.eqb_eq in H3.
    subst. apply sub_diag.
Qed.

End NumFacts.

(** ** The cell differ *)

Lemma strictEquals_sym (a b : value) : Js.strictEquals a b = Js.strictEquals b a.
Proof.
  destruct a, b; simpl; try reflexivity.
  - now destruct b, b0.
  - apply NumFacts.eqb_sym.
  - apply String.eqb_sym.
Qed.

(** Two values that are [===] and both numeric have a difference of zero,
    or one that is not a number. *)
Lemma strictEquals_numeric (a b : value) (x y : number) :
  Js.strictEquals a b = true ->
  getNumericValue a false = Some x -> getNumericValue b false = Some y ->
  Num.abs (Num.sub x y) = Num.zero \/ Num.abs (Num.sub x y) = Num.NaN.
Proof.
  destruct a as [| |u|n|s], b as [| |w|k|t]; simpl; try discriminate.
  - intros E Hx Hy. injection Hx as <-. injection Hy as <-.
    now apply NumFacts.eqb_sub.
  - intros E Hx Hy. apply String.eqb_eq in E. subst t.
    rewrite Hx in Hy. injection Hy as <-. apply NumFacts.sub_diag.
Qed.

(** A value from which [extractPercentageValue] reads a percentage is one
    that [getNumericValue] reads as a number: in [valuesAreDifferent] the
    numeric comparison always comes first. *)
Lemma extractPercentageValue_numeric (v : value) (p : number) :
  extractPercentageValue v = Some p ->
  exists n, getNumericValue v false = Some n.
Proof.
  destruct v as [| |b|n|s]; simpl; try discriminate.
  - intros _. now exists n.
  - destruct (Str.endsWith (Str.trim s) "%") eqn:E; [|discriminate].
    destruct (Parse.isNaN (Str.slice_0_m1 (Str.trim s))) eqn:N; [discriminate|].
    intros _. simpl.
    destruct (Str.trim s) as [|c t] eqn:T; [discriminate|].
    simpl. eauto.
Qed.

(** In [valuesAreDifferent] the percentage comparison is never the one
    that decides. *)
Lemma valuesAreDifferent_percentage_shadowed (a b : value) (p q : number) :
  extractPercentageValue a = Some p -> extractPercentageValue b = Some q ->
  exists x y,
    getNumericValue a false = Some x /\ getNumericValue b false = Some y
    /\ valuesAreDifferent a b
       = negb (Js.strictEquals a b)
         && Num.gtb (Num.abs (Num.sub x y)) CONFIG.NUMERIC_EPSILON.
Proof.
  intros Ha Hb.
  destruct (extractPercentageValue_numeric _ _ Ha) as [x Hx].
  destruct (extractPercentageValue_numeric _ _ Hb) as [y Hy].
  exists x, y. repeat split; trivial.
  unfold valuesAreDifferent. rewrite Hx, Hy.
  now destruct (Js.strictEquals a b).
Qed.

(** C1. The number 0.055 and the string "5.5%" both read as the percentage
    5.5, yet [valuesAreDifferent] compares them as the plain numbers 0.055
    and 5.5 and returns [true]. *)
Theorem valuesAreDifferent_fraction_and_percent_string :
  extractPercentageValue (num "0.055") = Some (Parse.toNumber "5.5")
  /\ extractPercentageValue (VString "5.5%") = Some (Parse.toNumber "5.5")
  /\ getNumericValue (num "0.055") false = Some (Parse.toNumber "0.055")
  /\ getNumericValue (VString "5.5%") false = Some (Parse.toNumber "5.5")
  /\ valuesAreDifferent (num "0.055") (VString "5.5%") = true.
Proof. vm_compute. repeat split. Qed.

(** C4. Two values that both read as plain numbers are not flagged when the
    absolute value of their difference is exactly [NUMERIC_EPSILON], and are
    flagged when it is [NUMERIC_EPSILON + 1e-9]. *)
Theorem valuesAreDifferent_epsilon_boundary (a b : value) (x y : number) :
  getNumericValue a false = Some x ->
  getNumericValue b false = Some y ->
  (Num.abs (Num.sub x y) = CONFIG.NUMERIC_EPSILON ->
   valuesAreDifferent a b = false)
  /\ (Num.abs (Num.sub x y)
      = Num.add CONFIG.NUMERIC_EPSILON (Num.of_decimal false 1 (-9)) ->
      valuesAreDifferent a b = true).
Proof.
  intros Hx Hy. unfold valuesAreDifferent. rewrite Hx, Hy. split; intros D.
  - destruct (Js.strictEquals a b); [reflexivity|].
    rewrite D. reflexivity.
  - destruct (Js.strictEquals a b) eqn:E.
    + destruct (strictEquals_numeric a b x y E Hx Hy) as [Z|Z];
        rewrite Z in D; vm_compute in D; discriminate.
    + rewrite D. reflexivity.
Qed.

Lemma valuesAreDifferent_epsilon_boundary_witness :
  valuesAreDifferent (num "0") (num "0.000001") = false
  /\ valuesAreDifferent (num "0")
       (VNumber (Num.add CONFIG.NUMERIC_EPSILON (Num.of_decimal false 1 (-9))))
     = true.
Proof.
  split.
  - apply (valuesAreDifferent_epsilon_boundary (num "0") (num "0.000001")
             (Parse.toNumber "0") (Parse.toNumber "0.000001"));
      reflexivity.
  - apply (valuesAreDifferent_epsilon_boundary (num "0")
             (VNumber (Num.add CONFIG.NUMERIC_EPSILON (Num.of_decimal false 1 (-9))))
             (Parse.toNumber "0")
             (Num.add CONFIG.NUMERIC_EPSILON (Num.of_decimal false 1 (-9))));
      reflexivity.
Defined.

(** C6. [valuesAreDifferent] is symmetric, and in either comparison, the
    numeric one and the percentage one, the difference taken for [(b, a)]
    is the opposite of the one taken for [(a, b)], up to the sign of zero. *)
Theorem valuesAreDifferent_symmetric (a b : value) :
  valuesAreDifferent a b = valuesAreDifferent b a
  /\ (forall (p q : bool) (x y : number),
        getNumericValue a p = Some x -> getNumericValue b q = Some y ->
        sameValueZero (Num.sub x y) (Num.opp (Num.sub y x)))
  /\ (forall x y : number,
        extractPercentageValue a = Some x -> extractPercentageValue b = Some y ->
        sameValueZero (Num.sub x y) (Num.opp (Num.sub y x))).
Proof.
  assert (N : forall x y, sameValueZero (Num.sub x y) (Num.opp (Num.sub y x))).
  { intros x y. destruct (NumFacts.sub_antisym x y) as [E|[E1 E2]].
    - now left.
    - right. rewrite E1, E2. reflexivity. }
  split; [|split; intros; apply N].
  unfold valuesAreDifferent.
  rewrite (strictEquals_sym b a).
  destruct (Js.strictEquals a b); [reflexivity|].
  unfold Num.gtb.
  destruct (getNumericValue a false) as [x|], (getNumericValue b false) as [y|];
    try (now rewrite NumFacts.abs_sub_comm);
    destruct (extractPercentageValue a) as [u|], (extractPercentageValue b) as [w|];
    try (now rewrite NumFacts.abs_sub_comm);
    now rewrite String.eqb_sym.
Qed.

Lemma valuesAreDifferent_symmetric_witness :
  valuesAreDifferent (num "100") (VString "150")
  = valuesAreDifferent (VString "150") (num "100")
  /\ sameValueZero
       (Num.sub (Parse.toNumber "100") (Parse.toNumber "150"))
       (Num.opp (Num.sub (Parse.toNumber "150") (Parse.toNumber "100")))
  /\ sameValueZero
       (Num.sub (Parse.toNumber "12") (Parse.toNumber "10"))
       (Num.opp (Num.sub (Parse.toNumber "10") (Parse.toNumber "12"))).
Proof.
  split; [|split].
  - apply (valuesAreDifferent_symmetric (num "100") (VString "150")).
  - apply (valuesAreDifferent_symmetric (num "100") (VString "150"))
      with (p := false) (q := false); reflexivity.
  - apply (valuesAreDifferent_symmetric (num "0.12") (VString "10%"));
      reflexivity.
Defined.

(** ** The structure validator *)

Lemma firstMismatch_None (a b : list string) :
  length a = length b -> (firstMismatch a b = None <-> a = b).
Proof.
  revert b. induction a as [|x a IH]; intros [|y b] L; simpl in *;
    try discriminate; [tauto|].
  destruct (String.eqb_spec x y) as [->|N]; simpl.
  - rewrite IH by congruence. split; congruence.
  - split; congruence.
Qed.

Lemma firstMismatch_first (a b : list string) (i : nat) (x y : string) :
  a !! i = Some x -> b !! i = Some y -> x <> y ->
  (forall j, (j < i)%nat -> a !! j = b !! j) ->
  firstMismatch a b = Some (x, y).
Proof.
  revert a b. induction i as [|i IH]; intros [|u a] [|w b]; simpl;
    try discriminate.
  - intros [= ->] [= ->] N _.
    destruct (String.eqb_spec x y); [contradiction | reflexivity].
  - intros Ha Hb N P.
    assert (E : u = w) by (specialize (P 0%nat); simpl in P; injection P; [auto|lia]).
    subst w. rewrite String.eqb_refl. simpl.
    apply IH; trivial. intros j Hj. apply (P (S j)). lia.
Qed.

Lemma validateStructures_clearDifferenceMap (this : ExcelComparator) :
  validateStructures (clearDifferenceMap this) = validateStructures this.
Proof. reflexivity. Qed.

(** C5. With both files loaded, [validateStructures] accepts exactly when
    the two lists of sheet names are equal, position by position; when the
    counts differ its message gives both counts, when they agree its message
    gives the first pair of names that differ; and after a rejection
    [performComparison] shows that message, and neither compares nor
    generates a report. *)
Theorem validateStructures_ordered (this : ExcelComparator) (o m : workbook) :
  originalData this = Some o ->
  modifiedData this = Some m ->
  (exists v, validateStructures this = Normal v
             /\ (isValid v = true <-> SheetNames o = SheetNames m))
  /\ (length (SheetNames o) <> length (SheetNames m) ->
      validateStructures this
      = Normal (Validated false (Some
          ("Different number of sheets: Original has "
             ++ Str.of_nat (length (SheetNames o))
             ++ ", Modified has " ++ Str.of_nat (length (SheetNames m)))%string)))
  /\ (forall (i : nat) (x y : string),
        length (SheetNames o) = length (SheetNames m) ->
        SheetNames o !! i = Some x -> SheetNames m !! i = Some y -> x <> y ->
        (forall j, (j < i)%nat -> SheetNames o !! j = SheetNames m !! j) ->
        validateStructures this
        = Normal (Validated false (Some
            ("Sheet names don't match: " ++ quote ++ x ++ quote
               ++ " vs " ++ quote ++ y ++ quote)%string)))
  /\ (forall v, validateStructures this = Normal v -> isValid v = false ->
        exists msg, message v = Some msg
          /\ performComparison this = (clearDifferenceMap this, Some (Error msg))
          /\ comparisonResult (fst (performComparison this)) = comparisonResult this
          /\ reportWorkbook (fst (performComparison this)) = reportWorkbook this).
Proof.
  intros Ho Hm.
  assert (V : validateStructures this
              = if negb (length (SheetNames o) =? length (SheetNames m))%nat
                then Normal (Validated false (Some
                  ("Different number of sheets: Original has "
                     ++ Str.of_nat (length (SheetNames o))
                     ++ ", Modified has " ++ Str.of_nat (length (SheetNames m)))%string))
                else match firstMismatch (SheetNames o) (SheetNames m) with
                     | Some (x, y) =>
                         Normal (Validated false (Some
                           ("Sheet names don't match: " ++ quote ++ x ++ quote
                              ++ " vs " ++ quote ++ y ++ quote)%string))
                     | None => Normal (Validated true None)
                     end).
  { unfold validateStructures. rewrite Ho, Hm. reflexivity. }
  repeat split.
  - rewrite V. destruct (Nat.eqb_spec (length (SheetNames o)) (length (SheetNames m))) as [L|L]; simpl.
    + destruct (firstMismatch (SheetNames o) (SheetNames m)) as [[x y]|] eqn:F.
      * eexists. split; [reflexivity|]. simpl. split; [discriminate|].
        intros E. apply firstMismatch_None in E; [congruence | assumption].
      * eexists. split; [reflexivity|]. simpl.
        apply firstMismatch_None in F; tauto.
    + eexists. split; [reflexivity|]. simpl. split; [discriminate|].
      intros E. now rewrite E in L.
  - intros L. rewrite V.
    destruct (Nat.eqb_spec (length (SheetNames o)) (length (SheetNames m)));
      [contradiction | reflexivity].
  - intros i x y L Hx Hy N P. rewrite V, L, Nat.eqb_refl. simpl.
    now rewrite (firstMismatch_first _ _ i x y Hx Hy N P).
  - intros v Hv F.
    assert (M : exists msg, message v = Some msg).
    { rewrite V in Hv.
      destruct (negb _); [injection Hv as <-; simpl; eauto|].
      destruct (firstMismatch _ _) as [[x y]|]; injection Hv as <-; simpl; eauto.
      discriminate. }
    destruct M as [msg M]. exists msg.
    assert (P : performComparison this = (clearDifferenceMap this, Some (Error msg))).
    { unfold performComparison.
      rewrite validateStructures_clearDifferenceMap, Hv. simpl.
      rewrite F, M. reflexivity. }
    rewrite P. repeat split; trivial.
Qed.

Lemma validateStructures_ordered_witness :
  validateStructures (loaded (named ["A"; "B"]) (named ["B"; "A"]) "single")
  = Normal (Validated false (Some
      ("Sheet names don't match: " ++ quote ++ "A" ++ quote
         ++ " vs " ++ quote ++ "B" ++ quote)%string))
  /\ performComparison (loaded (named ["A"; "B"]) (named ["B"; "A"]) "single")
     = (clearDifferenceMap (loaded (named ["A"; "B"]) (named ["B"; "A"]) "single"),
        Some (Error ("Sheet names don't match: " ++ quote ++ "A" ++ quote
                       ++ " vs " ++ quote ++ "B" ++ quote)%string)).
Proof.
  destruct (validateStructures_ordered
              (loaded (named ["A"; "B"]) (named ["B"; "A"]) "single")
              (named ["A"; "B"]) (named ["B"; "A"]) eq_refl eq_refl)
    as (_ & _ & H3 & H4).
  assert (V := H3 0%nat "A"%string "B"%string eq_refl eq_refl eq_refl
                 ltac:(discriminate) ltac:(intros j Hj; lia)).
  split; [exact V|].
  destruct (H4 _ V eq_refl) as (msg & M & P & _).
  injection M as <-. exact P.
Defined.

(** ** Loops that may throw *)

Lemma forEach_Normal {A B : Type} (f : A -> completion B) (g : A -> B) (l : list A) :
  (forall x, x ∈ l -> f x = Normal (g x)) ->
  forEach f l = Normal (map g l).
Proof.
  induction l as [|x l IH]; intros H; simpl; [reflexivity|].
  rewrite (H x) by constructor. simpl.
  rewrite IH by (intros y Hy; apply H; now constructor). reflexivity.
Qed.

Lemma forEach_ext {A B : Type} (f g : A -> completion B) (l : list A) :
  (forall x, x ∈ l -> f x = g x) -> forEach f l = forEach g l.
Proof.
  induction l as [|x l IH]; intros H; simpl; [reflexivity|].
  rewrite (H x) by constructor.
  rewrite IH by (intros y Hy; apply H; now constructor). reflexivity.
Qed.

Lemma cellInfo_Normal (data : option workbook) (wb : workbook) (sh : sheet)
    (sheetName : string) (cellRef : address) :
  data = Some wb -> Sheets wb !! sheetName = Some sh ->
  cellInfo data sheetName cellRef = Normal (cellObject data sheetName cellRef).
Proof.
  intros -> H. unfold cellInfo, cellObject. simpl. rewrite H. reflexivity.
Qed.

(** ** Lists *)

Lemma lookup_under_legend {A : Type} (legend l : list A) (row : nat) :
  length legend = 7%nat -> (legend ++ l) !! (7 + row)%nat = l !! row.
Proof.
  intros L. rewrite lookup_app_r by lia. f_equal. lia.
Qed.

Lemma lookup_map_seq {A : Type} (F : nat -> A) (n i : nat) :
  (i < n)%nat -> map F (seq 0 n) !! i = Some (F i).
Proof.
  intros H. change (map F (seq 0 n)) with (F <$> seq 0 n).
  rewrite list_lookup_fmap, lookup_seq_lt by assumption. reflexivity.
Qed.

Lemma seq_head (n : nat) : (0 < n)%nat -> seq 0 n = 0%nat :: seq 1 (n - 1).
Proof. destruct n as [|n]; [lia|]. intros _. simpl. now rewrite Nat.sub_0_r. Qed.

Lemma lookup_concat_triples {A : Type} (h : nat -> list A) (s n i k : nat) :
  (forall c, (s <= c)%nat -> length (h c) = 3%nat) ->
  (i < n)%nat -> (k < 3)%nat ->
  concat (map h (seq s n)) !! (3 * i + k)%nat = h (s + i)%nat !! k.
Proof.
  revert s i. induction n as [|n IH]; intros s i H Hi Hk; [lia|].
  cbn [seq map concat]. destruct i as [|i].
  - rewrite lookup_app_l by (rewrite H; lia).
    replace (3 * 0 + k)%nat with k by lia.
    replace (s + 0)%nat with s by lia. reflexivity.
  - rewrite lookup_app_r by (rewrite H; lia).
    rewrite H by lia.
    replace (3 * S i + k - 3)%nat with (3 * i + k)%nat by lia.
    rewrite IH by (trivial; try lia; intros; apply H; lia).
    replace (S s + i)%nat with (s + S i)%nat by lia. reflexivity.
Qed.

(** ** The report renderer *)

Section Rendering.

Variable this : ExcelComparator.
Variables originalRows modifiedRows : list (list value).
Variable sheetName : string.
Variables (ow mw : workbook) (osh msh : sheet).
Hypothesis original_loaded : originalData this = Some ow.
Hypothesis original_sheet : Sheets ow !! sheetName = Some osh.
Hypothesis modified_loaded : modifiedData this = Some mw.
Hypothesis modified_sheet : Sheets mw !! sheetName = Some msh.

Lemma createComparisonDataSingleCell_Normal :
  exists legend,
    length legend = 7%nat
    /\ createComparisonDataSingleCell this originalRows modifiedRows sheetName
       = Normal (legend
                 ++ map (fun row =>
                           map (singleAt this originalRows modifiedRows sheetName row)
                               (seq 0 (maxColsOf originalRows modifiedRows)))
                        (seq 0 (maxRowsOf originalRows modifiedRows))).
Proof.
  eexists. split; [|unfold createComparisonDataSingleCell].
  2: { erewrite forEach_Normal; [reflexivity|].
       intros row _. apply forEach_Normal. intros col _.
       unfold singleAt. destruct (col =? 0)%nat eqn:C.
       - apply Nat.eqb_eq in C. subst col. reflexivity.
       - rewrite (cellInfo_Normal _ _ _ _ _ original_loaded original_sheet).
         rewrite (cellInfo_Normal _ _ _ _ _ modified_loaded modified_sheet).
         reflexivity. }
  reflexivity.
Qed.

Lemma createComparisonDataMultiCell_Normal :
  exists legend,
    length legend = 7%nat
    /\ createComparisonDataMultiCell this originalRows modifiedRows sheetName
       = Normal (legend
                 ++ map (fun row =>
                           concat (map (multiAt this originalRows modifiedRows sheetName row)
                                       (seq 0 (maxColsOf originalRows modifiedRows))))
                        (seq 0 (maxRowsOf originalRows modifiedRows))).
Proof.
  unfold createComparisonDataMultiCell.
  erewrite forEach_Normal with
    (g := fun row => concat (map (multiAt this originalRows modifiedRows sheetName row)
                                 (seq 0 (maxColsOf originalRows modifiedRows)))).
  - cbn [mbind completion_bind].
    match goal with
    | |- context [Normal (?l ++ [?h; ?e] ++ _)] => exists (l ++ [h; e])
    end.
    split; [reflexivity|]. now rewrite <- app_assoc.
  - intros row _.
    erewrite forEach_Normal with
      (g := multiAt this originalRows modifiedRows sheetName row);
      [reflexivity|].
    intros col _. unfold multiAt. destruct (col =? 0)%nat eqn:C.
    + apply Nat.eqb_eq in C. subst col. reflexivity.
    + rewrite (cellInfo_Normal _ _ _ _ _ original_loaded original_sheet).
      rewrite (cellInfo_Normal _ _ _ _ _ modified_loaded modified_sheet).
      reflexivity.
Qed.


Lemma renderedCell_single (single : list (list value)) (row col : nat) :
  createComparisonDataSingleCell this originalRows modifiedRows sheetName
  = Normal single ->
  (row < maxRowsOf originalRows modifiedRows)%nat ->
  (col < maxColsOf originalRows modifiedRows)%nat ->
  renderedCell single row col
  = Some (singleAt this originalRows modifiedRows sheetName row col).
Proof.
  destruct createComparisonDataSingleCell_Normal as (legend & L & E).
  rewrite E. intros [= <-] Hr Hc. unfold renderedCell.
  rewrite (lookup_under_legend _ _ _ L), lookup_map_seq by assumption. simpl.
  now apply lookup_map_seq.
Qed.

Lemma renderedCell_multi_label (multi : list (list value)) (row : nat) :
  createComparisonDataMultiCell this originalRows modifiedRows sheetName
  = Normal multi ->
  (row < maxRowsOf originalRows modifiedRows)%nat ->
  (0 < maxColsOf originalRows modifiedRows)%nat ->
  renderedCell multi row 0
  = Some (fieldName (hasAnyDifference originalRows modifiedRows
                       (maxColsOf originalRows modifiedRows) row)
                    (cellAt originalRows row 0)).
Proof.
  destruct createComparisonDataMultiCell_Normal as (legend & L & E).
  rewrite E. intros [= <-] Hr Hc. unfold renderedCell.
  rewrite (lookup_under_legend _ _ _ L), lookup_map_seq by assumption. simpl.
  rewrite (seq_head (maxColsOf originalRows modifiedRows) Hc). reflexivity.
Qed.

Lemma renderedCell_multi (multi : list (list value)) (row col k : nat) :
  createComparisonDataMultiCell this originalRows modifiedRows sheetName
  = Normal multi ->
  (row < maxRowsOf originalRows modifiedRows)%nat ->
  (1 <= col < maxColsOf originalRows modifiedRows)%nat -> (k < 3)%nat ->
  renderedCell multi row (3 * col - 2 + k)
  = multiAt this originalRows modifiedRows sheetName row col !! k.
Proof.
  destruct createComparisonDataMultiCell_Normal as (legend & L & E).
  rewrite E. intros [= <-] Hr Hc Hk. unfold renderedCell.
  rewrite (lookup_under_legend _ _ _ L), lookup_map_seq by assumption.
  cbn [mbind option_bind].
  rewrite (seq_head (maxColsOf originalRows modifiedRows)) by lia. cbn [map concat].
  replace (3 * col - 2 + k)%nat with (S (3 * (col - 1) + k)) by lia.
  change (multiAt this originalRows modifiedRows sheetName row 0)
    with [fieldName (hasAnyDifference originalRows modifiedRows
                       (maxColsOf originalRows modifiedRows) row)
                    (cellAt originalRows row 0)].
  cbn [app]. rewrite lookup_cons_ne_0 by lia. cbn [Nat.pred].
  rewrite lookup_concat_triples; try lia.
  - replace (1 + (col - 1))%nat with col by lia. reflexivity.
  - intros c Hc'. unfold multiAt.
    destruct (Nat.eqb_spec c 0); [lia | reflexivity].
Qed.

Lemma hasAnyDifference_spec (row : nat) :
  hasAnyDifference originalRows modifiedRows
    (maxColsOf originalRows modifiedRows) row = true
  <-> exists col, (1 <= col < maxColsOf originalRows modifiedRows)%nat
        /\ valuesAreDifferent (cellAt originalRows row col)
                              (cellAt modifiedRows row col) = true.
Proof.
  unfold hasAnyDifference. rewrite existsb_exists.
  split; intros (col & H1 & H2); exists col.
  - apply in_seq in H1. split; [lia | assumption].
  - split; [apply in_seq; lia | assumption].
Qed.

End Rendering.

Lemma length_append (s t : string) :
  String.length (s ++ t)%string = (String.length s + String.length t)%nat.
Proof. induction s as [|c s IH]; simpl; [reflexivity | now rewrite IH]. Qed.

(** A field name is never its own tagged form. *)
Lemma fieldName_tag_differs (v : value) :
  v <> VString ("[CHANGED] " ++ Js.toString v)%string.
Proof.
  destruct v as [| |b|n|s]; try discriminate.
  intros [= E]. apply (f_equal String.length) in E.
  rewrite length_append in E. simpl in E. lia.
Qed.

(** C7. In both layouts the first cell of every data row is the field name
    of the original row, with "[CHANGED] " in front of it exactly when some
    column from 1 on, inside the bounding box, holds values that
    [valuesAreDifferent] tells apart; otherwise it is the field name as it
    is. *)
Theorem changed_row_tagging (this : ExcelComparator)
    (originalRows modifiedRows : list (list value)) (sheetName : string)
    (ow mw : workbook) (osh msh : sheet) :
  originalData this = Some ow -> Sheets ow !! sheetName = Some osh ->
  modifiedData this = Some mw -> Sheets mw !! sheetName = Some msh ->
  exists single multi : list (list value),
    createComparisonDataSingleCell this originalRows modifiedRows sheetName
    = Normal single
    /\ createComparisonDataMultiCell this originalRows modifiedRows sheetName
       = Normal multi
    /\ forall row : nat,
         (row < maxRowsOf originalRows modifiedRows)%nat ->
         (0 < maxColsOf originalRows modifiedRows)%nat ->
         let differs :=
           exists col, (1 <= col < maxColsOf originalRows modifiedRows)%nat
             /\ valuesAreDifferent (cellAt originalRows row col)
                                   (cellAt modifiedRows row col) = true in
         let tagged :=
           VString ("[CHANGED] " ++ Js.toString (cellAt originalRows row 0))%string in
         exists label,
           renderedCell single row 0 = Some label
           /\ renderedCell multi row 0 = Some label
           /\ (label = tagged <-> differs)
           /\ (~ differs -> label = cellAt originalRows row 0).
Proof.
  intros Ho Hos Hm Hms.
  destruct (createComparisonDataSingleCell_Normal this originalRows modifiedRows
              sheetName ow mw osh msh Ho Hos Hm Hms) as (l1 & L1 & E1).
  destruct (createComparisonDataMultiCell_Normal this originalRows modifiedRows
              sheetName ow mw osh msh Ho Hos Hm Hms) as (l2 & L2 & E2).
  eexists. eexists. split; [exact E1|]. split; [exact E2|].
  intros row Hr Hc differs tagged.
  exists (fieldName (hasAnyDifference originalRows modifiedRows
                       (maxColsOf originalRows modifiedRows) row)
                    (cellAt originalRows row 0)).
  split; [|split].
  - rewrite (renderedCell_single this originalRows modifiedRows sheetName
               ow mw osh msh Ho Hos Hm Hms _ row 0%nat E1 Hr Hc).
    reflexivity.
  - apply (renderedCell_multi_label this originalRows modifiedRows sheetName
             ow mw osh msh Ho Hos Hm Hms _ row E2 Hr Hc).
  - pose proof (hasAnyDifference_spec originalRows modifiedRows row) as S.
    fold differs in S.
    destruct (hasAnyDifference originalRows modifiedRows
                (maxColsOf originalRows modifiedRows) row); simpl.
    + split; [split; [intros _; now apply S | reflexivity]|].
      intros N. exfalso. apply N. now apply S.
    + split; [split|reflexivity].
      * intros E. exfalso. exact (fieldName_tag_differs _ E).
      * intros D. apply S in D. discriminate.
Qed.

(** ** The cell accessor *)

Lemma isBlank_falsy (x : value) : Js.isBlank x = true -> Js.truthy x = false.
Proof.
  destruct x as [| |b|n|s]; simpl; try reflexivity; try discriminate.
  destruct s; [reflexivity | discriminate].
Qed.

Lemma cellAt_falsy (data : list (list value)) (row col : nat) (x : value) :
  data !! row ≫= (.!! col) = Some x -> Js.truthy x = false ->
  cellAt data row col = VString "".
Proof.
  unfold cellAt. destruct (data !! row) as [r|]; simpl; [|discriminate].
  intros -> F. unfold Js.or. now rewrite F.
Qed.

Lemma cellAt_blank (data : list (list value)) (row col : nat) :
  blankAt data row col -> cellAt data row col = VString "".
Proof.
  unfold blankAt. destruct (data !! row ≫= (.!! col)) as [x|] eqn:E.
  - intros B. apply (cellAt_falsy _ _ _ x E). now apply isBlank_falsy.
  - intros _. unfold cellAt. destruct (data !! row) as [r|]; [|reflexivity].
    simpl in E. now rewrite E.
Qed.

(** ** The sheet aligner *)

(** A record is collected for a coordinate exactly when the coordinate lies
    in the bounding box and [valuesAreDifferent] tells its values apart. *)
Lemma scanSheet_spec (sheetName : string)
    (originalSheet modifiedSheet : list (list value)) (d : DifferenceRecord) :
  d ∈ (scanSheet sheetName originalSheet modifiedSheet).*2
  <-> exists row col,
        (row < maxRowsOf originalSheet modifiedSheet)%nat
        /\ (col < maxColsOf originalSheet modifiedSheet)%nat
        /\ valuesAreDifferent (cellAt originalSheet row col)
                              (cellAt modifiedSheet row col) = true
        /\ d = Difference sheetName (row + 1) (col + 1) (row, col)
                 (cellAt originalSheet row col) (cellAt modifiedSheet row col).
Proof.
  unfold scanSheet. rewrite list_elem_of_fmap. split.
  - intros ([k d'] & -> & H). simpl.
    apply list_elem_of_bind in H as (row & H & Hr).
    apply list_elem_of_bind in H as (col & H & Hc).
    apply elem_of_seq in Hr. apply elem_of_seq in Hc.
    exists row, col.
    destruct (valuesAreDifferent _ _) eqn:V.
    + apply list_elem_of_singleton in H. injection H as _ ->.
      unfold maxRowsOf, maxColsOf. repeat split; trivial; lia.
    + inversion H.
  - intros (row & col & Hr & Hc & V & ->).
    eexists (_, _). split; [reflexivity|].
    apply list_elem_of_bind. exists row. split; [|apply elem_of_seq; unfold maxRowsOf in Hr; lia].
    apply list_elem_of_bind. exists col. split; [|apply elem_of_seq; unfold maxColsOf in Hc; lia].
    rewrite V. apply list_elem_of_singleton. reflexivity.
Qed.

Lemma compareSheet_Normal (this : ExcelComparator) (o m : workbook)
    (sheetName : string) (found : list DifferenceRecord)
    (dmap : gmap string (gset string)) :
  modifiedData this = Some m ->
  compareSheet this o (found, dmap) sheetName
  = Normal (found ++ (scanSheet sheetName (sheet_to_json (Sheets o !! sheetName))
                        (sheet_to_json (Sheets m !! sheetName))).*2,
            <[sheetName := list_to_set
                (scanSheet sheetName (sheet_to_json (Sheets o !! sheetName))
                   (sheet_to_json (Sheets m !! sheetName))).*1]> dmap).
Proof. intros Hm. unfold compareSheet. rewrite Hm. reflexivity. Qed.

Lemma compareSheet_loop (this : ExcelComparator) (o m : workbook)
    (names : list string) (found : list DifferenceRecord)
    (dmap : gmap string (gset string)) :
  modifiedData this = Some m ->
  exists dmap',
    forEachFrom (compareSheet this o) (found, dmap) names
    = Normal (found ++ (sheetName ← names;
                        (scanSheet sheetName (sheet_to_json (Sheets o !! sheetName))
                                   (sheet_to_json (Sheets m !! sheetName))).*2),
              dmap').
Proof.
  intros Hm. revert found dmap.
  induction names as [|sheetName names IH]; intros found dmap.
  - exists dmap. simpl. now rewrite app_nil_r.
  - cbn [forEachFrom]. rewrite (compareSheet_Normal this o m _ _ _ Hm).
    cbn [mbind completion_bind].
    destruct (IH (found ++ (scanSheet sheetName (sheet_to_json (Sheets o !! sheetName))
                              (sheet_to_json (Sheets m !! sheetName))).*2)
                 (<[sheetName := list_to_set
                      (scanSheet sheetName (sheet_to_json (Sheets o !! sheetName))
                         (sheet_to_json (Sheets m !! sheetName))).*1]> dmap))
      as (dmap' & E).
    exists dmap'. rewrite E. rewrite bind_cons. now rewrite <- app_assoc.
Qed.

(** With both files loaded [compareFiles] returns, and the differences it
    stores are those of the sheets, in the order of the sheet names. *)
Lemma compareFiles_Normal (this : ExcelComparator) (o m : workbook) :
  originalData this = Some o -> modifiedData this = Some m ->
  exists this',
    compareFiles this = Normal this'
    /\ comparisonResult this'
       = Some (Comparison (allDifferences o m) (length (allDifferences o m))
                          (length (SheetNames o)))
    /\ originalData this' = originalData this
    /\ modifiedData this' = modifiedData this.
Proof.
  intros Ho Hm. unfold compareFiles. rewrite Ho. cbn [deref mbind completion_bind].
  destruct (compareSheet_loop this o m (SheetNames o) [] (differenceMap this) Hm)
    as (dmap' & E).
  rewrite E. cbn [app]. eexists. split; [reflexivity|].
  cbn [comparisonResult originalData modifiedData]. auto.
Qed.

Lemma allDifferences_spec (o m : workbook) (d : DifferenceRecord) :
  d ∈ allDifferences o m ->
  d ∈ (scanSheet (diff_sheet d) (sheet_to_json (Sheets o !! diff_sheet d))
                 (sheet_to_json (Sheets m !! diff_sheet d))).*2.
Proof.
  unfold allDifferences. intros H.
  apply list_elem_of_bind in H as (sheetName & H & _).
  pose proof H as H'.
  apply scanSheet_spec in H' as (row & col & _ & _ & _ & ->). exact H.
Qed.

(** ** Coordinates that read as empty on both sides *)

Lemma createValueComparison_blank (this : ExcelComparator) (a b : value)
    (originalCellInfo modifiedCellInfo : option cell)
    (sheetName : string) (cellRef : option address) :
  Js.isBlank a = true -> Js.isBlank b = true ->
  createValueComparisonSingleCell this a b originalCellInfo modifiedCellInfo
    sheetName cellRef = ""%string
  /\ createValueComparisonMultiCell this a b originalCellInfo modifiedCellInfo
       sheetName cellRef
     = ValueCells (VString "") (VString "") (VString "").
Proof.
  intros Ha Hb.
  unfold createValueComparisonSingleCell, createValueComparisonMultiCell.
  rewrite Ha, Hb. split; reflexivity.
Qed.

Section EmptyPair.

Variable this : ExcelComparator.
Variable sheetName : string.
Variables (ow mw : workbook) (osh msh : sheet).
Hypothesis original_loaded : originalData this = Some ow.
Hypothesis original_sheet : Sheets ow !! sheetName = Some osh.
Hypothesis modified_loaded : modifiedData this = Some mw.
Hypothesis modified_sheet : Sheets mw !! sheetName = Some msh.

Variables row col : nat.
Hypothesis original_empty : cellAt (rows osh) row col = VString "".
Hypothesis modified_empty : cellAt (rows msh) row col = VString "".

Lemma empty_pair_no_difference :
  exists this' result,
    compareFiles this = Normal this'
    /\ comparisonResult this' = Some result
    /\ forall d, d ∈ differences result ->
         diff_sheet d = sheetName -> diff_cellRef d <> (row, col).
Proof.
  destruct (compareFiles_Normal this ow mw original_loaded modified_loaded)
    as (this' & E & R & _).
  exists this'. eexists. split; [exact E|]. split; [exact R|].
  simpl. intros d Hd Hs Hc.
  apply allDifferences_spec in Hd. rewrite Hs in Hd.
  rewrite original_sheet, modified_sheet in Hd. simpl in Hd.
  apply scanSheet_spec in Hd as (r & c & _ & _ & V & ->).
  simpl in Hc. injection Hc as -> ->.
  rewrite original_empty, modified_empty in V. discriminate.
Qed.

Lemma empty_pair_rendered :
  exists single multi,
    createComparisonDataSingleCell this (rows osh) (rows msh) sheetName
    = Normal single
    /\ createComparisonDataMultiCell this (rows osh) (rows msh) sheetName
       = Normal multi
    /\ ((row < maxRowsOf (rows osh) (rows msh))%nat ->
        (1 <= col < maxColsOf (rows osh) (rows msh))%nat ->
        renderedCell single row col = Some (VString "")
        /\ renderedCell multi row (3 * col - 2) = Some (VString "")
        /\ renderedCell multi row (3 * col - 1) = Some (VString "")
        /\ renderedCell multi row (3 * col) = Some (VString "")).
Proof.
  destruct (createComparisonDataSingleCell_Normal this (rows osh) (rows msh)
              sheetName ow mw osh msh original_loaded original_sheet
              modified_loaded modified_sheet) as (l1 & L1 & E1).
  destruct (createComparisonDataMultiCell_Normal this (rows osh) (rows msh)
              sheetName ow mw osh msh original_loaded original_sheet
              modified_loaded modified_sheet) as (l2 & L2 & E2).
  eexists. eexists. split; [exact E1|]. split; [exact E2|].
  intros Hr Hc.
  assert (M : multiAt this (rows osh) (rows msh) sheetName row col
              = [VString ""; VString ""; VString ""]).
  { unfold multiAt. destruct (Nat.eqb_spec col 0); [lia|].
    rewrite original_empty, modified_empty. reflexivity. }
  pose proof (fun k => renderedCell_multi this (rows osh) (rows msh) sheetName
                ow mw osh msh original_loaded original_sheet
                modified_loaded modified_sheet _ row col k E2 Hr Hc) as R.
  rewrite M in R.
  split; [|split; [|split]].
  - rewrite (renderedCell_single this (rows osh) (rows msh) sheetName
               ow mw osh msh original_loaded original_sheet
               modified_loaded modified_sheet _ row col E1 Hr) by lia.
    unfold singleAt. destruct (Nat.eqb_spec col 0); [lia|].
    rewrite original_empty, modified_empty. reflexivity.
  - specialize (R 0%nat ltac:(lia)).
    rewrite Nat.add_0_r in R. exact R.
  - specialize (R 1%nat ltac:(lia)).
    replace (3 * col - 2 + 1)%nat with (3 * col - 1)%nat in R by lia.
    exact R.
  - specialize (R 2%nat ltac:(lia)).
    replace (3 * col - 2 + 2)%nat with (3 * col)%nat in R by lia.
    exact R.
Qed.

End EmptyPair.

(** C8. Where both values are blank the two cell renderers return empty
    strings; and in a compared sheet, a coordinate whose two entries are
    blank contributes no record to [comparisonResult.differences] and, from
    column 1 on, is rendered as the empty string in both layouts. *)
Theorem blank_pair_renders_empty :
  (forall (this : ExcelComparator) (a b : value)
          (originalCellInfo modifiedCellInfo : option cell)
          (sheetName : string) (cellRef : option address),
      Js.isBlank a = true -> Js.isBlank b = true ->
      createValueComparisonSingleCell this a b originalCellInfo modifiedCellInfo
        sheetName cellRef = ""%string
      /\ createValueComparisonMultiCell this a b originalCellInfo modifiedCellInfo
           sheetName cellRef
         = ValueCells (VString "") (VString "") (VString ""))
  /\ (forall (this : ExcelComparator) (sheetName : string)
             (ow mw : workbook) (osh msh : sheet) (row col : nat),
        originalData this = Some ow -> Sheets ow !! sheetName = Some osh ->
        modifiedData this = Some mw -> Sheets mw !! sheetName = Some msh ->
        blankAt (rows osh) row col -> blankAt (rows msh) row col ->
        (exists this' result,
            compareFiles this = Normal this'
            /\ comparisonResult this' = Some result
            /\ forall d, d ∈ differences result ->
                 diff_sheet d = sheetName -> diff_cellRef d <> (row, col))
        /\ (exists single multi,
              createComparisonDataSingleCell this (rows osh) (rows msh) sheetName
              = Normal single
              /\ createComparisonDataMultiCell this (rows osh) (rows msh) sheetName
                 = Normal multi
              /\ ((row < maxRowsOf (rows osh) (rows msh))%nat ->
                  (1 <= col < maxColsOf (rows osh) (rows msh))%nat ->
                  renderedCell single row col = Some (VString "")
                  /\ renderedCell multi row (3 * col - 2) = Some (VString "")
                  /\ renderedCell multi row (3 * col - 1) = Some (VString "")
                  /\ renderedCell multi row (3 * col) = Some (VString "")))).
Proof.
  split.
  - intros. now apply createValueComparison_blank.
  - intros this sheetName ow mw osh msh row col Ho Hos Hm Hms Bo Bm.
    apply cellAt_blank in Bo. apply cellAt_blank in Bm. split.
    + exact (empty_pair_no_difference this sheetName ow mw osh msh
               Ho Hos Hm Hms row col Bo Bm).
    + exact (empty_pair_rendered this sheetName ow mw osh msh
               Ho Hos Hm Hms row col Bo Bm).
Qed.

(** ** Replacing an entry that reads as empty *)

Lemma setCell_length (data : list (list value)) (row col : nat) (x : value) :
  length (setCell data row col x) = length data.
Proof. apply length_alter. Qed.

Lemma setCell_maxRowLength (data : list (list value)) (row col : nat) (x : value) :
  maxRowLength (setCell data row col x) = maxRowLength data.
Proof.
  unfold maxRowLength, setCell. f_equal.
  revert row. induction data as [|r data IH]; intros [|row]; simpl;
    try reflexivity.
  - now rewrite length_insert.
  - f_equal. apply IH.
Qed.

Lemma setCell_cellAt (data : list (list value)) (row col : nat) (x : value) :
  data !! row ≫= (.!! col) = Some x -> Js.truthy x = false ->
  forall r c, cellAt (setCell data row col (VString "")) r c = cellAt data r c.
Proof.
  intros H F r c. unfold cellAt, setCell.
  destruct (decide (row = r)) as [<-|N].
  - rewrite list_lookup_alter_eq.
    destruct (data !! row) as [rw|]; simpl in *; [|discriminate].
    destruct (decide (col = c)) as [<-|Nc].
    + rewrite list_lookup_insert_eq by (eapply lookup_lt_Some; eassumption).
      rewrite H. unfold Js.or. now rewrite F.
    + now rewrite list_lookup_insert_ne.
  - now rewrite list_lookup_alter_ne.
Qed.

Lemma hasAnyDifference_ext (o o' m m' : list (list value)) (maxCols row : nat) :
  (forall c, cellAt o' row c = cellAt o row c) ->
  (forall c, cellAt m' row c = cellAt m row c) ->
  hasAnyDifference o' m' maxCols row = hasAnyDifference o m maxCols row.
Proof.
  intros Ho Hm. unfold hasAnyDifference.
  induction (seq 1 (maxCols - 1)) as [|c l IH]; simpl; [reflexivity|].
  now rewrite Ho, Hm, IH.
Qed.

(** The aligner and the two layouts read the arrays of arrays only through
    their bounding box and [cellAt]. *)
Lemma reads_through_cellAt (this : ExcelComparator) (sheetName : string)
    (o o' m m' : list (list value)) :
  length o' = length o -> maxRowLength o' = maxRowLength o ->
  (forall r c, cellAt o' r c = cellAt o r c) ->
  length m' = length m -> maxRowLength m' = maxRowLength m ->
  (forall r c, cellAt m' r c = cellAt m r c) ->
  scanSheet sheetName o' m' = scanSheet sheetName o m
  /\ createComparisonDataSingleCell this o' m' sheetName
     = createComparisonDataSingleCell this o m sheetName
  /\ createComparisonDataMultiCell this o' m' sheetName
     = createComparisonDataMultiCell this o m sheetName.
Proof.
  intros Lo Co Ho Lm Cm Hm. split; [|split].
  - unfold scanSheet. rewrite Lo, Lm, Co, Cm.
    apply list_bind_ext; [|reflexivity]. intros row.
    apply list_bind_ext; [|reflexivity]. intros col.
    now rewrite Ho, Hm.
  - unfold createComparisonDataSingleCell. rewrite Lo, Lm, Co, Cm.
    f_equal. apply forEach_ext. intros row _.
    rewrite (hasAnyDifference_ext o o' m m' _ row (Ho row) (Hm row)).
    apply forEach_ext. intros col _. now rewrite Ho, Hm.
  - unfold createComparisonDataMultiCell. rewrite Lo, Lm, Co, Cm.
    f_equal. apply forEach_ext. intros row _.
    rewrite (hasAnyDifference_ext o o' m m' _ row (Ho row) (Hm row)).
    f_equal. apply forEach_ext. intros col _. now rewrite Ho, Hm.
Qed.

(** The label of a row whose original label reads as the empty string:
    the tag alone in a changed row, and the empty string otherwise. *)
Lemma empty_label_rendered (this : ExcelComparator) (sheetName : string)
    (ow mw : workbook) (osh msh : sheet) (row : nat)
    (single multi : list (list value)) :
  originalData this = Some ow -> Sheets ow !! sheetName = Some osh ->
  modifiedData this = Some mw -> Sheets mw !! sheetName = Some msh ->
  cellAt (rows osh) row 0 = VString "" ->
  createComparisonDataSingleCell this (rows osh) (rows msh) sheetName
  = Normal single ->
  createComparisonDataMultiCell this (rows osh) (rows msh) sheetName
  = Normal multi ->
  (row < maxRowsOf (rows osh) (rows msh))%nat ->
  (0 < maxColsOf (rows osh) (rows msh))%nat ->
  let label :=
    VString (if hasAnyDifference (rows osh) (rows msh)
                  (maxColsOf (rows osh) (rows msh)) row
             then "[CHANGED] " else "") in
  renderedCell single row 0 = Some label
  /\ renderedCell multi row 0 = Some label.
Proof.
  intros Ho Hos Hm Hms E E1 E2 Hr Hc label. subst label. split.
  - rewrite (renderedCell_single this (rows osh) (rows msh) sheetName
               ow mw osh msh Ho Hos Hm Hms _ row 0%nat E1 Hr Hc).
    unfold singleAt. cbn [Nat.eqb]. rewrite E.
    now destruct (hasAnyDifference _ _ _ _).
  - rewrite (renderedCell_multi_label this (rows osh) (rows msh) sheetName
               ow mw osh msh Ho Hos Hm Hms _ row E2 Hr Hc).
    rewrite E. now destruct (hasAnyDifference _ _ _ _).
Qed.

(** C9, as the code has it. An entry that is falsy, the number zero,
    [false] or the empty string, is read as the empty string by the
    accessor of the aligner and of the renderer. So where one side holds
    the number zero and the other side is blank or missing, the two values
    compare equal and no record is collected; from column 1 on the cell is
    rendered as the empty string in both layouts, and in column 0, the
    column of the row labels, the cell is the label of an empty field name:
    the empty string in a row without a change, and the tag "[CHANGED] "
    alone in a changed row. Writing the empty string over a falsy entry
    changes neither what the aligner collects nor what the layouts render:
    a cell that holds zero is not told apart from a cell that holds the
    empty string in its place. *)
Theorem zero_reads_as_empty :
  (forall (data : list (list value)) (row col : nat) (x : value),
      data !! row ≫= (.!! col) = Some x ->
      (exists s, x = VNumber (S754_zero s)) \/ x = VBoolean false \/ x = VString "" ->
      cellAt data row col = VString "")
  /\ (forall (this : ExcelComparator) (sheetName : string)
             (ow mw : workbook) (osh msh : sheet) (row col : nat),
        originalData this = Some ow -> Sheets ow !! sheetName = Some osh ->
        modifiedData this = Some mw -> Sheets mw !! sheetName = Some msh ->
        (zeroAt (rows osh) row col /\ blankAt (rows msh) row col)
        \/ (blankAt (rows osh) row col /\ zeroAt (rows msh) row col) ->
        valuesAreDifferent (cellAt (rows osh) row col) (cellAt (rows msh) row col)
        = false
        /\ (exists this' result,
              compareFiles this = Normal this'
              /\ comparisonResult this' = Some result
              /\ forall d, d ∈ differences result ->
                   diff_sheet d = sheetName -> diff_cellRef d <> (row, col))
        /\ (exists single multi,
              createComparisonDataSingleCell this (rows osh) (rows msh) sheetName
              = Normal single
              /\ createComparisonDataMultiCell this (rows osh) (rows msh) sheetName
                 = Normal multi
              /\ ((row < maxRowsOf (rows osh) (rows msh))%nat ->
                  (1 <= col < maxColsOf (rows osh) (rows msh))%nat ->
                  renderedCell single row col = Some (VString "")
                  /\ renderedCell multi row (3 * col - 2) = Some (VString "")
                  /\ renderedCell multi row (3 * col - 1) = Some (VString "")
                  /\ renderedCell multi row (3 * col) = Some (VString ""))
              /\ ((row < maxRowsOf (rows osh) (rows msh))%nat ->
                  col = 0%nat ->
                  (0 < maxColsOf (rows osh) (rows msh))%nat ->
                  let label :=
                    VString (if hasAnyDifference (rows osh) (rows msh)
                                  (maxColsOf (rows osh) (rows msh)) row
                             then "[CHANGED] " else "") in
                  renderedCell single row 0 = Some label
                  /\ renderedCell multi row 0 = Some label)))
  /\ (forall (this : ExcelComparator) (sheetName : string)
             (data other : list (list value)) (row col : nat) (x : value),
        data !! row ≫= (.!! col) = Some x -> Js.truthy x = false ->
        let data' := setCell data row col (VString "") in
        scanSheet sheetName data' other = scanSheet sheetName data other
        /\ scanSheet sheetName other data' = scanSheet sheetName other data
        /\ createComparisonDataSingleCell this data' other sheetName
           = createComparisonDataSingleCell this data other sheetName
        /\ createComparisonDataSingleCell this other data' sheetName
           = createComparisonDataSingleCell this other data sheetName
        /\ createComparisonDataMultiCell this data' other sheetName
           = createComparisonDataMultiCell this data other sheetName
        /\ createComparisonDataMultiCell this other data' sheetName
           = createComparisonDataMultiCell this other data sheetName).
Proof.
  split; [|split].
  - intros data row col x H [[s ->]|[->| ->]]; now apply (cellAt_falsy _ _ _ _ H).
  - intros this sheetName ow mw osh msh row col Ho Hos Hm Hms H.
    assert (E : cellAt (rows osh) row col = VString ""
                /\ cellAt (rows msh) row col = VString "").
    { destruct H as [[[s Z] B]|[B [s Z]]]; split;
        solve [now apply cellAt_blank | now apply (cellAt_falsy _ _ _ _ Z)]. }
    destruct E as [Eo Em]. split; [|split].
    + now rewrite Eo, Em.
    + exact (empty_pair_no_difference this sheetName ow mw osh msh
               Ho Hos Hm Hms row col Eo Em).
    + destruct (empty_pair_rendered this sheetName ow mw osh msh
                  Ho Hos Hm Hms row col Eo Em) as (single & multi & E1 & E2 & R).
      exists single, multi. split; [exact E1|]. split; [exact E2|].
      split; [exact R|]. intros Hr -> Hc.
      exact (empty_label_rendered this sheetName ow mw osh msh row single multi
               Ho Hos Hm Hms Eo E1 E2 Hr Hc).
  - intros this sheetName data other row col x H F data'.
    pose proof (setCell_length data row col (VString "")) as L.
    pose proof (setCell_maxRowLength data row col (VString "")) as C.
    pose proof (setCell_cellAt data row col x H F) as A.
    destruct (reads_through_cellAt this sheetName data data' other other
                L C A eq_refl eq_refl (fun _ _ => eq_refl)) as (S1 & S2 & S3).
    destruct (reads_through_cellAt this sheetName other other data data'
                eq_refl eq_refl (fun _ _ => eq_refl) L C A) as (T1 & T2 & T3).
    repeat split; assumption.
Qed.

(** C9, as it is stated. In the column of the row labels a zero against
    an empty entry is not rendered as blank when the row has a change: the
    cell holds the tag. And a zero is told apart from a cell that is not
    there: behind the last column of the other rows it widens the rendered
    sheet by a column. *)
Lemma zero_label_in_changed_row_is_tagged :
  ~ (forall (this : ExcelComparator) (sheetName : string)
            (ow mw : workbook) (osh msh : sheet) (row col : nat)
            (single : list (list value)),
        originalData this = Some ow -> Sheets ow !! sheetName = Some osh ->
        modifiedData this = Some mw -> Sheets mw !! sheetName = Some msh ->
        (zeroAt (rows osh) row col /\ blankAt (rows msh) row col)
        \/ (blankAt (rows osh) row col /\ zeroAt (rows msh) row col) ->
        createComparisonDataSingleCell this (rows osh) (rows msh) sheetName
        = Normal single ->
        (row < maxRowsOf (rows osh) (rows msh))%nat ->
        (col < maxColsOf (rows osh) (rows msh))%nat ->
        renderedCell single row col = Some (VString ""))
  /\ (exists single,
        createComparisonDataSingleCell
          (loaded zeroLabelOriginal zeroLabelModified "single")
          (rows zeroLabelOriginalSheet) (rows zeroLabelModifiedSheet) "S"
        = Normal single
        /\ renderedCell single 1 0 = Some (VString "[CHANGED] "))
  /\ createComparisonDataSingleCell sample
       [[VString "Stock"; num "0"]] [[VString "Stock"]] "S"
     <> createComparisonDataSingleCell sample
          [[VString "Stock"]] [[VString "Stock"]] "S".
Proof.
  assert (R : exists single,
             createComparisonDataSingleCell
               (loaded zeroLabelOriginal zeroLabelModified "single")
               (rows zeroLabelOriginalSheet) (rows zeroLabelModifiedSheet) "S"
             = Normal single
             /\ renderedCell single 1 0 = Some (VString "[CHANGED] ")).
  { eexists. split; vm_compute; reflexivity. }
  split; [|split; [exact R|]].
  - intros H. destruct R as (single & E & C).
    specialize (H (loaded zeroLabelOriginal zeroLabelModified "single")
                  "S"%string zeroLabelOriginal zeroLabelModified
                  zeroLabelOriginalSheet zeroLabelModifiedSheet
                  1%nat 0%nat single eq_refl eq_refl eq_refl eq_refl).
    rewrite H in C; [discriminate| |exact E| |].
    + left. split; [exists false; reflexivity | reflexivity].
    + vm_compute. lia.
    + vm_compute. lia.
  - vm_compute. discriminate.
Qed.

(** ** The value classifier *)

Lemma headerCellOf_original (this : ExcelComparator) (sheetName : string)
    (r c : nat) :
  headerCellOf this sheetName (Some (r, c))
  = if Str.isEmpty sheetName then None
    else cellObject (originalData this) sheetName (0%nat, c).
Proof.
  unfold headerCellOf, cellObject.
  destruct (Str.isEmpty sheetName); [reflexivity|]. simpl.
  destruct (originalData this) as [wb|]; reflexivity.
Qed.

(** What the layouts push for a data row does not change when the modified
    workbook is replaced by one that differs from it in row 0 only. *)
Lemma data_rows_ignore_modified_header (this : ExcelComparator)
    (mw' : workbook) (o m m' : list (list value)) (sheetName : string) :
  length m' = length m -> maxRowLength m' = maxRowLength m ->
  (forall r c, (1 <= r)%nat -> cellAt m' r c = cellAt m r c) ->
  (forall r c, (1 <= r)%nat ->
     cellObject (Some mw') sheetName (r, c)
     = cellObject (modifiedData this) sheetName (r, c)) ->
  forall row col, (1 <= row)%nat ->
    singleAt (withModifiedData this (Some mw')) o m' sheetName row col
    = singleAt this o m sheetName row col
    /\ multiAt (withModifiedData this (Some mw')) o m' sheetName row col
       = multiAt this o m sheetName row col.
Proof.
  intros L C A B row col R.
  assert (H : hasAnyDifference o m' (maxColsOf o m') row
              = hasAnyDifference o m (maxColsOf o m) row).
  { unfold maxColsOf. rewrite C.
    apply hasAnyDifference_ext; [reflexivity|]. intros c. now apply A. }
  unfold singleAt, multiAt. rewrite H, (A row col R).
  cbn [modifiedData originalData withModifiedData]. rewrite (B row col R).
  split; reflexivity.
Qed.

(** C10. The header that [isPercentageCell] consults is the cell of row 0
    of the original workbook's sheet, for whichever value is classified; so
    loading another modified workbook changes no classification, no
    formatted value and no rendered comparison of a given value and cell
    object; when the header of the original workbook gives no signal a
    value is classified by its own number format and magnitude alone,
    whatever the header of the modified workbook says; and what is rendered
    for the data rows does not change when only row 0 of the modified
    workbook changes. *)
Theorem header_signal_reads_original_workbook (this : ExcelComparator) :
  (forall (sheetName : string) (r c : nat),
      headerCellOf this sheetName (Some (r, c))
      = if Str.isEmpty sheetName then None
        else cellObject (originalData this) sheetName (0%nat, c))
  /\ (forall (data : option workbook) (v w : value) (ci cj : option cell)
             (sheetName : string) (cellRef : option address),
        isPercentageCell (withModifiedData this data) ci sheetName cellRef v
        = isPercentageCell this ci sheetName cellRef v
        /\ formatValue (withModifiedData this data) v ci sheetName cellRef
           = formatValue this v ci sheetName cellRef
        /\ classifiedPercentage (withModifiedData this data) v ci sheetName cellRef
           = classifiedPercentage this v ci sheetName cellRef
        /\ createValueComparisonSingleCell (withModifiedData this data)
             v w ci cj sheetName cellRef
           = createValueComparisonSingleCell this v w ci cj sheetName cellRef
        /\ createValueComparisonMultiCell (withModifiedData this data)
             v w ci cj sheetName cellRef
           = createValueComparisonMultiCell this v w ci cj sheetName cellRef)
  /\ (forall (data : option workbook) (v : value) (ci : option cell)
             (sheetName : string) (cellRef : option address),
        headerSignal this sheetName cellRef = false ->
        isPercentageCell (withModifiedData this data) ci sheetName cellRef v
        = formatSignal ci || magnitudeHeuristic v)
  /\ (forall (mw' : workbook) (o m m' : list (list value)) (sheetName : string),
        length m' = length m -> maxRowLength m' = maxRowLength m ->
        (forall r c, (1 <= r)%nat -> cellAt m' r c = cellAt m r c) ->
        (forall r c, (1 <= r)%nat ->
           cellObject (Some mw') sheetName (r, c)
           = cellObject (modifiedData this) sheetName (r, c)) ->
        forall row col, (1 <= row)%nat ->
          singleAt (withModifiedData this (Some mw')) o m' sheetName row col
          = singleAt this o m sheetName row col
          /\ multiAt (withModifiedData this (Some mw')) o m' sheetName row col
             = multiAt this o m sheetName row col).
Proof.
  split; [|split; [|split]].
  - intros. apply headerCellOf_original.
  - intros. repeat split; reflexivity.
  - intros data v ci sheetName cellRef H.
    change (isPercentageCell (withModifiedData this data) ci sheetName cellRef v)
      with (isPercentageCell this ci sheetName cellRef v).
    unfold isPercentageCell. rewrite H.
    now destruct (formatSignal ci).
  - apply data_rows_ignore_modified_header.
Qed.

(** C3, as the code has it. A number without a format signal and without a
    header signal is classified as a percentage when its absolute value lies
    in [0.001, 1] and its decimal representation has at least two digits
    after the point; it is not when its absolute value is not at least
    0.001. *)
Theorem magnitude_heuristic_classifies (this : ExcelComparator)
    (originalCell : option cell) (sheetName : string) (cellRef : option address)
    (n : number) :
  formatSignal originalCell = false ->
  headerSignal this sheetName cellRef = false ->
  (forall d : string,
      Num.geb (Num.abs n) (Num.of_decimal false 1 (-3)) = true ->
      Num.leb (Num.abs n) one = true ->
      decimalPart n = Some d -> (2 <= String.length d)%nat ->
      isPercentageCell this originalCell sheetName cellRef (VNumber n) = true)
  /\ (Num.geb (Num.abs n) (Num.of_decimal false 1 (-3)) = false ->
      isPercentageCell this originalCell sheetName cellRef (VNumber n) = false).
Proof.
  intros F H. unfold isPercentageCell. rewrite F, H.
  unfold magnitudeHeuristic. split.
  - intros d G L D K. rewrite L, D, G.
    assert (P : Num.gtb (Num.abs n) Num.zero = true).
    { destruct n as [s|s| |s m e]; try discriminate; reflexivity. }
    rewrite P. cbn [andb].
    replace (negb (Str.isEmpty d)) with true
      by (destruct d; [simpl in K; lia | reflexivity]).
    rewrite (proj2 (Nat.leb_le _ _) K). reflexivity.
  - intros G. rewrite G.
    destruct (Num.leb (Num.abs n) one && Num.gtb (Num.abs n) Num.zero);
      [|reflexivity].
    destruct (decimalPart n) as [d|]; [|reflexivity].
    now rewrite andb_false_r.
Qed.

(** C3, as it is stated: the number 0.0005 has an absolute value in
    (0, 1] and four digits after the point, and is not classified as a
    percentage. *)
Lemma magnitude_heuristic_rejects_small_fraction :
  ~ (forall (this : ExcelComparator) (originalCell : option cell)
            (sheetName : string) (cellRef : option address)
            (n : number) (d : string),
        formatSignal originalCell = false ->
        headerSignal this sheetName cellRef = false ->
        Num.gtb (Num.abs n) Num.zero = true ->
        Num.leb (Num.abs n) one = true ->
        decimalPart n = Some d -> (2 <= String.length d)%nat ->
        isPercentageCell this originalCell sheetName cellRef (VNumber n) = true).
Proof.
  intros H.
  specialize (H sample None "S"%string (Some (1, 1)%nat)
                (Parse.toNumber "0.0005") "0005"%string).
  vm_compute in H.
  specialize (H eq_refl eq_refl eq_refl eq_refl eq_refl
                ltac:(repeat constructor)).
  discriminate.
Qed.

(** ** The rendered difference *)

Lemma append_empty (s : string) : String.append s EmptyString = s.
Proof.
  induction s as [|c s IH]; [reflexivity|].
  change (String c (String.append s EmptyString) = String c s).
  f_equal. exact IH.
Qed.

Lemma append_assoc (s t u : string) :
  String.append (String.append s t) u = String.append s (String.append t u).
Proof.
  induction s as [|c s IH]; [reflexivity|].
  change (String c (String.append (String.append s t) u)
          = String c (String.append s (String.append t u))).
  f_equal. exact IH.
Qed.

(** For two values of one category that are both numeric, the difference
    cell of the multi-cell layout holds [differenceText], and the single
    cell ends with it: a plus sign in front of an increase, nothing in front
    of a decrease. *)
Lemma rendered_difference (this : ExcelComparator) (a b : value)
    (ci cj : option cell) (sheetName : string) (cellRef : option address)
    (p : bool) (o m : number) :
  Js.isBlank a && Js.isBlank b = false ->
  classifiedPercentage this a ci sheetName cellRef = p ->
  classifiedPercentage this b cj sheetName cellRef = p ->
  getNumericValue a p = Some o -> getNumericValue b p = Some m ->
  difference (createValueComparisonMultiCell this a b ci cj sheetName cellRef)
  = VString (differenceText p (Num.sub m o))
  /\ createValueComparisonSingleCell this a b ci cj sheetName cellRef
     = ("Original Value: " ++ Js.toString (formatValue this a ci sheetName cellRef)
        ++ ", Changed Value: " ++ Js.toString (formatValue this b cj sheetName cellRef)
        ++ ", Difference: " ++ differenceText p (Num.sub m o))%string.
Proof.
  intros B Pa Pb Ho Hm.
  unfold createValueComparisonMultiCell, createValueComparisonSingleCell.
  rewrite B. unfold classifiedPercentage in Pa, Pb.
  rewrite Pa, Pb, Ho, Hm. unfold differenceText.
  destruct p; cbn [andb negb difference];
    destruct (Num.gtb (Num.abs (Num.sub m o)) CONFIG.NUMERIC_EPSILON);
    destruct (Num.gtb (Num.sub m o) Num.zero);
    destruct (Num.ltb (Num.sub m o) Num.zero);
    rewrite ?append_assoc, ?append_empty; split; reflexivity.
Qed.

(** C2. For the original 150 and the modified 100 the difference is
    rendered without a sign, as "50", in both layouts; for the original 100
    and the modified 150 it is rendered as "+50". *)
Theorem negative_difference_rendered_unsigned :
  createValueComparisonSingleCell sample (num "150") (num "100") None None
    "S" (Some (2, 1)%nat)
  = "Original Value: 150, Changed Value: 100, Difference: 50"%string
  /\ createValueComparisonMultiCell sample (num "150") (num "100") None None
       "S" (Some (2, 1)%nat)
     = ValueCells (VString "150") (VString "100") (VString "50")
  /\ createValueComparisonSingleCell sample (num "100") (num "150") None None
       "S" (Some (1, 1)%nat)
     = "Original Value: 100, Changed Value: 150, Difference: +50"%string
  /\ (exists single,
        createComparisonDataSingleCell sample
          sampleOriginalRows sampleModifiedRows "S"
        = Normal single
        /\ renderedCell single 2 1
           = Some (VString "Original Value: 150, Changed Value: 100, Difference: 50")).
Proof.
  split; [|split; [|split]]; try (vm_compute; reflexivity).
  eexists. split; vm_compute; reflexivity.
Qed.

(** ** The statements at the sample workbooks *)

Lemma magnitude_heuristic_classifies_witness :
  isPercentageCell sample None "S" (Some (1, 2)%nat)
    (VNumber (Parse.toNumber "0.055")) = true
  /\ isPercentageCell sample None "S" (Some (1, 2)%nat)
       (VNumber (Parse.toNumber "0.0005")) = false.
Proof.
  split.
  - apply (magnitude_heuristic_classifies sample None "S"%string (Some (1, 2)%nat)
             (Parse.toNumber "0.055") eq_refl eq_refl) with (d := "055"%string);
      try (vm_compute; reflexivity).
    simpl. lia.
  - apply (magnitude_heuristic_classifies sample None "S"%string (Some (1, 2)%nat)
             (Parse.toNumber "0.0005") eq_refl eq_refl).
    vm_compute. reflexivity.
Defined.

Lemma changed_row_tagging_witness :
  exists single multi : list (list value),
    createComparisonDataSingleCell sample sampleOriginalRows sampleModifiedRows "S"
    = Normal single
    /\ createComparisonDataMultiCell sample sampleOriginalRows sampleModifiedRows "S"
       = Normal multi
    /\ renderedCell single 1 0 = Some (VString "[CHANGED] Revenue")
    /\ renderedCell multi 1 0 = Some (VString "[CHANGED] Revenue")
    /\ renderedCell single 0 0 = Some (VString "Field")
    /\ renderedCell multi 0 0 = Some (VString "Field").
Proof.
  destruct (changed_row_tagging sample sampleOriginalRows sampleModifiedRows
              "S"%string sampleOriginal sampleModified
              sampleOriginalSheet sampleModifiedSheet
              eq_refl eq_refl eq_refl eq_refl)
    as (single & multi & E1 & E2 & H).
  exists single, multi. split; [exact E1|]. split; [exact E2|].
  destruct (H 1%nat ltac:(vm_compute; lia) ltac:(vm_compute; lia))
    as (label1 & L1 & L1' & [_ T] & _).
  destruct (H 0%nat ltac:(vm_compute; lia) ltac:(vm_compute; lia))
    as (label0 & L0 & L0' & _ & U).
  rewrite L1, L1', L0, L0'.
  rewrite T by (exists 1%nat; split; [vm_compute; lia | vm_compute; reflexivity]).
  rewrite U.
  - repeat split; reflexivity.
  - intros (col & [C1 C2] & D). vm_compute in C2.
    assert (C : col = 1%nat \/ col = 2%nat) by lia.
    destruct C as [-> | ->]; vm_compute in D; discriminate.
Defined.

Lemma blank_pair_renders_empty_witness :
  createValueComparisonSingleCell sample (VString "") VNull None None
    "S" (Some (2, 2)%nat) = ""%string
  /\ (exists this' result,
        compareFiles sample = Normal this'
        /\ comparisonResult this' = Some result
        /\ forall d, d ∈ differences result ->
             diff_sheet d = "S"%string -> diff_cellRef d <> (2, 2)%nat)
  /\ (exists single multi,
        createComparisonDataSingleCell sample sampleOriginalRows sampleModifiedRows "S"
        = Normal single
        /\ createComparisonDataMultiCell sample sampleOriginalRows sampleModifiedRows "S"
           = Normal multi
        /\ renderedCell single 2 2 = Some (VString "")
        /\ renderedCell multi 2 4 = Some (VString "")
        /\ renderedCell multi 2 5 = Some (VString "")
        /\ renderedCell multi 2 6 = Some (VString "")).
Proof.
  destruct blank_pair_renders_empty as [F S].
  split; [|split].
  - apply (F sample (VString "") VNull None None "S"%string (Some (2, 2)%nat));
      reflexivity.
  - apply (S sample "S"%string sampleOriginal sampleModified
             sampleOriginalSheet sampleModifiedSheet 2%nat 2%nat
             eq_refl eq_refl eq_refl eq_refl eq_refl eq_refl).
  - destruct (S sample "S"%string sampleOriginal sampleModified
                sampleOriginalSheet sampleModifiedSheet 2%nat 2%nat
                eq_refl eq_refl eq_refl eq_refl eq_refl eq_refl)
      as (_ & single & multi & E1 & E2 & R).
    exists single, multi. split; [exact E1|]. split; [exact E2|].
    apply R; vm_compute; lia.
Defined.

Lemma zero_reads_as_empty_witness :
  cellAt sampleOriginalRows 3 1 = VString ""
  /\ valuesAreDifferent (cellAt sampleOriginalRows 3 1) (cellAt sampleModifiedRows 3 1)
     = false
  /\ (exists this' result,
        compareFiles sample = Normal this'
        /\ comparisonResult this' = Some result
        /\ forall d, d ∈ differences result ->
             diff_sheet d = "S"%string -> diff_cellRef d <> (3, 1)%nat)
  /\ (exists single multi,
        createComparisonDataSingleCell sample sampleOriginalRows sampleModifiedRows "S"
        = Normal single
        /\ createComparisonDataMultiCell sample sampleOriginalRows sampleModifiedRows "S"
           = Normal multi
        /\ renderedCell single 3 1 = Some (VString "")
        /\ renderedCell multi 3 1 = Some (VString "")
        /\ renderedCell multi 3 2 = Some (VString "")
        /\ renderedCell multi 3 3 = Some (VString ""))
  /\ (exists single multi,
        createComparisonDataSingleCell
          (loaded zeroLabelOriginal zeroLabelModified "single")
          (rows zeroLabelOriginalSheet) (rows zeroLabelModifiedSheet) "S"
        = Normal single
        /\ createComparisonDataMultiCell
             (loaded zeroLabelOriginal zeroLabelModified "single")
             (rows zeroLabelOriginalSheet) (rows zeroLabelModifiedSheet) "S"
           = Normal multi
        /\ renderedCell single 1 0 = Some (VString "[CHANGED] ")
        /\ renderedCell multi 1 0 = Some (VString "[CHANGED] "))
  /\ createComparisonDataSingleCell sample
       (setCell sampleOriginalRows 3 1 (VString "")) sampleModifiedRows "S"
     = createComparisonDataSingleCell sample sampleOriginalRows sampleModifiedRows "S".
Proof.
  destruct zero_reads_as_empty as (A & B & C).
  assert (Z : zeroAt sampleOriginalRows 3 1) by (exists false; reflexivity).
  destruct (B sample "S"%string sampleOriginal sampleModified
              sampleOriginalSheet sampleModifiedSheet 3%nat 1%nat
              eq_refl eq_refl eq_refl eq_refl (or_introl (conj Z I)))
    as (V & D & single & multi & E1 & E2 & R & _).
  assert (Z0 : zeroAt (rows zeroLabelOriginalSheet) 1 0)
    by (exists false; reflexivity).
  destruct (B (loaded zeroLabelOriginal zeroLabelModified "single") "S"%string
              zeroLabelOriginal zeroLabelModified
              zeroLabelOriginalSheet zeroLabelModifiedSheet 1%nat 0%nat
              eq_refl eq_refl eq_refl eq_refl (or_introl (conj Z0 eq_refl)))
    as (_ & _ & single0 & multi0 & F1 & F2 & _ & L).
  split; [|split; [|split; [|split; [|split]]]].
  - apply (A sampleOriginalRows 3%nat 1%nat (num "0") eq_refl).
    left. exists false. reflexivity.
  - exact V.
  - exact D.
  - exists single, multi. split; [exact E1|]. split; [exact E2|].
    apply R; vm_compute; lia.
  - exists single0, multi0. split; [exact F1|]. split; [exact F2|].
    apply L; [vm_compute; lia | reflexivity | vm_compute; lia].
  - apply (C sample "S"%string sampleOriginalRows sampleModifiedRows 3%nat 1%nat
             (num "0") eq_refl eq_refl).
Defined.

Lemma header_signal_reads_original_workbook_witness :
  isPercentageCell
    (withModifiedData (loaded plainHeader plainHeader "single") (Some percentHeader))
    None "S" (Some (1, 1)%nat) (num "100")
  = false
  /\ singleAt
       (withModifiedData (loaded plainHeader plainHeader "single") (Some percentHeader))
       (sheet_to_json (Sheets plainHeader !! "S"%string))
       (sheet_to_json (Sheets percentHeader !! "S"%string)) "S" 1 1
     = singleAt (loaded plainHeader plainHeader "single")
         (sheet_to_json (Sheets plainHeader !! "S"%string))
         (sheet_to_json (Sheets plainHeader !! "S"%string)) "S" 1 1.
Proof.
  destruct (header_signal_reads_original_workbook
              (loaded plainHeader plainHeader "single")) as (_ & _ & H & D).
  split.
  - rewrite (H (Some percentHeader) (num "100") None "S"%string (Some (1, 1)%nat));
      vm_compute; reflexivity.
  - refine (proj1 (D percentHeader
                      (sheet_to_json (Sheets plainHeader !! "S"%string))
                      (sheet_to_json (Sheets plainHeader !! "S"%string))
                      (sheet_to_json (Sheets percentHeader !! "S"%string))
                      "S"%string _ _ _ _ 1%nat 1%nat _)).
    + vm_compute. reflexivity.
    + vm_compute. reflexivity.
    + intros [|[|r]] c Hr; [lia | reflexivity | reflexivity].
    + intros r c Hr. unfold cellObject. simpl.
      rewrite !lookup_singleton_eq. simpl.
      rewrite !lookup_singleton_ne by (intros [= E _]; lia). reflexivity.
    + lia.
Defined.

(** The header of the original workbook does give the signal. *)
Example header_of_original_counts :
  isPercentageCell (loaded percentHeader plainHeader "single")
    None "S" (Some (1, 1)%nat) (num "100") = true
  /\ isPercentageCell (loaded plainHeader percentHeader "single")
       None "S" (Some (1, 1)%nat) (num "100") = false.
Proof. split; vm_compute; reflexivity. Qed.

(** The comparison is made on binary64 numbers: 1 and 1.000001 are not
    flagged, their difference being just under [NUMERIC_EPSILON], while 2
    and 2.000001 are, their difference being just over it. *)
Example decimal_spellings_one_millionth_apart :
  valuesAreDifferent (num "1") (num "1.000001") = false
  /\ valuesAreDifferent (num "2") (num "2.000001") = true.
Proof. split; vm_compute; reflexivity. Qed.

(** * Further properties *)

(** ** Comparing a workbook with itself *)

Lemma valuesAreDifferent_refl (v : value) : valuesAreDifferent v v = false.
Proof.
  unfold valuesAreDifferent.
  destruct (Js.strictEquals v v); [reflexivity|].
  assert (D : forall x, Num.gtb (Num.abs (Num.sub x x)) CONFIG.NUMERIC_EPSILON = false).
  { intros x. destruct (NumFacts.sub_diag x) as [E|E]; rewrite E; reflexivity. }
  destruct (getNumericValue v false) as [x|]; [apply D|].
  destruct (extractPercentageValue v) as [x|]; [apply D|].
  now rewrite String.eqb_refl.
Qed.

Lemma bind_nil_all {A B : Type} (f : A -> list B) (l : list A) :
  (forall x, f x = []) -> l ≫= f = [].
Proof.
  intros H. induction l as [|x l IH]; [reflexivity|].
  now rewrite bind_cons, IH, H.
Qed.

Lemma scanSheet_same (sheetName : string) (data : list (list value)) :
  scanSheet sheetName data data = [].
Proof.
  unfold scanSheet. apply bind_nil_all. intros row.
  apply bind_nil_all. intros col. now rewrite valuesAreDifferent_refl.
Qed.

Lemma allDifferences_same (w : workbook) : allDifferences w w = [].
Proof.
  unfold allDifferences.
  induction (SheetNames w) as [|sheetName names IH]; [reflexivity|].
  now rewrite bind_cons, IH, scanSheet_same.
Qed.

(** X1. A value never differs from itself, not even [NaN]; so comparing a
    workbook with itself finds no difference in any sheet, and no row of a
    sheet rendered against itself is tagged. *)
Theorem compareFiles_same_workbook (this : ExcelComparator) (w : workbook) :
  originalData this = Some w -> modifiedData this = Some w ->
  (forall v, valuesAreDifferent v v = false)
  /\ (exists this',
        compareFiles this = Normal this'
        /\ comparisonResult this'
           = Some (Comparison [] 0 (length (SheetNames w))))
  /\ (forall (data : list (list value)) (maxCols row : nat),
        hasAnyDifference data data maxCols row = false).
Proof.
  intros Ho Hm. split; [exact valuesAreDifferent_refl|]. split.
  - destruct (compareFiles_Normal this w w Ho Hm) as (this' & E & R & _).
    exists this'. split; [exact E|]. now rewrite R, allDifferences_same.
  - intros data maxCols row. unfold hasAnyDifference.
    induction (seq 1 (maxCols - 1)) as [|c l IH]; [reflexivity|].
    simpl. now rewrite valuesAreDifferent_refl.
Qed.

Lemma compareFiles_same_workbook_witness :
  exists this',
    compareFiles (loaded sampleOriginal sampleOriginal "single") = Normal this'
    /\ comparisonResult this' = Some (Comparison [] 0 1).
Proof.
  exact (proj1 (proj2 (compareFiles_same_workbook
                         (loaded sampleOriginal sampleOriginal "single")
                         sampleOriginal eq_refl eq_refl))).
Defined.

(** ** What the aligner collects *)

Lemma bind_filter_map {A B : Type} (p : A -> bool) (f : A -> B) (l : list A) :
  (x ← l; if p x then [f x] else []) = map f (List.filter p l).
Proof.
  induction l as [|x l IH]; [reflexivity|].
  rewrite bind_cons, IH. simpl. now destruct (p x).
Qed.

Lemma scanSheet_filter (sheetName : string)
    (originalSheet modifiedSheet : list (list value)) :
  scanSheet sheetName originalSheet modifiedSheet
  = map (fun cellRef =>
           (coordinateKey cellRef.1 cellRef.2,
            recordAt sheetName originalSheet modifiedSheet cellRef))
        (List.filter (differsAt originalSheet modifiedSheet)
           (coordinates (maxRowsOf originalSheet modifiedSheet)
                        (maxColsOf originalSheet modifiedSheet))).
Proof.
  unfold scanSheet, coordinates, maxRowsOf, maxColsOf.
  generalize (seq 0 (maxRowLength originalSheet `max` maxRowLength modifiedSheet)).
  intros cs.
  induction (seq 0 (length originalSheet `max` length modifiedSheet))
    as [|row rs IH]; [reflexivity|].
  rewrite !bind_cons, IH, List.filter_app, map_app. f_equal.
  clear IH. induction cs as [|col cs IHc]; [reflexivity|].
  rewrite !bind_cons, IHc. simpl. unfold differsAt at 2. simpl.
  now destruct (valuesAreDifferent _ _).
Qed.

Lemma coordinates_NoDup (maxRows maxCols : nat) :
  NoDup (coordinates maxRows maxCols).
Proof.
  unfold coordinates. apply NoDup_bind; [| |apply NoDup_seq].
  - intros r1 r2 rc _ _ H1 H2.
    apply list_elem_of_bind in H1 as (c1 & H1 & _).
    apply list_elem_of_bind in H2 as (c2 & H2 & _).
    apply list_elem_of_singleton in H1. apply list_elem_of_singleton in H2.
    congruence.
  - intros r _. apply NoDup_bind; [| |apply NoDup_seq].
    + intros c1 c2 rc _ _ H1 H2.
      apply list_elem_of_singleton in H1. apply list_elem_of_singleton in H2.
      congruence.
    + intros c _. apply NoDup_singleton.
Qed.

(** X2. The records of a sheet are those of the coordinates of the bounding
    box at which the values differ, in row-major order, with one-based row
    and column numbers; no coordinate is recorded twice, and the keys added
    to the sheet's set are those of the recorded coordinates. *)
Theorem scanSheet_row_major (sheetName : string)
    (originalSheet modifiedSheet : list (list value)) :
  let found :=
    List.filter (differsAt originalSheet modifiedSheet)
      (coordinates (maxRowsOf originalSheet modifiedSheet)
                   (maxColsOf originalSheet modifiedSheet)) in
  (scanSheet sheetName originalSheet modifiedSheet).*2
  = map (recordAt sheetName originalSheet modifiedSheet) found
  /\ map diff_cellRef (scanSheet sheetName originalSheet modifiedSheet).*2 = found
  /\ NoDup (map diff_cellRef (scanSheet sheetName originalSheet modifiedSheet).*2)
  /\ (scanSheet sheetName originalSheet modifiedSheet).*1
     = map (fun cellRef => coordinateKey cellRef.1 cellRef.2) found.
Proof.
  assert (E2 : forall l : list address,
             (map (fun cellRef =>
                     (coordinateKey cellRef.1 cellRef.2,
                      recordAt sheetName originalSheet modifiedSheet cellRef)) l).*2
             = map (recordAt sheetName originalSheet modifiedSheet) l).
  { induction l as [|x l IH]; [reflexivity|]. simpl. now rewrite <- IH. }
  assert (E1 : forall l : list address,
             (map (fun cellRef =>
                     (coordinateKey cellRef.1 cellRef.2,
                      recordAt sheetName originalSheet modifiedSheet cellRef)) l).*1
             = map (fun cellRef => coordinateKey cellRef.1 cellRef.2) l).
  { induction l as [|x l IH]; [reflexivity|]. simpl. now rewrite <- IH. }
  assert (C : forall l : list address,
            map diff_cellRef
              (map (recordAt sheetName originalSheet modifiedSheet) l) = l).
  { induction l as [|x l IH]; [reflexivity|]. simpl. now rewrite IH. }
  intros found. rewrite scanSheet_filter. fold found.
  rewrite E2, E1, C. repeat split.
  apply NoDup_ListNoDup, List.NoDup_filter, NoDup_ListNoDup, coordinates_NoDup.
Qed.

(** X3. With both files loaded [compareFiles] stores, in a result whose
    counts are the number of records and the number of sheet names, a
    record for a sheet name and a coordinate exactly when the name is
    listed by the original workbook, the coordinate lies in the bounding
    box of the two sheets, and [valuesAreDifferent] tells the two values
    apart. *)
Theorem compareFiles_records (this : ExcelComparator) (o m : workbook) :
  originalData this = Some o -> modifiedData this = Some m ->
  exists this' result,
    compareFiles this = Normal this'
    /\ comparisonResult this' = Some result
    /\ totalDifferences result = length (differences result)
    /\ sheetsCompared result = length (SheetNames o)
    /\ forall d : DifferenceRecord,
         d ∈ differences result
         <-> exists sheetName row col,
               let originalSheet := sheet_to_json (Sheets o !! sheetName) in
               let modifiedSheet := sheet_to_json (Sheets m !! sheetName) in
               sheetName ∈ SheetNames o
               /\ (row < maxRowsOf originalSheet modifiedSheet)%nat
               /\ (col < maxColsOf originalSheet modifiedSheet)%nat
               /\ valuesAreDifferent (cellAt originalSheet row col)
                                     (cellAt modifiedSheet row col) = true
               /\ d = Difference sheetName (row + 1) (col + 1) (row, col)
                        (cellAt originalSheet row col)
                        (cellAt modifiedSheet row col).
Proof.
  intros Ho Hm.
  destruct (compareFiles_Normal this o m Ho Hm) as (this' & E & R & _).
  exists this'. eexists. split; [exact E|]. split; [exact R|]. simpl.
  split; [reflexivity|]. split; [reflexivity|].
  intros d. unfold allDifferences. rewrite list_elem_of_bind. split.
  - intros (sheetName & H & Hn).
    apply scanSheet_spec in H as (row & col & Hr & Hc & V & ->).
    exists sheetName, row, col. auto.
  - intros (sheetName & row & col & Hn & Hr & Hc & V & ->).
    exists sheetName. split; [|exact Hn].
    apply scanSheet_spec. exists row, col. auto.
Qed.

Lemma compareFiles_records_witness :
  exists this' result,
    compareFiles sample = Normal this'
    /\ comparisonResult this' = Some result
    /\ totalDifferences result = 4%nat
    /\ Difference "S" 3 2 (2, 1)%nat (num "150") (num "100") ∈ differences result.
Proof.
  destruct (compareFiles_records sample sampleOriginal sampleModified
              eq_refl eq_refl) as (this' & result & E & R & T & _ & D).
  exists this', result. split; [exact E|]. split; [exact R|].
  assert (A : result = Comparison (allDifferences sampleOriginal sampleModified)
                         (length (allDifferences sampleOriginal sampleModified)) 1).
  { destruct (compareFiles_Normal sample sampleOriginal sampleModified
                eq_refl eq_refl) as (this'' & E' & R' & _).
    rewrite E in E'. injection E' as <-. rewrite R in R'.
    injection R' as ->. reflexivity. }
  split.
  - rewrite A. vm_compute. reflexivity.
  - apply D. exists "S"%string, 2%nat, 1%nat.
    repeat split; try (vm_compute; lia); try (vm_compute; reflexivity).
    apply list_elem_of_singleton. reflexivity.
Defined.

(** ** The sets of changed coordinates *)

Lemma compareSheet_loop_map (this : ExcelComparator) (o m : workbook)
    (names : list string) (found found' : list DifferenceRecord)
    (dmap dmap' : gmap string (gset string)) :
  modifiedData this = Some m ->
  forEachFrom (compareSheet this o) (found, dmap) names = Normal (found', dmap') ->
  forall sheetName,
    dmap' !! sheetName
    = if decide (sheetName ∈ names)
      then Some (list_to_set
                   (scanSheet sheetName (sheet_to_json (Sheets o !! sheetName))
                      (sheet_to_json (Sheets m !! sheetName))).*1)
      else dmap !! sheetName.
Proof.
  intros Hm. revert found dmap.
  induction names as [|name names IH]; intros found dmap E sheetName.
  - injection E as _ <-. now rewrite decide_False by apply not_elem_of_nil.
  - cbn [forEachFrom] in E. rewrite (compareSheet_Normal this o m _ _ _ Hm) in E.
    cbn [mbind completion_bind] in E.
    rewrite (IH _ _ E sheetName).
    destruct (decide (sheetName ∈ names)) as [I|N].
    + rewrite decide_True by (now right). reflexivity.
    + destruct (decide (sheetName = name)) as [->|D].
      * rewrite decide_True by left. now rewrite lookup_insert_eq.
      * rewrite decide_False
          by (intros H; apply elem_of_cons in H as [?|?]; contradiction).
        now rewrite lookup_insert_ne.
Qed.

Lemma compareFiles_differenceMap_lookup (this : ExcelComparator) (o m : workbook) :
  originalData this = Some o -> modifiedData this = Some m ->
  exists this',
    compareFiles this = Normal this'
    /\ forall sheetName : string,
         differenceMap this' !! sheetName
         = if decide (sheetName ∈ SheetNames o)
           then Some (list_to_set
                        (scanSheet sheetName (sheet_to_json (Sheets o !! sheetName))
                           (sheet_to_json (Sheets m !! sheetName))).*1)
           else differenceMap this !! sheetName.
Proof.
  intros Ho Hm. unfold compareFiles. rewrite Ho.
  cbn [deref mbind completion_bind].
  destruct (compareSheet_loop this o m (SheetNames o) [] (differenceMap this) Hm)
    as (dmap' & E).
  pose proof (compareSheet_loop_map this o m _ _ _ _ _ Hm E) as M.
  rewrite E. cbn [app]. eexists. split; [reflexivity|].
  cbn [differenceMap]. exact M.
Qed.

(** X4. After [compareFiles], [differenceMap] holds for every listed sheet
    name the set of the keys [`${row}-${col}`] of the coordinates of that
    sheet at which the values differ, and for every other name what it held
    before. *)
Theorem compareFiles_differenceMap (this : ExcelComparator) (o m : workbook) :
  originalData this = Some o -> modifiedData this = Some m ->
  exists this',
    compareFiles this = Normal this'
    /\ forall sheetName : string,
         (sheetName ∉ SheetNames o ->
          differenceMap this' !! sheetName = differenceMap this !! sheetName)
         /\ (sheetName ∈ SheetNames o ->
             let originalSheet := sheet_to_json (Sheets o !! sheetName) in
             let modifiedSheet := sheet_to_json (Sheets m !! sheetName) in
             exists keys : gset string,
               differenceMap this' !! sheetName = Some keys
               /\ forall k : string,
                    k ∈ keys
                    <-> exists row col,
                          (row < maxRowsOf originalSheet modifiedSheet)%nat
                          /\ (col < maxColsOf originalSheet modifiedSheet)%nat
                          /\ valuesAreDifferent (cellAt originalSheet row col)
                               (cellAt modifiedSheet row col) = true
                          /\ k = coordinateKey row col).
Proof.
  intros Ho Hm.
  destruct (compareFiles_differenceMap_lookup this o m Ho Hm) as (this' & E & M).
  exists this'. split; [exact E|].
  intros sheetName. rewrite M. split.
  - intros N. now rewrite decide_False.
  - intros I. cbv zeta. rewrite decide_True by assumption.
    eexists. split; [reflexivity|]. intros k.
    rewrite elem_of_list_to_set, list_elem_of_fmap. split.
    + intros ([k' d] & -> & H).
      unfold scanSheet in H.
      apply list_elem_of_bind in H as (row & H & Hr).
      apply list_elem_of_bind in H as (col & H & Hc).
      apply elem_of_seq in Hr. apply elem_of_seq in Hc.
      exists row, col. destruct (valuesAreDifferent _ _) eqn:V.
      * apply list_elem_of_singleton in H. injection H as -> _.
        unfold maxRowsOf, maxColsOf. repeat split; trivial; lia.
      * inversion H.
    + intros (row & col & Hr & Hc & V & ->).
      eexists (_, _). split; [reflexivity|]. unfold scanSheet.
      apply list_elem_of_bind. exists row.
      split; [|apply elem_of_seq; unfold maxRowsOf in Hr; lia].
      apply list_elem_of_bind. exists col.
      split; [|apply elem_of_seq; unfold maxColsOf in Hc; lia].
      rewrite V. apply list_elem_of_singleton. reflexivity.
Qed.

Lemma compareFiles_differenceMap_witness :
  exists this' keys,
    compareFiles sample = Normal this'
    /\ differenceMap this' !! "S"%string = Some keys
    /\ "2-1"%string ∈ keys.
Proof.
  destruct (compareFiles_differenceMap sample sampleOriginal sampleModified
              eq_refl eq_refl) as (this' & E & H).
  destruct (H "S"%string) as [_ K].
  destruct (K ltac:(apply list_elem_of_singleton; reflexivity))
    as (keys & L & M).
  exists this', keys. split; [exact E|]. split; [exact L|].
  apply M. exists 2%nat, 1%nat.
  repeat split; try (vm_compute; lia); vm_compute; reflexivity.
Defined.

(** ** The shape of a rendered sheet *)

Lemma length_bind_triples {A B : Type} (l : list A) (x y z : B) :
  length (_ ← l; [x; y; z]) = (3 * length l)%nat.
Proof.
  induction l as [|a l IH]; [reflexivity|].
  rewrite bind_cons, length_app, IH. simpl. lia.
Qed.

Lemma length_concat_triples {A : Type} (h : nat -> list A) (s n : nat) :
  (forall c, (s <= c)%nat -> length (h c) = 3%nat) ->
  length (concat (map h (seq s n))) = (3 * n)%nat.
Proof.
  revert s. induction n as [|n IH]; intros s H; [reflexivity|].
  cbn [seq map concat]. rewrite length_app, (H s) by lia.
  rewrite (IH (S s)) by (intros; apply H; lia). lia.
Qed.

Section Shape.

Variable this : ExcelComparator.
Variables originalRows modifiedRows : list (list value).
Variable sheetName : string.
Variables (ow mw : workbook) (osh msh : sheet).
Hypothesis original_loaded : originalData this = Some ow.
Hypothesis original_sheet : Sheets ow !! sheetName = Some osh.
Hypothesis modified_loaded : modifiedData this = Some mw.
Hypothesis modified_sheet : Sheets mw !! sheetName = Some msh.

Lemma createComparisonDataMultiCell_header (multi : list (list value)) :
  createComparisonDataMultiCell this originalRows modifiedRows sheetName
  = Normal multi ->
  multi !! 5%nat
  = Some (VString "Field Name"
            :: (_ ← seq 1 (maxColsOf originalRows modifiedRows - 1);
                [VString "Original Value"; VString "Changed Value";
                 VString "Difference"])).
Proof.
  unfold createComparisonDataMultiCell.
  erewrite forEach_Normal with
    (g := fun row => concat (map (multiAt this originalRows modifiedRows sheetName row)
                                 (seq 0 (maxColsOf originalRows modifiedRows)))).
  - cbn [mbind completion_bind]. intros [= <-]. reflexivity.
  - intros row _.
    erewrite forEach_Normal with
      (g := multiAt this originalRows modifiedRows sheetName row);
      [reflexivity|].
    intros col _. unfold multiAt. destruct (col =? 0)%nat eqn:C.
    + apply Nat.eqb_eq in C. subst col. reflexivity.
    + rewrite (cellInfo_Normal _ _ _ _ _ original_loaded original_sheet).
      rewrite (cellInfo_Normal _ _ _ _ _ modified_loaded modified_sheet).
      reflexivity.
Qed.

(** X5. With the sheet present in both workbooks, each layout returns the
    seven rows of legend and header followed by one row for every row of the
    bounding box; a data row of the single-cell layout has one cell for
    every column of the bounding box, and a data row of the multi-cell
    layout has the field name and three cells for every further column,
    which, when there is a column at all, is also the length of its header
    row. *)
Theorem rendered_sheet_shape :
  let maxRows := maxRowsOf originalRows modifiedRows in
  let maxCols := maxColsOf originalRows modifiedRows in
  exists single multi header,
    createComparisonDataSingleCell this originalRows modifiedRows sheetName
    = Normal single
    /\ createComparisonDataMultiCell this originalRows modifiedRows sheetName
       = Normal multi
    /\ length single = (7 + maxRows)%nat
    /\ length multi = (7 + maxRows)%nat
    /\ multi !! 5%nat = Some header
    /\ length header = (1 + 3 * (maxCols - 1))%nat
    /\ forall row, (row < maxRows)%nat ->
         exists cells triples,
           single !! (7 + row)%nat = Some cells
           /\ length cells = maxCols
           /\ multi !! (7 + row)%nat = Some triples
           /\ length triples
              = (if (maxCols =? 0)%nat then 0 else 1 + 3 * (maxCols - 1))%nat.
Proof.
  intros maxRows maxCols.
  destruct (createComparisonDataSingleCell_Normal this originalRows modifiedRows
              sheetName ow mw osh msh original_loaded original_sheet
              modified_loaded modified_sheet) as (l1 & L1 & E1).
  destruct (createComparisonDataMultiCell_Normal this originalRows modifiedRows
              sheetName ow mw osh msh original_loaded original_sheet
              modified_loaded modified_sheet) as (l2 & L2 & E2).
  eexists. eexists. eexists.
  split; [exact E1|]. split; [exact E2|].
  split; [now rewrite length_app, L1, length_map, length_seq|].
  split; [now rewrite length_app, L2, length_map, length_seq|].
  split; [exact (createComparisonDataMultiCell_header _ E2)|].
  split; [cbn [length]; now rewrite length_bind_triples, length_seq|].
  intros row Hr. eexists. eexists.
  rewrite !lookup_under_legend, !lookup_map_seq by assumption.
  split; [reflexivity|]. split; [now rewrite length_map, length_seq|].
  split; [reflexivity|].
  fold maxCols. destruct (Nat.eqb_spec maxCols 0) as [Z|N].
  - now rewrite Z.
  - rewrite (seq_head maxCols) by lia. cbn [map concat].
    rewrite length_app, length_concat_triples.
    + unfold multiAt. reflexivity.
    + intros c Hc. unfold multiAt.
      destruct (Nat.eqb_spec c 0); [lia | reflexivity].
Qed.

End Shape.

Lemma rendered_sheet_shape_witness :
  exists single multi header,
    createComparisonDataSingleCell sample sampleOriginalRows sampleModifiedRows "S"
    = Normal single
    /\ createComparisonDataMultiCell sample sampleOriginalRows sampleModifiedRows "S"
       = Normal multi
    /\ length single = 11%nat
    /\ length multi = 11%nat
    /\ multi !! 5%nat = Some header
    /\ length header = 7%nat.
Proof.
  destruct (rendered_sheet_shape sample sampleOriginalRows sampleModifiedRows
              "S"%string sampleOriginal sampleModified
              sampleOriginalSheet sampleModifiedSheet
              eq_refl eq_refl eq_refl eq_refl)
    as (single & multi & header & E1 & E2 & L1 & L2 & H & LH & _).
  exists single, multi, header. repeat split; assumption.
Defined.

(** ** The two layouts carry the same text *)

(** X6. For the same arguments, the text of the single-cell layout is put
    together from the three cells of the multi-cell layout: it is empty
    when both values are blank, and otherwise it is "Original Value: ", the
    original cell, ", Changed Value: ", the changed cell, ", Difference: "
    and the difference cell. *)
Theorem single_cell_from_multi_cell (this : ExcelComparator) (a b : value)
    (ci cj : option cell) (sheetName : string) (cellRef : option address) :
  let vc := createValueComparisonMultiCell this a b ci cj sheetName cellRef in
  createValueComparisonSingleCell this a b ci cj sheetName cellRef
  = if Js.isBlank a && Js.isBlank b then ""%string
    else ("Original Value: " ++ Js.toString (original vc)
          ++ ", Changed Value: " ++ Js.toString (changed vc)
          ++ ", Difference: " ++ Js.toString (difference vc))%string.
Proof.
  unfold createValueComparisonSingleCell, createValueComparisonMultiCell.
  destruct (Js.isBlank a && Js.isBlank b); [reflexivity|].
  cbn [original changed difference Js.toString].
  set (pa := isPercentageCell this ci sheetName cellRef a || _).
  set (pb := isPercentageCell this cj sheetName cellRef b || _).
  destruct (getNumericValue a pa) as [o|], (getNumericValue b pb) as [m|];
    try (rewrite ?append_assoc; reflexivity).
  destruct pa, pb; cbn [andb negb];
    try (rewrite ?append_assoc; reflexivity);
    destruct (Num.gtb (Num.abs (Num.sub m o)) CONFIG.NUMERIC_EPSILON);
    rewrite ?append_assoc; reflexivity.
Qed.

(** ** The tag of a row and the records of the aligner *)

Lemma cellAt_beyond_rows (data : list (list value)) (row col : nat) :
  (length data <= row)%nat -> cellAt data row col = VString "".
Proof.
  intros H. unfold cellAt. now rewrite lookup_ge_None_2.
Qed.

(** X7. The test that tags a row, made by the renderer on its own, agrees
    with the aligner: a row has a differing column from 1 on exactly when
    the aligner has a record in that row with a column number above 1. *)
Theorem hasAnyDifference_iff_record (sheetName : string)
    (originalRows modifiedRows : list (list value)) (row : nat) :
  hasAnyDifference originalRows modifiedRows
    (maxColsOf originalRows modifiedRows) row = true
  <-> exists d,
        d ∈ (scanSheet sheetName originalRows modifiedRows).*2
        /\ diff_row d = (row + 1)%nat /\ (1 < diff_col d)%nat.
Proof.
  rewrite hasAnyDifference_spec. split.
  - intros (col & Hc & V).
    exists (Difference sheetName (row + 1) (col + 1) (row, col)
              (cellAt originalRows row col) (cellAt modifiedRows row col)).
    split; [|simpl; split; [reflexivity | lia]].
    apply scanSheet_spec. exists row, col. repeat split; trivial; [|lia].
    unfold maxRowsOf.
    destruct (Nat.lt_ge_cases row (length originalRows `max` length modifiedRows))
      as [L|G]; [exact L|].
    rewrite !cellAt_beyond_rows in V by lia. discriminate.
  - intros (d & H & Hr & Hc).
    apply scanSheet_spec in H as (r & c & _ & Hc' & V & ->).
    simpl in Hr, Hc. assert (r = row) as -> by lia.
    exists c. split; [lia | exact V].
Qed.

(** ** A whole comparison *)

Lemma forEach_Forall2 {A B : Type} (f : A -> completion B) (l : list A) :
  (forall x, x ∈ l -> exists y, f x = Normal y) ->
  exists ys, forEach f l = Normal ys /\ Forall2 (fun x y => f x = Normal y) l ys.
Proof.
  induction l as [|x l IH]; intros H.
  - exists []. split; [reflexivity | constructor].
  - destruct (H x ltac:(left)) as (y & Ey).
    destruct IH as (ys & E & F); [intros z Hz; apply H; now right|].
    exists (y :: ys). cbn [forEach]. rewrite Ey, E. split; [reflexivity|].
    now constructor.
Qed.

(** The cell renderers and the two layouts read [this] only through the
    two workbooks. *)
Lemma rendering_reads_workbooks (this this' : ExcelComparator)
    (originalRows modifiedRows : list (list value)) (sheetName : string) :
  originalData this' = originalData this ->
  modifiedData this' = modifiedData this ->
  createComparisonDataSingleCell this' originalRows modifiedRows sheetName
  = createComparisonDataSingleCell this originalRows modifiedRows sheetName
  /\ createComparisonDataMultiCell this' originalRows modifiedRows sheetName
     = createComparisonDataMultiCell this originalRows modifiedRows sheetName.
Proof.
  destruct this as [od md cr dm rf rw], this' as [od' md' cr' dm' rf' rw'].
  cbn [originalData modifiedData]. intros -> ->. split; reflexivity.
Qed.

Lemma validateStructures_valid (this : ExcelComparator) (o m : workbook) :
  originalData this = Some o -> modifiedData this = Some m ->
  SheetNames o = SheetNames m ->
  validateStructures this = Normal (Validated true None).
Proof.
  intros Ho Hm E. unfold validateStructures. rewrite Ho, Hm.
  cbn [deref mbind completion_bind]. rewrite E, Nat.eqb_refl. cbn [negb].
  now rewrite (proj2 (firstMismatch_None _ _ eq_refl) eq_refl).
Qed.

Lemma compareFiles_keeps (this this' : ExcelComparator) :
  compareFiles this = Normal this' ->
  originalData this' = originalData this
  /\ modifiedData this' = modifiedData this
  /\ reportFormat this' = reportFormat this.
Proof.
  unfold compareFiles.
  destruct (originalData this) as [o|] eqn:Ho; [|discriminate].
  cbn [deref mbind completion_bind].
  destruct (forEachFrom _ _ _) as [[differences dmap]|e]; [|discriminate].
  intros [= <-]. cbn [originalData modifiedData reportFormat]. auto.
Qed.

(** *** Appending the sheets of the report *)

Lemma includes_char (s : string) (c : ascii) :
  Str.includes s (String c EmptyString)
  = existsb (Ascii.eqb c) (list_ascii_of_string s).
Proof.
  induction s as [|d s IH]; [reflexivity|].
  cbn [Str.includes list_ascii_of_string existsb String.prefix].
  destruct (ascii_dec c d) as [->|N].
  - rewrite Ascii.eqb_refl. now destruct s.
  - rewrite (proj2 (Ascii.eqb_neq c d) N). exact IH.
Qed.

Lemma includes_char_append (s t : string) (c : ascii) :
  Str.includes (String.append s t) (String c EmptyString)
  = Str.includes s (String c EmptyString)
    || Str.includes t (String c EmptyString).
Proof.
  rewrite !includes_char. induction s as [|d s IH]; [reflexivity|].
  change (String.append (String d s) t) with (String d (String.append s t)).
  cbn [list_ascii_of_string existsb]. now rewrite IH, orb_assoc.
Qed.

Lemma check_ws_name_suffixed (sheetName : string) :
  check_ws_name (sheetName ++ "_Comparison")
  = if fitsReport sheetName then Normal tt
    else Throw (Error (if (20 <? String.length sheetName)%nat
                       then "Sheet names cannot exceed 31 chars"
                       else "Sheet name cannot contain : \ / ? * [ ]")).
Proof.
  unfold check_ws_name, fitsReport. rewrite length_append.
  change (String.length "_Comparison") with 11%nat.
  destruct (Nat.leb_spec (String.length sheetName) 20) as [L|L];
    destruct (Nat.ltb_spec 31 (String.length sheetName + 11)) as [M|M];
    try lia;
    destruct (Nat.ltb_spec 20 (String.length sheetName)) as [K|K]; try lia;
    cbn [andb]; [|reflexivity].
  unfold badchars. cbn [existsb forallb].
  rewrite !includes_char_append.
  repeat match goal with
         | |- context [Str.includes "_Comparison" ?x] =>
             change (Str.includes "_Comparison" x) with false
         end.
  rewrite !orb_false_r.
  destruct (Str.includes sheetName "]"), (Str.includes sheetName "["),
    (Str.includes sheetName "*"), (Str.includes sheetName "?"),
    (Str.includes sheetName "/"), (Str.includes sheetName "\"); reflexivity.
Qed.

Lemma append_cancel_r (s t u : string) :
  String.append s u = String.append t u -> s = t.
Proof.
  revert t. induction s as [|c s IH]; intros [|d t] E.
  - reflexivity.
  - apply (f_equal String.length) in E. rewrite !length_append in E.
    cbn [String.length] in E. lia.
  - apply (f_equal String.length) in E. rewrite !length_append in E.
    cbn [String.length] in E. lia.
  - change (String c (String.append s u) = String d (String.append t u)) in E.
    injection E as -> E. f_equal. now apply IH.
Qed.

Lemma suffixed_elem (sheetName : string) (names : list string) :
  (sheetName ++ "_Comparison")%string
    ∈ ((fun n => n ++ "_Comparison")%string <$> names)
  <-> sheetName ∈ names.
Proof.
  rewrite list_elem_of_fmap. split.
  - intros (n & E & I). apply append_cancel_r in E. now subst n.
  - intros I. now exists sheetName.
Qed.

Lemma book_append_sheet_suffixed (wb : report) (ws : list (list value))
    (names : list string) (sheetName : string) :
  wb.*1 = (fun n => n ++ "_Comparison")%string <$> names ->
  book_append_sheet wb ws (sheetName ++ "_Comparison")
  = if (65535 <=? N.of_nat (length names))%N
    then Throw (Error "Too many worksheets")
    else if negb (fitsReport sheetName)
    then Throw (Error (if (20 <? String.length sheetName)%nat
                       then "Sheet names cannot exceed 31 chars"
                       else "Sheet name cannot contain : \ / ? * [ ]"))
    else if bool_decide (sheetName ∈ names)
    then Throw (Error ("Worksheet with name |" ++ (sheetName ++ "_Comparison")
                         ++ "| already exists!"))
    else Normal (wb ++ [((sheetName ++ "_Comparison")%string, ws)]).
Proof.
  intros W. unfold book_append_sheet.
  assert (N : Str.isEmpty (sheetName ++ "_Comparison") = false)
    by now destruct sheetName.
  rewrite N.
  assert (L : length wb = length names).
  { rewrite <- (length_fmap fst wb), W. apply length_fmap. }
  rewrite L. destruct (65535 <=? N.of_nat (length names))%N; [reflexivity|].
  rewrite check_ws_name_suffixed.
  destruct (fitsReport sheetName); cbn [negb mbind completion_bind];
    [|reflexivity].
  rewrite W.
  destruct (bool_decide_reflect (sheetName ∈ names)) as [I|I].
  - now rewrite bool_decide_eq_true_2 by now apply suffixed_elem.
  - rewrite bool_decide_eq_false_2; [reflexivity|].
    intros J. apply I. now apply suffixed_elem.
Qed.

Lemma forEachFrom_ext {A S : Type} (f g : S -> A -> completion S) (l : list A) :
  (forall s x, x ∈ l -> f s x = g s x) ->
  forall s, forEachFrom f s l = forEachFrom g s l.
Proof.
  induction l as [|x l IH]; intros H s; [reflexivity|].
  cbn [forEachFrom]. rewrite (H s x) by left.
  destruct (g s x) as [s'|e]; cbn [mbind completion_bind]; [|reflexivity].
  apply IH. intros t y I. apply H. now right.
Qed.

Lemma reportable_snoc (names : list string) (sheetName : string) :
  reportable names -> fitsReport sheetName = true -> sheetName ∉ names ->
  (N.of_nat (length names) < 65535)%N -> reportable (names ++ [sheetName]).
Proof.
  intros (F & D & L) Hf Hn Hl. split; [|split].
  - apply Forall_app. split; [exact F|]. now constructor.
  - apply NoDup_app. split; [exact D|]. split.
    + intros x I J. apply list_elem_of_singleton in J. now subst x.
    + apply NoDup_singleton.
  - rewrite length_app. cbn [length]. lia.
Qed.

Section WholeComparison.

Variable this : ExcelComparator.
Variables o m : workbook.
Hypothesis original_loaded : originalData this = Some o.
Hypothesis modified_loaded : modifiedData this = Some m.
Hypothesis original_sheets : listsItsSheets o.
Hypothesis modified_sheets : listsItsSheets m.
Hypothesis same_names : SheetNames o = SheetNames m.

Lemma rendered_Normal (sheetName : string) :
  sheetName ∈ SheetNames o -> exists data, renderedSheet this o m sheetName = Normal data.
Proof.
  intros I.
  destruct (original_sheets sheetName I) as [osh Hos].
  destruct (modified_sheets sheetName ltac:(now rewrite <- same_names))
    as [msh Hms].
  unfold renderedSheet. destruct (String.eqb (reportFormat this) "single").
  - destruct (createComparisonDataSingleCell_Normal this
                (sheet_to_json (Sheets o !! sheetName))
                (sheet_to_json (Sheets m !! sheetName))
                sheetName o m osh msh original_loaded Hos modified_loaded Hms)
      as (legend & _ & E). eauto.
  - destruct (createComparisonDataMultiCell_Normal this
                (sheet_to_json (Sheets o !! sheetName))
                (sheet_to_json (Sheets m !! sheetName))
                sheetName o m osh msh original_loaded Hos modified_loaded Hms)
      as (legend & _ & E). eauto.
Qed.

(** The loop over the sheet names, from a workbook that holds the sheets
    of the names [done] already: it ends without an error exactly when
    all the names are reportable, and then has appended their sheets. *)
Lemma appendComparison_loop (rest done : list string) (workbook : report) :
  (forall sheetName, sheetName ∈ rest -> sheetName ∈ SheetNames o) ->
  workbook.*1 = (fun n => n ++ "_Comparison")%string <$> done ->
  reportable done ->
  match forEachFrom (appendComparison this o m) workbook rest with
  | Normal sheets =>
      reportable (done ++ rest)
      /\ exists appended,
           sheets = workbook ++ appended
           /\ reportSheets this o m rest appended
  | Throw e => ~ reportable (done ++ rest) /\ exists text, e = Error text
  end.
Proof.
  revert done workbook.
  induction rest as [|sheetName rest IH]; intros done workbook I W R.
  - cbn [forEachFrom]. rewrite !app_nil_r. split; [exact R|].
    exists []. split; [now rewrite app_nil_r | constructor].
  - cbn [forEachFrom].
    destruct (rendered_Normal sheetName (I sheetName ltac:(left)))
      as (data & E).
    assert (A : appendComparison this o m workbook sheetName
                = book_append_sheet workbook data (sheetName ++ "_Comparison")).
    { unfold appendComparison. now rewrite E. }
    rewrite A.
    rewrite (book_append_sheet_suffixed workbook data done sheetName W).
    destruct (N.leb_spec 65535 (N.of_nat (length done))) as [L|L].
    { cbn [mbind completion_bind]. split; [|eauto].
      intros (_ & _ & B). rewrite length_app in B. cbn [length] in B. lia. }
    destruct (fitsReport sheetName) eqn:F; cbn [negb].
    2:{ cbn [mbind completion_bind]. split; [|eauto].
        intros (B & _ & _). apply Forall_app in B as [_ B].
        inversion B; congruence. }
    destruct (bool_decide_reflect (sheetName ∈ done)) as [J|J].
    { cbn [mbind completion_bind]. split; [|eauto].
      intros (_ & B & _). apply NoDup_app in B as (_ & B & _).
      apply (B sheetName J). left. }
    cbn [mbind completion_bind].
    specialize (IH (done ++ [sheetName])
                   (workbook ++ [((sheetName ++ "_Comparison")%string, data)])).
    rewrite <- !app_assoc in IH. cbn [app] in IH.
    destruct (forEachFrom _ _ rest) as [sheets|e].
    + destruct IH as (R' & appended & -> & S).
      * intros n H. apply I. now right.
      * rewrite !fmap_app, W. reflexivity.
      * now apply reportable_snoc.
      * split; [exact R'|].
        exists (((sheetName ++ "_Comparison")%string, data) :: appended).
        split; [now rewrite <- app_assoc|].
        constructor; [split; [reflexivity | exact E]|].
        exact S.
    + apply IH.
      * intros n H. apply I. now right.
      * rewrite !fmap_app, W. reflexivity.
      * now apply reportable_snoc.
Qed.

Lemma createComparisonSheets_loop (this' : ExcelComparator) (workbook : report) :
  originalData this' = originalData this ->
  modifiedData this' = modifiedData this ->
  reportFormat this' = reportFormat this ->
  createComparisonSheets this' workbook
  = forEachFrom (appendComparison this o m) workbook (SheetNames o).
Proof.
  intros Eo Em Ef. unfold createComparisonSheets.
  rewrite Eo, original_loaded. cbn [deref mbind completion_bind].
  apply forEachFrom_ext. intros wb sheetName _.
  rewrite Em, modified_loaded, Ef. cbn [deref mbind completion_bind].
  destruct (rendering_reads_workbooks this this'
              (sheet_to_json (Sheets o !! sheetName))
              (sheet_to_json (Sheets m !! sheetName)) sheetName Eo Em)
    as [S M].
  rewrite S, M. reflexivity.
Qed.

(** What [performComparison] leaves and shows when both files are loaded
    and the sheet names are the same. *)
Lemma performComparison_same_names :
  let done := (performComparison this).1 in
  comparisonResult done
  = Some (Comparison (allDifferences o m) (length (allDifferences o m))
                     (length (SheetNames o)))
  /\ (forall sheetName, sheetName ∉ SheetNames o ->
        differenceMap done !! sheetName = None)
  /\ ((reportable (SheetNames o)
       /\ (performComparison this).2 = None
       /\ exists sheets : report,
            reportWorkbook done = Some sheets
            /\ reportSheets this o m (SheetNames o) sheets)
      \/ (~ reportable (SheetNames o)
          /\ (exists text, (performComparison this).2 = Some (Error text))
          /\ reportWorkbook done = reportWorkbook this)).
Proof.
  unfold performComparison.
  rewrite (validateStructures_valid (clearDifferenceMap this) o m
             original_loaded modified_loaded same_names).
  cbn [mbind completion_bind isValid negb].
  destruct (compareFiles_Normal (clearDifferenceMap this) o m
              original_loaded modified_loaded) as (compared & E & R & _).
  destruct (compareFiles_differenceMap_lookup (clearDifferenceMap this) o m
              original_loaded modified_loaded) as (compared' & E' & D).
  rewrite E in E'. injection E' as <-.
  destruct (compareFiles_keeps _ _ E) as (Ko & Km & Kf).
  rewrite E. unfold generateReport.
  rewrite (createComparisonSheets_loop compared [] Ko Km Kf).
  assert (N : forall sheetName, sheetName ∉ SheetNames o ->
                differenceMap compared !! sheetName = None).
  { intros sheetName N. rewrite (D sheetName), decide_False by assumption.
    apply lookup_empty. }
  assert (K : reportWorkbook compared = reportWorkbook this).
  { revert E. unfold compareFiles.
    change (originalData (clearDifferenceMap this)) with (originalData this).
    rewrite original_loaded. cbn [deref mbind completion_bind].
    destruct (forEachFrom _ _ _) as [[differences dmap]|e]; [|discriminate].
    now intros [= <-]. }
  assert (Z : reportable []).
  { split; [constructor|]. split; [constructor|]. cbn [length]. lia. }
  pose proof (appendComparison_loop (SheetNames o) [] [] (fun _ H => H) eq_refl Z)
    as L.
  cbn [app] in L.
  destruct (forEachFrom (appendComparison this o m) [] (SheetNames o))
    as [sheets|e]; cbn [mbind completion_bind fst snd].
  - destruct L as (P & appended & -> & S).
    cbn [comparisonResult differenceMap reportWorkbook].
    split; [exact R|]. split; [exact N|]. left.
    split; [exact P|]. split; [reflexivity|]. eauto.
  - destruct L as (P & text & ->).
    split; [exact R|]. split; [exact N|]. right.
    split; [exact P|]. split; [eauto | exact K].
Qed.

(** X8. With both files loaded, the same sheet names in both workbooks and
    a sheet for every name, [performComparison] always stores the
    differences of all sheets and clears the sets of sheets that are no
    longer listed. It shows no error exactly when every sheet name has at
    most 20 characters and none of the characters that the library refuses
    in a sheet name, no name comes twice, and there are at most 65535
    names; the report then has one sheet for every sheet name, in order,
    called by that name followed by "_Comparison" and holding the layout
    chosen by [reportFormat]. Otherwise an error with a message is shown
    and the report of an earlier comparison stays. *)
Theorem performComparison_outcome :
  let done := (performComparison this).1 in
  comparisonResult done
  = Some (Comparison (allDifferences o m) (length (allDifferences o m))
                     (length (SheetNames o)))
  /\ (forall sheetName, sheetName ∉ SheetNames o ->
        differenceMap done !! sheetName = None)
  /\ ((performComparison this).2 = None <-> reportable (SheetNames o))
  /\ (reportable (SheetNames o) ->
      exists sheets : report,
        reportWorkbook done = Some sheets
        /\ reportSheets this o m (SheetNames o) sheets)
  /\ (~ reportable (SheetNames o) ->
      (exists text, (performComparison this).2 = Some (Error text))
      /\ reportWorkbook done = reportWorkbook this).
Proof.
  destruct performComparison_same_names as (R & N & [(P & E & S)|(P & E & K)]).
  - split; [exact R|]. split; [exact N|]. split; [tauto|].
    split; [intros _; exact S | intros Q; contradiction].
  - split; [exact R|]. split; [exact N|]. destruct E as (text & E). split.
    + rewrite E. split; [discriminate | intros Q; contradiction].
    + split; [intros Q; contradiction | intros _; eauto].
Qed.

End WholeComparison.

Lemma performComparison_outcome_witness :
  (performComparison sample).2 = None
  /\ (exists sheets : report,
        reportWorkbook (performComparison sample).1 = Some sheets
        /\ reportSheets sample sampleOriginal sampleModified ["S"%string] sheets)
  /\ (exists text,
        (performComparison
           (loaded sampleLongName sampleLongName "single")).2
        = Some (Error text)).
Proof.
  assert (L1 : listsItsSheets sampleOriginal).
  { intros n H. apply list_elem_of_singleton in H. subst n. now eexists. }
  assert (L2 : listsItsSheets sampleModified).
  { intros n H. apply list_elem_of_singleton in H. subst n. now eexists. }
  assert (P : reportable ["S"%string]).
  { split; [|split].
    - repeat constructor.
    - apply NoDup_singleton.
    - cbn. lia. }
  destruct (performComparison_outcome sample sampleOriginal sampleModified
              eq_refl eq_refl L1 L2 eq_refl) as (_ & _ & E & S & _).
  split; [now apply E|]. split; [now apply S|].
  assert (L3 : listsItsSheets sampleLongName).
  { intros n H. apply list_elem_of_singleton in H. subst n. now eexists. }
  destruct (performComparison_outcome
              (loaded sampleLongName sampleLongName "single")
              sampleLongName sampleLongName
              eq_refl eq_refl L3 L3 eq_refl) as (_ & _ & _ & _ & F).
  apply F. intros (B & _ & _). inversion B as [|x l H]. discriminate H.
Defined.

(** ** The comparisons that decide *)

(** X9. In [valuesAreDifferent] the percentage comparison never decides:
    the result is that of the function without it, which compares the two
    plain numbers when both values read as numbers and the trimmed strings
    otherwise. *)
Theorem valuesAreDifferent_without_percentage (a b : value) :
  valuesAreDifferent a b
  = if Js.strictEquals a b then false
    else match getNumericValue a false, getNumericValue b false with
         | Some o, Some m =>
             Num.gtb (Num.abs (Num.sub o m)) CONFIG.NUMERIC_EPSILON
         | _, _ =>
             negb (String.eqb (Str.trim (Js.toString a)) (Str.trim (Js.toString b)))
         end.
Proof.
  unfold valuesAreDifferent.
  destruct (Js.strictEquals a b); [reflexivity|].
  destruct (getNumericValue a false) as [o|] eqn:Ha,
           (getNumericValue b false) as [m|] eqn:Hb; try reflexivity.
  - destruct (extractPercentageValue b) as [q|] eqn:Q.
    + destruct (extractPercentageValue_numeric b q Q) as (n & N). congruence.
    + now destruct (extractPercentageValue a).
  - destruct (extractPercentageValue a) as [p|] eqn:P; [|reflexivity].
    destruct (extractPercentageValue_numeric a p P) as (n & N). congruence.
  - destruct (extractPercentageValue a) as [p|] eqn:P; [|reflexivity].
    destruct (extractPercentageValue_numeric a p P) as (n & N). congruence.
Qed.

(** ** The difference cell *)

(** X10. For two values that are not both blank, the difference cell is
    "N/A (non-numeric)" when either value does not read as a number,
    "N/A (type mismatch)" when both do and exactly one is classified as a
    percentage, and otherwise the magnitude of modified minus original,
    formatted, with "+" in front of an increase and nothing in front of a
    decrease, and "0" or "0%" within the epsilon. *)
Theorem difference_cell_cases (this : ExcelComparator) (a b : value)
    (ci cj : option cell) (sheetName : string) (cellRef : option address) :
  Js.isBlank a && Js.isBlank b = false ->
  let pa := classifiedPercentage this a ci sheetName cellRef in
  let pb := classifiedPercentage this b cj sheetName cellRef in
  difference (createValueComparisonMultiCell this a b ci cj sheetName cellRef)
  = VString
      match getNumericValue a pa, getNumericValue b pb with
      | Some o, Some m =>
          if Bool.eqb pa pb then differenceText pa (Num.sub m o)
          else "N/A (type mismatch)"%string
      | _, _ => "N/A (non-numeric)"%string
      end.
Proof.
  intros B pa pb. unfold createValueComparisonMultiCell. rewrite B.
  fold (classifiedPercentage this a ci sheetName cellRef).
  fold (classifiedPercentage this b cj sheetName cellRef).
  fold pa pb. cbn [difference]. f_equal.
  destruct (getNumericValue a pa) as [o|], (getNumericValue b pb) as [m|];
    try reflexivity.
  unfold differenceText.
  destruct pa, pb; cbn [andb negb Bool.eqb]; try reflexivity;
    destruct (Num.gtb (Num.abs (Num.sub m o)) CONFIG.NUMERIC_EPSILON);
    destruct (Num.gtb (Num.sub m o) Num.zero);
    destruct (Num.ltb (Num.sub m o) Num.zero);
    rewrite ?append_empty; reflexivity.
Qed.

Lemma difference_cell_cases_witness :
  difference (createValueComparisonMultiCell sample (num "150") (num "100")
                None None "S" (Some (2, 1)%nat)) = VString "50"
  /\ difference (createValueComparisonMultiCell sample (num "0.5") (VString "50%")
                   None None "S" (Some (2, 1)%nat))
     = VString "N/A (type mismatch)"
  /\ difference (createValueComparisonMultiCell sample (num "42") (VString "text")
                   None None "S" (Some (2, 1)%nat))
     = VString "N/A (non-numeric)".
Proof.
  split; [|split].
  - rewrite (difference_cell_cases sample (num "150") (num "100") None None
               "S"%string (Some (2, 1)%nat) eq_refl).
    vm_compute. reflexivity.
  - rewrite (difference_cell_cases sample (num "0.5") (VString "50%") None None
               "S"%string (Some (2, 1)%nat) eq_refl).
    vm_compute. reflexivity.
  - rewrite (difference_cell_cases sample (num "42") (VString "text") None None
               "S"%string (Some (2, 1)%nat) eq_refl).
    vm_compute. reflexivity.
Defined.

(** ** Thousands separators *)

Lemma groupFrom_unfold (prev : option ascii) (s : string) :
  Utils.groupFrom prev s
  = String.append (if Utils.groupHere prev s then "," else "")%string
      match s with
      | String c s' => String c (Utils.groupFrom (Some c) s')
      | EmptyString => EmptyString
      end.
Proof. destruct s; reflexivity. Qed.

Lemma removeCommas_group (prev : option ascii) (s : string) :
  Str.removeCommas (Utils.groupFrom prev s) = Str.removeCommas s.
Proof.
  revert prev. induction s as [|c s IH]; intros prev; rewrite groupFrom_unfold.
  - unfold Utils.groupHere. cbn [Utils.digitRun Nat.ltb Nat.leb andb].
    rewrite andb_false_r. reflexivity.
  - assert (E : Str.removeCommas (String c (Utils.groupFrom (Some c) s))
                = Str.removeCommas (String c s)).
    { cbn [Str.removeCommas]. now rewrite IH. }
    destruct (Utils.groupHere prev (String c s)); exact E.
Qed.

Lemma removeCommas_append (s t : string) :
  Str.removeCommas (String.append s t)
  = String.append (Str.removeCommas s) (Str.removeCommas t).
Proof.
  induction s as [|c s IH]; [reflexivity|].
  change (String.append (String c s) t) with (String c (String.append s t)).
  cbn [Str.removeCommas]. rewrite IH. now destruct (Ascii.eqb c ",").
Qed.

Lemma split_dot_nonempty (s : string) : Str.split_dot s <> [].
Proof.
  induction s as [|c s IH]; [discriminate|]. cbn [Str.split_dot].
  destruct (Ascii.eqb c "."); [discriminate|].
  destruct (Str.split_dot s); discriminate.
Qed.

Lemma join_dot_cons (x : string) (l : list string) :
  l <> [] ->
  Str.join_dot (x :: l) = String.append x (String "." (Str.join_dot l)).
Proof. destruct l; [contradiction | reflexivity]. Qed.

Lemma join_split_dot (s : string) : Str.join_dot (Str.split_dot s) = s.
Proof.
  induction s as [|c s IH]; [reflexivity|]. cbn [Str.split_dot].
  destruct (Ascii.eqb_spec c ".") as [->|N].
  - rewrite join_dot_cons by apply split_dot_nonempty. now rewrite IH.
  - pose proof (split_dot_nonempty s) as NE.
    destruct (Str.split_dot s) as [|h t]; [contradiction|].
    destruct t as [|u t].
    + change (h = s) in IH. subst h. reflexivity.
    + rewrite join_dot_cons by discriminate.
      rewrite join_dot_cons in IH by discriminate.
      change (String.append (String c h) (String "." (Str.join_dot (u :: t))))
        with (String c (String.append h (String "." (Str.join_dot (u :: t))))).
      now rewrite IH.
Qed.

Lemma groupFrom_digits_length (d : ascii) (s : string) :
  Str.is_word_char d = true ->
  forallb Str.is_digit (list_ascii_of_string s) = true ->
  String.length (Utils.groupFrom (Some d) s)
  = (String.length s + String.length s / 3)%nat.
Proof.
  intros Hd. revert d Hd. induction s as [|c s IH]; intros d Hd Hs.
  - rewrite groupFrom_unfold. unfold Utils.groupHere. rewrite Hd. reflexivity.
  - cbn [list_ascii_of_string forallb] in Hs.
    apply andb_prop in Hs as [Hc Hs].
    assert (W : Str.is_word_char c = true)
      by (unfold Str.is_word_char; now rewrite Hc).
    assert (R : forall t, forallb Str.is_digit (list_ascii_of_string t) = true ->
                  Utils.digitRun t = String.length t).
    { induction t as [|e t IHt]; [reflexivity|].
      cbn [list_ascii_of_string forallb Utils.digitRun String.length].
      intros H. apply andb_prop in H as [He Ht]. rewrite He. f_equal. now apply IHt. }
    rewrite groupFrom_unfold. rewrite length_append.
    cbn [String.length]. rewrite (IH c W Hs).
    unfold Utils.groupHere. rewrite Hd, W.
    cbn [Bool.eqb andb Utils.digitRun]. rewrite Hc, (R s Hs).
    change (0 <? S (String.length s))%nat with true. cbn [andb].
    set (n := String.length s).
    pose proof (Nat.div_mod_eq (S n) 3) as D1.
    pose proof (Nat.div_mod_eq n 3) as D2.
    pose proof (Nat.mod_upper_bound (S n) 3 ltac:(lia)) as B1.
    pose proof (Nat.mod_upper_bound n 3 ltac:(lia)) as B2.
    destruct (Nat.eqb_spec (S n mod 3) 0) as [Z|NZ]; cbn [String.length]; lia.
Qed.

(** X11. [formatNumber] changes the printed number, rounded to two
    decimals, only by inserting commas: its result and that printed number
    are the same string once commas are taken out, for every number, NaN
    and the infinities included. *)
Theorem formatNumber_inserts_commas (num : number) :
  Str.removeCommas (Utils.formatNumber num)
  = Str.removeCommas (Print.toString (Parse.toNumber (Print.toFixed num 2))).
Proof.
  unfold Utils.formatNumber.
  set (printed := Print.toString _).
  pose proof (join_split_dot printed) as J.
  pose proof (split_dot_nonempty printed) as NE.
  destruct (Str.split_dot printed) as [|p0 rest]; [contradiction|].
  rewrite <- J. destruct rest as [|r rest]; simpl.
  - apply removeCommas_group.
  - rewrite (join_dot_cons (Utils.groupThousands p0)) by discriminate.
    rewrite (join_dot_cons p0) by discriminate.
    rewrite !removeCommas_append. f_equal. apply removeCommas_group.
Qed.

(** X12. The thousands grouping of [formatNumber] applied to a string of
    [n] decimal digits only inserts commas, [(n - 1) / 3] of them. *)
Theorem groupThousands_digits (s : string) :
  forallb Str.is_digit (list_ascii_of_string s) = true ->
  Str.removeCommas (Utils.groupThousands s) = s
  /\ String.length (Utils.groupThousands s)
     = (String.length s + (String.length s - 1) / 3)%nat.
Proof.
  intros H. split.
  - unfold Utils.groupThousands. rewrite removeCommas_group.
    induction s as [|c s IH]; [reflexivity|].
    cbn [list_ascii_of_string forallb] in H.
    apply andb_prop in H as [Hc Hs]. cbn [Str.removeCommas].
    destruct (Ascii.eqb_spec c ",") as [->|_]; [discriminate Hc|].
    now rewrite IH.
  - destruct s as [|c s]; [reflexivity|].
    cbn [list_ascii_of_string forallb] in H.
    apply andb_prop in H as [Hc Hs].
    assert (W : Str.is_word_char c = true)
      by (unfold Str.is_word_char; now rewrite Hc).
    unfold Utils.groupThousands. rewrite groupFrom_unfold.
    unfold Utils.groupHere. rewrite W. cbn [Bool.eqb andb].
    rewrite length_append. cbn [String.length].
    rewrite (groupFrom_digits_length c s W Hs).
    replace (S (String.length s) - 1)%nat with (String.length s) by lia.
    reflexivity.
Qed.

Lemma groupThousands_digits_witness :
  Utils.groupThousands "1234567" = "1,234,567"%string
  /\ String.length (Utils.groupThousands "1234567") = 9%nat.
Proof.
  split; [reflexivity|].
  rewrite (proj2 (groupThousands_digits "1234567"%string eq_refl)).
  reflexivity.
Defined.

(** ** The name of the download *)

Lemma replaceUnsafe_length (s : string) :
  String.length (replaceUnsafe s) = String.length s.
Proof. induction s as [|c s IH]; [reflexivity|]. cbn. now rewrite IH. Qed.

Lemma replaceUnsafe_only (s : string) :
  onlyFilenameChars (replaceUnsafe s) = true.
Proof.
  unfold onlyFilenameChars. induction s as [|c s IH]; [reflexivity|].
  cbn [replaceUnsafe list_ascii_of_string forallb]. rewrite IH, andb_true_r.
  destruct (isFilenameChar c) eqn:E; [exact E | reflexivity].
Qed.

Lemma replaceUnsafe_fixed (s : string) :
  onlyFilenameChars s = true -> replaceUnsafe s = s.
Proof.
  unfold onlyFilenameChars. induction s as [|c s IH]; [reflexivity|].
  cbn [replaceUnsafe list_ascii_of_string forallb].
  intros H. apply andb_prop in H as [Hc Hs]. now rewrite Hc, IH.
Qed.

Lemma substring_0_length (n : nat) (s : string) :
  String.length (String.substring 0 n s) = Nat.min n (String.length s).
Proof.
  revert s. induction n as [|n IH]; intros s.
  - now destruct s.
  - destruct s as [|c s]; [reflexivity|]. cbn. now rewrite IH.
Qed.

Lemma substring_0_only (n : nat) (s : string) :
  onlyFilenameChars s = true ->
  onlyFilenameChars (String.substring 0 n s) = true.
Proof.
  unfold onlyFilenameChars. revert s. induction n as [|n IH]; intros s H.
  - now destruct s.
  - destruct s as [|c s]; [reflexivity|].
    cbn [list_ascii_of_string forallb] in H. apply andb_prop in H as [Hc Hs].
    cbn [String.substring list_ascii_of_string forallb]. now rewrite Hc, IH.
Qed.

Lemma substring_0_all (n : nat) (s : string) :
  (String.length s <= n)%nat -> String.substring 0 n s = s.
Proof.
  revert s. induction n as [|n IH]; intros s H.
  - destruct s; [reflexivity | cbn in H; lia].
  - destruct s as [|c s]; [reflexivity|]. cbn in H |- *.
    rewrite IH by lia. reflexivity.
Qed.

Lemma sanitizeFilename_length (filename : string) :
  String.length (sanitizeFilename filename)
  = Nat.min 255 (String.length filename).
Proof.
  unfold sanitizeFilename. now rewrite substring_0_length, replaceUnsafe_length.
Qed.

Lemma sanitizeFilename_only (filename : string) :
  onlyFilenameChars (sanitizeFilename filename) = true.
Proof. apply substring_0_only, replaceUnsafe_only. Qed.

(** X13. [Utils.sanitizeFilename] keeps the length of a string up to 255
    characters and cuts a longer one to 255; every character of its result
    is a letter, a digit, ["_"] or ["-"]; sanitizing twice is sanitizing
    once; and the strings it returns unchanged are exactly those of at most
    255 such characters. *)
Theorem sanitizeFilename_safe (filename : string) :
  String.length (sanitizeFilename filename)
  = Nat.min 255 (String.length filename)
  /\ onlyFilenameChars (sanitizeFilename filename) = true
  /\ sanitizeFilename (sanitizeFilename filename) = sanitizeFilename filename
  /\ (sanitizeFilename filename = filename
      <-> onlyFilenameChars filename = true
          /\ (String.length filename <= 255)%nat).
Proof.
  split; [apply sanitizeFilename_length|].
  split; [apply sanitizeFilename_only|].
  assert (F : forall s, onlyFilenameChars s = true ->
                (String.length s <= 255)%nat -> sanitizeFilename s = s).
  { intros s O L. unfold sanitizeFilename.
    rewrite (replaceUnsafe_fixed s O). now apply substring_0_all. }
  split.
  - apply F; [apply sanitizeFilename_only|].
    rewrite sanitizeFilename_length. lia.
  - split.
    + intros E. split.
      * rewrite <- E. apply sanitizeFilename_only.
      * rewrite <- E, sanitizeFilename_length. lia.
    + intros [O L]. now apply F.
Qed.

Lemma sanitizeFilename_safe_witness :
  sanitizeFilename "report_2024-Q3" = "report_2024-Q3"%string.
Proof.
  apply (proj2 (proj2 (proj2 (proj2 (sanitizeFilename_safe "report_2024-Q3"))))).
  split; [reflexivity | cbn; lia].
Defined.

Lemma onlyFilenameChars_append (s t : string) :
  onlyFilenameChars (String.append s t)
  = onlyFilenameChars s && onlyFilenameChars t.
Proof.
  unfold onlyFilenameChars. induction s as [|c s IH]; [reflexivity|].
  change (String.append (String c s) t) with (String c (String.append s t)).
  cbn [list_ascii_of_string forallb]. now rewrite IH, andb_assoc.
Qed.

Lemma digit_isFilenameChar (c : ascii) :
  Str.is_digit c = true -> isFilenameChar c = true.
Proof.
  unfold Str.is_digit, isFilenameChar. intros ->.
  now rewrite !orb_true_r.
Qed.

Lemma digits_only (s : string) :
  forallb Str.is_digit (list_ascii_of_string s) = true ->
  onlyFilenameChars s = true.
Proof.
  unfold onlyFilenameChars. induction s as [|c s IH]; [reflexivity|].
  cbn [list_ascii_of_string forallb]. intros H.
  apply andb_prop in H as [Hc Hs].
  now rewrite (digit_isFilenameChar c Hc), IH.
Qed.

Lemma string_of_uint_digits (u : Decimal.uint) :
  forallb Str.is_digit (list_ascii_of_string (NilEmpty.string_of_uint u)) = true.
Proof. induction u; cbn; auto. Qed.

Lemma of_N_digits (n : N) :
  forallb Str.is_digit (list_ascii_of_string (Str.of_N n)) = true.
Proof.
  unfold Str.of_N, NilZero.string_of_uint.
  destruct (N.to_uint n) eqn:E; try reflexivity;
    rewrite <- E; apply string_of_uint_digits.
Qed.

Lemma zeros_digits (n : nat) :
  forallb Str.is_digit (list_ascii_of_string (Str.zeros n)) = true.
Proof. induction n; [reflexivity|]. cbn. exact IHn. Qed.

Lemma padStart2_only (n : N) : onlyFilenameChars (padStart2 (Str.of_N n)) = true.
Proof.
  unfold padStart2. rewrite onlyFilenameChars_append.
  now rewrite (digits_only _ (zeros_digits _)), (digits_only _ (of_N_digits n)).
Qed.

Lemma trim_nonempty_length (s : string) :
  Str.isEmpty s = false -> (0 < String.length s)%nat.
Proof. destruct s; [discriminate|]. cbn. lia. Qed.

Lemma padStart2_two_digits (n : N) :
  (n < 100)%N -> String.length (padStart2 (Str.of_N n)) = 2%nat.
Proof.
  intros L.
  assert (A : forallb (fun k => (String.length (padStart2 (Str.of_N (N.of_nat k)))
                                 =? 2)%nat)
                      (seq 0 100) = true) by (vm_compute; reflexivity).
  rewrite forallb_forall in A.
  specialize (A (N.to_nat n)). rewrite N2Nat.id in A.
  apply Nat.eqb_eq, A, in_seq. lia.
Qed.

(** X14. Whatever the page's file name input holds (or when there is no
    such input) and whatever the date, the name that [getFormattedFilename]
    gives the download is not empty and consists of letters, digits, ["_"]
    and ["-"] only. When the input, trimmed, is not empty, the name is its
    sanitized form, of at most 255 characters; when the input is missing or
    blank after trimming, the name is "comparison_report_" followed by the
    year, "-", the month counted from 1, "-" and the day, the month and the
    day filled to two digits with "0". *)
Theorem getFormattedFilename_safe (filenameInput : option string) (now : Date) :
  getFormattedFilename filenameInput now <> EmptyString
  /\ onlyFilenameChars (getFormattedFilename filenameInput now) = true
  /\ (forall value,
        filenameInput = Some value -> Str.trim value <> EmptyString ->
        getFormattedFilename filenameInput now
        = sanitizeFilename (Str.trim value)
        /\ (String.length (getFormattedFilename filenameInput now) <= 255)%nat)
  /\ (filenameInput = None
      \/ (exists value, filenameInput = Some value /\ Str.trim value = EmptyString) ->
      getFormattedFilename filenameInput now
      = ("comparison_report_" ++ Str.of_N (getFullYear now)
           ++ "-" ++ padStart2 (Str.of_N (getMonth now + 1))
           ++ "-" ++ padStart2 (Str.of_N (getDate now)))%string)
  /\ ((getMonth now < 12)%N ->
      String.length (padStart2 (Str.of_N (getMonth now + 1))) = 2%nat)
  /\ ((getDate now <= 31)%N ->
      String.length (padStart2 (Str.of_N (getDate now))) = 2%nat).
Proof.
  unfold getFormattedFilename.
  set (customFilename := match filenameInput with
                         | Some value => Str.trim value
                         | None => EmptyString
                         end).
  split; [|split; [|split; [|split; [|split]]]].
  - destruct (Str.isEmpty customFilename) eqn:E; cbn [negb].
    + discriminate.
    + intros Z. pose proof (sanitizeFilename_length customFilename) as L.
      rewrite Z in L. pose proof (trim_nonempty_length _ E).
      change (String.length EmptyString) with 0%nat in L. lia.
  - destruct (Str.isEmpty customFilename); cbn [negb].
    + unfold getCurrentDateString.
      rewrite !onlyFilenameChars_append, !padStart2_only.
      rewrite (digits_only _ (of_N_digits _)). reflexivity.
    + apply sanitizeFilename_only.
  - intros value -> N. subst customFilename.
    destruct (Str.trim value) eqn:E; [contradiction|]. cbn [Str.isEmpty negb].
    split; [reflexivity|]. rewrite sanitizeFilename_length. lia.
  - intros H.
    assert (E : customFilename = EmptyString).
    { subst customFilename. destruct H as [->|(value & -> & T)]; auto. }
    rewrite E. reflexivity.
  - intros L. apply padStart2_two_digits. lia.
  - intros L. apply padStart2_two_digits. lia.
Qed.

Lemma getFormattedFilename_safe_witness :
  getFormattedFilename (Some " Q3 report (final).xlsx ") (LocalDate 2024 0 5)
  = "Q3_report__final__xlsx"%string
  /\ getFormattedFilename (Some "   ") (LocalDate 2024 0 5)
     = "comparison_report_2024-01-05"%string.
Proof.
  split.
  - apply (proj1 (proj2 (proj2 (getFormattedFilename_safe
                                  (Some " Q3 report (final).xlsx "%string)
                                  (LocalDate 2024 0 5))))
             " Q3 report (final).xlsx "%string eq_refl).
    discriminate.
  - rewrite (proj1 (proj2 (proj2 (proj2 (getFormattedFilename_safe
                                           (Some "   "%string)
                                           (LocalDate 2024 0 5)))))).
    + reflexivity.
    + right. exists "   "%string. split; reflexivity.
Defined.

(** ** Files that are turned away *)

Lemma hasSignature_lookup (data data' : list ascii) (signature : list N) :
  (forall i, (i < length signature)%nat -> data !! i = data' !! i) ->
  hasSignature data signature = hasSignature data' signature.
Proof.
  intros H. unfold hasSignature. apply eq_true_iff_eq.
  rewrite !forallb_forall.
  split; intros F i I; specialize (F i I); apply in_seq in I;
    [rewrite <- H by lia | rewrite H by lia]; exact F.
Qed.

Lemma headText_take (n k : nat) (data : list ascii) :
  (n <= k)%nat -> headText n (take k data) = headText n data.
Proof.
  intros L. unfold headText. rewrite length_take, take_take. f_equal. f_equal. lia.
Qed.

Lemma isEncryptedFile_take (data : list ascii) :
  isEncryptedFile (take 2048 data) = isEncryptedFile data.
Proof.
  unfold isEncryptedFile.
  rewrite !(headText_take _ 2048) by lia.
  rewrite (hasSignature_lookup (take 2048 data) data oleSignature)
    by (intros i I; cbn in I; apply lookup_take_lt; lia).
  rewrite (hasSignature_lookup (take 2048 data) data zipSignature)
    by (intros i I; cbn in I; apply lookup_take_lt; lia).
  rewrite length_take.
  assert (E8 : (8 <=? Nat.min 2048 (length data))%nat = (8 <=? length data)%nat).
  { destruct (Nat.leb_spec 8 (length data)), (Nat.leb_spec 8 (Nat.min 2048 (length data)));
      try reflexivity; lia. }
  assert (E4 : (4 <=? Nat.min 2048 (length data))%nat = (4 <=? length data)%nat).
  { destruct (Nat.leb_spec 4 (length data)), (Nat.leb_spec 4 (Nat.min 2048 (length data)));
      try reflexivity; lia. }
  now rewrite E8, E4.
Qed.

(** X15. [isEncryptedFile] decides on the first 2048 bytes of a file
    alone: two files with the same first 2048 bytes get the same answer,
    whatever follows. *)
Theorem isEncryptedFile_first_2048 (data data' : list ascii) :
  take 2048 data = take 2048 data' ->
  isEncryptedFile data = isEncryptedFile data'.
Proof.
  intros E. rewrite <- (isEncryptedFile_take data), E. apply isEncryptedFile_take.
Qed.

Lemma hasSignature_prefix (data : list ascii) (signature : list N) :
  Str.code <$> take (length signature) data = signature ->
  hasSignature data signature = true.
Proof.
  intros E. unfold hasSignature. apply forallb_forall. intros i I.
  apply in_seq in I. apply bool_decide_eq_true.
  transitivity ((Str.code <$> take (length signature) data) !! i);
    [|now rewrite E].
  rewrite list_lookup_fmap, lookup_take_lt by lia. reflexivity.
Qed.

Lemma isEncryptedFile_zip (data : list ascii) :
  Str.code <$> take 4 data = zipSignature ->
  Str.includes (string_of_list_ascii (take 2048 data)) "xl/workbook.xml" = false ->
  isEncryptedFile data = true.
Proof.
  intros Z W. unfold isEncryptedFile.
  assert (L : (4 <= length data)%nat).
  { apply (f_equal length) in Z. rewrite length_fmap, length_take in Z.
    change (length zipSignature) with 4%nat in Z. lia. }
  assert (H : headText 2048 data = string_of_list_ascii (take 2048 data)).
  { unfold headText. f_equal.
    destruct (Nat.le_gt_cases 2048 (length data)) as [G|G].
    - now rewrite Nat.min_l by lia.
    - rewrite Nat.min_r by lia. now rewrite !take_ge by lia. }
  rewrite H, W, (hasSignature_prefix data zipSignature Z).
  destruct (Nat.leb_spec 4 (length data)); [|lia].
  cbn [negb]. rewrite !orb_true_r.
  now destruct (if (8 <=? length data)%nat then _ else false).
Qed.

(** X16. A file that starts with the ZIP signature 50 4B 03 04 and does
    not have the text "xl/workbook.xml" within its first 2048 bytes is
    rejected by [readExcelFile] with the message for encrypted files,
    whatever [XLSX.read] would make of it. *)
Theorem readExcelFile_needs_early_workbook_xml
    (XLSX_read : list ascii -> parsed) (file : File.t) (data : list ascii) :
  File.bytes file = Some data ->
  Str.code <$> take 4 data = zipSignature ->
  Str.includes (string_of_list_ascii (take 2048 data)) "xl/workbook.xml" = false ->
  readExcelFile XLSX_read file = Throw (Error encryptedMessage).
Proof.
  intros B Z W. unfold readExcelFile.
  now rewrite B, (isEncryptedFile_zip data Z W).
Qed.

Lemma isEncryptedFile_first_2048_witness :
  isEncryptedFile sampleLateArchive = isEncryptedFile sampleArchive.
Proof.
  apply (isEncryptedFile_first_2048 sampleLateArchive sampleArchive).
  vm_compute. reflexivity.
Defined.

Lemma readExcelFile_needs_early_workbook_xml_witness :
  readExcelFile readsSample
    (File.Make "late.xlsx" "application/octet-stream" 2138 (Some sampleLateArchive))
  = Throw (Error encryptedMessage).
Proof.
  apply (readExcelFile_needs_early_workbook_xml readsSample _ sampleLateArchive).
  - reflexivity.
  - vm_compute. reflexivity.
  - vm_compute. reflexivity.
Defined.

(** ** Choosing files *)

Lemma performComparison_keeps_data (this : ExcelComparator) :
  originalData (performComparison this).1 = originalData this
  /\ modifiedData (performComparison this).1 = modifiedData this.
Proof.
  unfold performComparison.
  destruct (validateStructures (clearDifferenceMap this)) as [v|e];
    cbn [mbind completion_bind]; [|split; reflexivity].
  destruct (negb (isValid v)); [split; reflexivity|].
  destruct (compareFiles (clearDifferenceMap this)) as [compared|e] eqn:E;
    [|split; reflexivity].
  destruct (compareFiles_keeps _ _ E) as (Ko & Km & _).
  unfold generateReport.
  destruct (createComparisonSheets compared []);
    cbn [mbind completion_bind fst originalData modifiedData];
    rewrite ?Ko, ?Km; split; reflexivity.
Qed.

Lemma readExcelFile_Normal (XLSX_read : list ascii -> parsed)
    (file : File.t) (workbook : workbook) :
  readExcelFile XLSX_read file = Normal workbook ->
  exists data,
    File.bytes file = Some data
    /\ isEncryptedFile data = false
    /\ XLSX_read data = Workbook_read workbook
    /\ SheetNames workbook <> [].
Proof.
  unfold readExcelFile. destruct (File.bytes file) as [data|]; [|discriminate].
  destruct (isEncryptedFile data) eqn:I; [discriminate|].
  destruct (XLSX_read data) as [wb|message] eqn:X.
  - destruct (SheetNames wb) as [|n ns] eqn:S; [discriminate|].
    cbn [length Nat.eqb]. intros [= <-]. exists data. rewrite S.
    repeat split; auto; discriminate.
  - now destruct (_ && _).
Qed.

Section Pages.

Variable XLSX_read : list ascii -> parsed.
Variable formatFileSize : N -> string.
Variable disabled : option bool.

Local Abbreviation paired' := (paired XLSX_read formatFileSize).
Local Abbreviation consistent' := (consistent XLSX_read formatFileSize disabled).

Lemma constructed_consistent : consistent' (constructed disabled).
Proof.
  repeat split; cbn; auto. intros fileType file H. inversion H.
Qed.

Lemma updateCompareButton_consistent (page : Page) :
  paired' (originalFile page) (originalData (comparator page)) ->
  paired' (modifiedFile page) (modifiedData (comparator page)) ->
  (forall fileType file,
      (fileType, file) ∈ reading page ->
      isValid (validateFile formatFileSize file) = true) ->
  (compareBtn page = None -> disabled = None) ->
  consistent' (updateCompareButton page).
Proof.
  intros Po Pm R B. unfold updateCompareButton, consistent.
  destruct (compareBtn page) as [b|] eqn:E.
  - cbn [comparator originalFile modifiedFile reading compareBtn].
    repeat split; auto.
  - rewrite E. repeat split; auto. left. symmetry. now apply B.
Qed.

Lemma button_kept (page : Page) :
  consistent' page -> compareBtn page = None -> disabled = None.
Proof.
  intros (_ & _ & _ & [B|B]) E; [congruence|]. rewrite E in B. discriminate.
Qed.

Lemma setSlot_consistent (page : Page) (fileType : FileType)
    (file : option File.t) (data : option workbook) :
  consistent' page -> paired' file data ->
  consistent' (updateCompareButton (setSlot page fileType file data)).
Proof.
  intros C P. pose proof (button_kept page C) as B.
  destruct C as (Po & Pm & R & _).
  apply updateCompareButton_consistent; destruct fileType; cbn; auto.
Qed.

Lemma handleFileUpload_consistent (page : Page) (file : option File.t)
    (fileType : FileType) :
  consistent' page ->
  consistent' (handleFileUpload formatFileSize page file fileType).
Proof.
  intros C. unfold handleFileUpload. destruct file as [file|].
  - destruct (isValid (validateFile formatFileSize file)) eqn:V; cbn [negb];
      [|exact C].
    destruct C as (Po & Pm & R & B). repeat split; auto.
    cbn [reading]. intros ft f H. apply elem_of_app in H as [H|H].
    + now apply (R ft f).
    + apply list_elem_of_singleton in H. now injection H as -> ->.
  - unfold clearFileStatus. now apply setSlot_consistent.
Qed.

Lemma resumeFileUpload_consistent (page : Page) (i : nat) :
  consistent' page -> consistent' (resumeFileUpload XLSX_read page i).
Proof.
  intros C. unfold resumeFileUpload.
  destruct (reading page !! i) as [[fileType file]|] eqn:L; [|exact C].
  assert (S : consistent'
                {| comparator := comparator page;
                   originalFile := originalFile page;
                   modifiedFile := modifiedFile page;
                   compareBtn := compareBtn page;
                   reading := delete i (reading page) |}).
  { destruct C as (Po & Pm & R & B). repeat split; auto.
    cbn [reading]. intros ft f H. apply (R ft f).
    exact (elem_of_sublist _ _ _ H (sublist_delete _ _)). }
  destruct (readExcelFile XLSX_read file) as [data|e] eqn:E; [|exact S].
  apply setSlot_consistent; [exact S|]. split; [|exact E].
  destruct C as (_ & _ & R & _). apply (R fileType file).
  now apply list_elem_of_lookup_2 with i.
Qed.

Lemma handleDrop_consistent (page : Page) (files : list File.t)
    (originalFileInput modifiedFileInput : bool) :
  consistent' page ->
  consistent'
    (handleDrop formatFileSize page files originalFileInput modifiedFileInput).
Proof.
  intros C. unfold handleDrop.
  destruct (0 <? length files)%nat; [|exact C].
  destruct (_ && originalFileInput); [now apply handleFileUpload_consistent|].
  destruct (_ && modifiedFileInput); [now apply handleFileUpload_consistent|].
  exact C.
Qed.

Lemma step_consistent (page page' : Page) :
  step XLSX_read formatFileSize page page' ->
  consistent' page -> consistent' page'.
Proof.
  intros S C. destruct S as [page file fileType | page files oi mi | page i
                            | page value | page B].
  - now apply handleFileUpload_consistent.
  - now apply handleDrop_consistent.
  - now apply resumeFileUpload_consistent.
  - exact C.
  - destruct (performComparison_keeps_data (comparator page)) as [Ko Km].
    destruct C as (Po & Pm & R & Bt). unfold consistent, withComparator.
    cbn [comparator originalFile modifiedFile reading compareBtn].
    rewrite Ko, Km. repeat split; auto.
Qed.

Lemma reachable_consistent (page : Page) :
  reachable XLSX_read formatFileSize disabled page -> consistent' page.
Proof.
  induction 1 as [|page page' _ IH S].
  - apply constructed_consistent.
  - exact (step_consistent page page' S IH).
Qed.

Lemma enabled_loaded (page : Page) :
  consistent' page -> disabled <> Some false -> compareBtn page = Some false ->
  exists (originalFile' modifiedFile' : File.t) (o m : workbook),
    originalFile page = Some originalFile'
    /\ modifiedFile page = Some modifiedFile'
    /\ originalData (comparator page) = Some o
    /\ modifiedData (comparator page) = Some m
    /\ readExcelFile XLSX_read originalFile' = Normal o
    /\ readExcelFile XLSX_read modifiedFile' = Normal m.
Proof.
  intros (Po & Pm & _ & [B|B]) D E; [congruence|].
  rewrite E in B. unfold bothChosen in B. unfold paired in Po, Pm.
  destruct (originalFile page) as [f|]; [|discriminate].
  destruct (modifiedFile page) as [g|]; [|discriminate].
  destruct (originalData (comparator page)) as [o|]; [|contradiction].
  destruct (modifiedData (comparator page)) as [m|]; [|contradiction].
  exists f, g, o, m. tauto.
Qed.

End Pages.

(** X17. Through every sequence of events (files chosen, removed or
    dropped, reads settling in any order, a failed or rejected upload, a
    format chosen, a comparison run) each of the two slots holds either
    no file and no workbook, or a file that [validateFile] accepts together
    with the workbook that [readExcelFile] resolves with for that very
    file; and unless the markup leaves the button enabled, the button is
    enabled only while both slots hold a file. *)
Theorem upload_keeps_file_and_workbook_paired
    (XLSX_read : list ascii -> parsed) (formatFileSize : N -> string)
    (disabled : option bool) (page : Page) :
  reachable XLSX_read formatFileSize disabled page ->
  paired XLSX_read formatFileSize
    (originalFile page) (originalData (comparator page))
  /\ paired XLSX_read formatFileSize
       (modifiedFile page) (modifiedData (comparator page))
  /\ (disabled <> Some false -> compareBtn page = Some false ->
      is_Some (originalFile page) /\ is_Some (modifiedFile page)).
Proof.
  intros R. pose proof (reachable_consistent _ _ _ _ R) as C.
  split; [apply C|]. split; [apply C|]. intros D E.
  destruct (enabled_loaded _ _ _ _ C D E) as (f & g & o & m & -> & -> & _).
  split; eexists; reflexivity.
Qed.

Lemma upload_keeps_file_and_workbook_paired_witness :
  originalFile samplePage = Some sampleFile
  /\ paired readsSample noFileSize
       (originalFile samplePage) (originalData (comparator samplePage)).
Proof.
  split; [reflexivity|].
  refine (proj1 (upload_keeps_file_and_workbook_paired readsSample noFileSize
                   (Some true) samplePage _)).
  unfold samplePage, sampleOriginalChosen.
  eapply reachable_step; [|apply step_settle].
  eapply reachable_step; [|apply step_change].
  eapply reachable_step; [|apply step_settle].
  eapply reachable_step; [|apply step_change].
  apply reachable_constructed.
Defined.

(** ** The click on the compare button *)

Lemma validateStructures_loaded (this : ExcelComparator) (o m : workbook) :
  originalData this = Some o -> modifiedData this = Some m ->
  (SheetNames o = SheetNames m
   /\ validateStructures this = Normal (Validated true None))
  \/ (SheetNames o <> SheetNames m
      /\ exists message,
           validateStructures this = Normal (Validated false (Some message))).
Proof.
  intros Ho Hm. unfold validateStructures. rewrite Ho, Hm.
  cbn [deref mbind completion_bind].
  destruct (Nat.eqb_spec (length (SheetNames o)) (length (SheetNames m)))
    as [L|L]; cbn [negb].
  - destruct (firstMismatch (SheetNames o) (SheetNames m)) as [[x y]|] eqn:F.
    + right. split; [|eauto]. intros E.
      apply (firstMismatch_None _ _ L) in E. congruence.
    + left. split; [|reflexivity]. now apply (firstMismatch_None _ _ L).
  - right. split; [|eauto]. intros E. apply L. now rewrite E.
Qed.

Lemma performComparison_loaded (this : ExcelComparator) (o m : workbook) :
  originalData this = Some o -> modifiedData this = Some m ->
  listsItsSheets o -> listsItsSheets m ->
  match (performComparison this).2 with
  | None =>
      SheetNames o = SheetNames m /\ reportable (SheetNames o)
      /\ comparisonResult (performComparison this).1
         = Some (Comparison (allDifferences o m) (length (allDifferences o m))
                            (length (SheetNames o)))
      /\ exists sheets : report,
           reportWorkbook (performComparison this).1 = Some sheets
           /\ reportSheets this o m (SheetNames o) sheets
  | Some error =>
      (SheetNames o <> SheetNames m
       \/ (SheetNames o = SheetNames m /\ ~ reportable (SheetNames o)))
      /\ exists text, error = Error text
  end.
Proof.
  intros Ho Hm Lo Lm.
  destruct (validateStructures_loaded (clearDifferenceMap this) o m Ho Hm)
    as [[E V]|[N (text & V)]].
  - destruct (performComparison_same_names this o m Ho Hm Lo Lm E)
      as (R & _ & [(P & F & S)|(P & (text & F) & _)]); rewrite F.
    + auto.
    + split; [right; auto | eauto].
  - unfold performComparison. rewrite V.
    cbn [mbind completion_bind isValid negb snd message default].
    split; [left; exact N | eauto].
Qed.

(** X18. Whenever the compare button is enabled (the markup not leaving it
    enabled), and [XLSX.read] returning only workbooks with a sheet for
    every name they list, a click finds both workbooks loaded, each with at
    least one sheet name, and [performComparison] never fails on a missing
    workbook or sheet: it shows no error only if the two lists of sheet
    names are equal and every name can be given a report sheet, and it has
    then stored the differences of all sheets and a report with one sheet
    per sheet name; an error that it shows has a message, and is shown
    because the two lists differ or because a name cannot be given a report
    sheet. *)
Theorem compare_click_finds_both_workbooks
    (XLSX_read : list ascii -> parsed) (formatFileSize : N -> string)
    (disabled : option bool) (page : Page) :
  (forall data workbook,
      XLSX_read data = Workbook_read workbook -> listsItsSheets workbook) ->
  disabled <> Some false ->
  reachable XLSX_read formatFileSize disabled page ->
  compareBtn page = Some false ->
  exists o m : workbook,
    originalData (comparator page) = Some o
    /\ modifiedData (comparator page) = Some m
    /\ SheetNames o <> [] /\ SheetNames m <> []
    /\ match (performComparison (comparator page)).2 with
       | None =>
           SheetNames o = SheetNames m /\ reportable (SheetNames o)
           /\ comparisonResult (performComparison (comparator page)).1
              = Some (Comparison (allDifferences o m)
                                 (length (allDifferences o m))
                                 (length (SheetNames o)))
           /\ exists sheets : report,
                reportWorkbook (performComparison (comparator page)).1
                = Some sheets
                /\ reportSheets (comparator page) o m (SheetNames o) sheets
       | Some error =>
           (SheetNames o <> SheetNames m
            \/ (SheetNames o = SheetNames m /\ ~ reportable (SheetNames o)))
           /\ exists text, error = Error text
       end.
Proof.
  intros X D R E. pose proof (reachable_consistent _ _ _ _ R) as C.
  destruct (enabled_loaded _ _ _ _ C D E)
    as (f & g & o & m & _ & _ & Ho & Hm & Ro & Rm).
  destruct (readExcelFile_Normal _ _ _ Ro) as (dataO & _ & _ & Xo & So).
  destruct (readExcelFile_Normal _ _ _ Rm) as (dataM & _ & _ & Xm & Sm).
  exists o, m. split; [exact Ho|]. split; [exact Hm|].
  split; [exact So|]. split; [exact Sm|].
  exact (performComparison_loaded (comparator page) o m Ho Hm
           (X _ _ Xo) (X _ _ Xm)).
Qed.

Lemma compare_click_finds_both_workbooks_witness :
  exists o m : workbook,
    originalData (comparator samplePage) = Some o
    /\ modifiedData (comparator samplePage) = Some m
    /\ SheetNames o <> [] /\ SheetNames m <> []
    /\ match (performComparison (comparator samplePage)).2 with
       | None =>
           SheetNames o = SheetNames m /\ reportable (SheetNames o)
           /\ comparisonResult (performComparison (comparator samplePage)).1
              = Some (Comparison (allDifferences o m)
                                 (length (allDifferences o m))
                                 (length (SheetNames o)))
           /\ exists sheets : report,
                reportWorkbook (performComparison (comparator samplePage)).1
                = Some sheets
                /\ reportSheets (comparator samplePage) o m (SheetNames o) sheets
       | Some error =>
           (SheetNames o <> SheetNames m
            \/ (SheetNames o = SheetNames m /\ ~ reportable (SheetNames o)))
           /\ exists text, error = Error text
       end.
Proof.
  apply (compare_click_finds_both_workbooks readsSample noFileSize (Some true)
           samplePage).
  - intros data workbook. unfold readsSample.
    destruct data as [|first rest]; [|destruct (Ascii.eqb first "m")];
      intros [= <-]; intros n H; apply list_elem_of_singleton in H; subst n;
      now eexists.
  - discriminate.
  - unfold samplePage, sampleOriginalChosen.
    eapply reachable_step; [|apply step_settle].
    eapply reachable_step; [|apply step_change].
    eapply reachable_step; [|apply step_settle].
    eapply reachable_step; [|apply step_change].
    apply reachable_constructed.
  - reflexivity.
Defined.

(** ** Text in a percentage column *)

(** X19. A value that [isPercentageCell] classifies as a percentage is
    formatted as one whatever its type: when it does not convert to a
    number (a text such as "n/a", or [undefined]) the cell shows "NaN%". *)
Theorem formatValue_text_under_percentage (this : ExcelComparator) (v : value)
    (originalCell : option cell) (sheetName : string)
    (cellRef : option address) :
  isPercentageCell this originalCell sheetName cellRef v = true ->
  Js.toNumber v = Num.NaN ->
  formatValue this v originalCell sheetName cellRef = VString "NaN%".
Proof.
  intros P N. unfold formatValue. rewrite P, N. vm_compute. reflexivity.
Qed.

Lemma formatValue_text_under_percentage_witness :
  formatValue sample (VString "n/a") (Some (Cell (VString "n/a") (Some "0.00%")))
    "S" (Some (2, 1)%nat)
  = VString "NaN%".
Proof.
  apply (formatValue_text_under_percentage sample (VString "n/a")
           (Some (Cell (VString "n/a") (Some "0.00%"%string)))
           "S"%string (Some (2, 1)%nat)).
  - reflexivity.
  - vm_compute. reflexivity.
Defined.
